(** * EduChat: chaptering, chunking and indexing of an uploaded textbook

    A shallow embedding of the PDF pipeline of [pages/2_📖_Book_Chat.py]
    (the OpenAI variant) and of [pages/app2.py] (the Anthropic variant):
    [split_text_into_chunks], [extract_chapters_from_pdf],
    [extract_chapter_text], the sidebar upload handler that indexes the
    chunks of every chapter in a persistent vector collection,
    [generate_rag_content] and the part of the main area that selects a
    chapter and stores its guide.

    Conventions of the embedding.
    - A Python [str] is a [string]; its characters are the code points
      below 256.  The character classes used below ([str.isspace], [\s],
      [\d], [str.lower], the [(?i)] flag) are the ones of Python 3 on
      that range.
    - A Python [int] is a [Z]; indices produced by [range(len(..))] are
      [nat].
    - Code that can raise returns a [result]; an exception aborts the
      remaining statements, as it does in the script.
    - The PDF readers (PyPDF2, pdfplumber), the hash (hashlib.md5) and the
      vector store (chromadb) are collaborators: the first two appear as
      the data they return, the hash as a function given to the upload
      handler, the store as a finite map from ids to records.  The store
      rejects a call of [add] with empty lists, keeps an integer of 64
      bits as it is and a larger one as a floating-point number.
    - [int(s)] is applied by the code to strings of decimal digits only;
      from Python 3.11 on it raises a [ValueError] for more than 4300
      digits.  [toc_chapter] and [BookChat.extract_chapters_from_pdf] are
      the chapters when every page number converts;
      [extract_chapters_int] and [handle_upload_int] have the exception,
      and agree with them otherwise. *)

From Stdlib Require Import ZArith Lia Ascii DecimalString DecimalNat.
From stdpp Require Import base gmap strings list.

Open Scope Z_scope.

(** ** Python strings *)

Module Py.

Definition newline : ascii := "010"%char.

(** The separator ['\n\n'] of paragraphs and of the pieces of a chunk. *)
Definition blank_line : string := String newline (String newline "").

(** [c.isspace()] for a character below 256; also the class [\s]. *)
Definition isspace (c : ascii) : bool :=
  let n := N_of_ascii c in
  ((9 <=? n) && (n <=? 13) || (28 <=? n) && (n <=? 31) || (n =? 32)
   || (n =? 133) || (n =? 160))%N.

(** [c.isdecimal()] for a character below 256; also the class [\d]. *)
Definition isdigit (c : ascii) : bool :=
  let n := N_of_ascii c in ((48 <=? n) && (n <=? 57))%N.

(** [c.lower()] for a character below 256. *)
Definition lower_char (c : ascii) : ascii :=
  let n := N_of_ascii c in
  if ((65 <=? n) && (n <=? 90)
      || (192 <=? n) && (n <=? 222) && negb (n =? 215))%N
  then ascii_of_N (n + 32) else c.

Fixpoint lower (s : string) : string :=
  match s with
  | EmptyString => EmptyString
  | String c s' => String (lower_char c) (lower s')
  end.

(** [s + c] for a single character [c]. *)
Definition snoc (s : string) (c : ascii) : string := s +:+ String c "".

(** [sep.join(l)]. *)
Fixpoint join (sep : string) (l : list string) : string :=
  match l with
  | [] => ""
  | [x] => x
  | x :: rest => x +:+ sep +:+ join sep rest
  end.

(** The word that [s.split()] has read so far, if any. *)
Definition emit (cur : string) : list string :=
  match cur with
  | EmptyString => []
  | _ => [cur]
  end.

Fixpoint split_ws_go (cur s : string) : list string :=
  match s with
  | EmptyString => emit cur
  | String c s' =>
      if isspace c then emit cur ++ split_ws_go "" s'
      else split_ws_go (snoc cur c) s'
  end.

(** [s.split()]: the maximal runs of characters that are not whitespace. *)
Definition split_ws (s : string) : list string := split_ws_go "" s.

(** [s.split('\n\n')]: cut at every occurrence of two newlines, scanning
    from the left; occurrences do not overlap. *)
Fixpoint split_blank_go (cur s : string) : list string :=
  match s with
  | EmptyString => [cur]
  | String c s' =>
      match s' with
      | String d s'' =>
          if Ascii.eqb c newline && Ascii.eqb d newline
          then cur :: split_blank_go "" s''
          else split_blank_go (snoc cur c) s'
      | EmptyString => split_blank_go (snoc cur c) s'
      end
  end.

Definition split_blank (s : string) : list string := split_blank_go "" s.

(** [s.lstrip()], [s.rstrip()] and [s.strip()]. *)
Fixpoint lstrip (s : string) : string :=
  match s with
  | EmptyString => EmptyString
  | String c s' => if isspace c then lstrip s' else s
  end.

Fixpoint rstrip (s : string) : string :=
  match s with
  | EmptyString => EmptyString
  | String c s' =>
      match rstrip s' with
      | EmptyString => if isspace c then EmptyString else String c ""
      | r => String c r
      end
  end.

Definition strip (s : string) : string := rstrip (lstrip s).

(** [s.startswith(p)] and [p in s]. *)
Fixpoint startswith (p s : string) : bool :=
  match p, s with
  | EmptyString, _ => true
  | String a p', String b s' => Ascii.eqb a b && startswith p' s'
  | String _ _, EmptyString => false
  end.

Fixpoint contains (p s : string) : bool :=
  startswith p s ||
  match s with
  | EmptyString => false
  | String _ s' => contains p s'
  end.

(** [int(s)] for a string of decimal digits. *)
Definition digit_value (c : ascii) : Z := Z.of_N (N_of_ascii c) - 48.

Definition int_of_digits (s : string) : Z :=
  fold_left (fun acc c => 10 * acc + digit_value c) (String.list_ascii_of_string s) 0.

(** [str(n)] for a natural number [n]. *)
Definition str_of_nat (n : nat) : string :=
  NilZero.string_of_uint (Nat.to_uint n).

(** [str(z)] for an integer [z]. *)
Definition str_of_Z (z : Z) : string :=
  if z <? 0 then "-" +:+ str_of_nat (Z.to_nat (- z)) else str_of_nat (Z.to_nat z).

(** [range(a, b)]. *)
Definition range (a b : Z) : list Z :=
  map (fun i => a + Z.of_nat i) (seq 0 (Z.to_nat (b - a))).

(** [l[i]]: a negative index counts from the end of the list. *)
Definition getitem {A : Type} (l : list A) (i : Z) : option A :=
  if 0 <=? i then l !! Z.to_nat i
  else if - Z.of_nat (length l) <=? i then l !! Z.to_nat (Z.of_nat (length l) + i)
  else None.

(** The truth value of an optional string: [None] and [''] are false. *)
Definition truthy (o : option string) : bool :=
  match o with
  | Some (String _ _) => true
  | _ => false
  end.

End Py.

(** ** Exceptions *)

Inductive exn : Type :=
  | IndexError
  | TypeError
  | AttributeError
  | ValueError.

Inductive result (A : Type) : Type :=
  | Ok (a : A)
  | Raise (e : exn).

Arguments Ok {A} a.
Arguments Raise {A} e.

Definition bind {A B : Type} (m : result A) (f : A -> result B) : result B :=
  match m with
  | Ok a => f a
  | Raise e => Raise e
  end.

Notation "'let*' x ':=' m 'in' k" := (bind m (fun x => k))
  (at level 10, x name, m at level 100, k at level 200).

(** ** The chunker *)

(** The three variables of the loop of [split_text_into_chunks]. *)
Record chunker : Type := {
  chunks : list string;
  current_chunk : list string;
  current_length : Z
}.

Definition chunker_init : chunker :=
  {| chunks := []; current_chunk := []; current_length := 0 |}.

(** [len(para.split())]. *)
Definition para_length (para : string) : Z :=
  Z.of_nat (length (Py.split_ws para)).

(** One iteration of [for para in paragraphs]. *)
Definition chunk_step (chunk_size : Z) (st : chunker) (para : string) : chunker :=
  if current_length st + para_length para >? chunk_size
  then {| chunks := chunks st ++ [Py.join Py.blank_line (current_chunk st)];
          current_chunk := [para];
          current_length := para_length para |}
  else {| chunks := chunks st;
          current_chunk := current_chunk st ++ [para];
          current_length := current_length st + para_length para |}.

Definition chunk_loop (chunk_size : Z) (paragraphs : list string) (st : chunker) : chunker :=
  fold_left (chunk_step chunk_size) paragraphs st.

(** The final [if current_chunk: chunks.append(...)]. *)
Definition chunk_finish (st : chunker) : list string :=
  match current_chunk st with
  | [] => chunks st
  | _ :: _ => chunks st ++ [Py.join Py.blank_line (current_chunk st)]
  end.

Definition split_text_into_chunks (text : string) (chunk_size : Z) : list string :=
  chunk_finish (chunk_loop chunk_size (Py.split_blank text) chunker_init).

(** The default of the parameter [chunk_size]. *)
Definition default_chunk_size : Z := 1000.

(** ** Regular expressions: the fragment used by the pattern of the
    table of contents, with the backtracking order of Python's [re] *)

Module Re.

Inductive regex : Type :=
  | Eps
  | Chr (p : ascii -> bool)
  | Plus (p : ascii -> bool)
  | PlusLazy (p : ascii -> bool)
  | Cat (r1 r2 : regex)
  | Alt (r1 r2 : regex)
  | Group (n : nat) (r : regex).

(** The text between the position of [s] and the position of its
    suffix [s']. *)
Fixpoint take (n : nat) (s : string) : string :=
  match n, s with
  | S n', String c s' => String c (take n' s')
  | _, _ => EmptyString
  end.

Definition consumed (s s' : string) : string :=
  take (String.length s - String.length s') s.

(** [p*], the longest run first. *)
Fixpoint star_greedy {A : Type} (p : ascii -> bool) (s : string)
    (k : string -> option A) : option A :=
  match s with
  | String c s' =>
      if p c then
        match star_greedy p s' k with
        | Some r => Some r
        | None => k s
        end
      else k s
  | EmptyString => k s
  end.

(** [p*?], the shortest run first. *)
Fixpoint star_lazy {A : Type} (p : ascii -> bool) (s : string)
    (k : string -> option A) : option A :=
  match k s with
  | Some r => Some r
  | None =>
      match s with
      | String c s' => if p c then star_lazy p s' k else None
      | EmptyString => None
      end
  end.

(** [rmatch r s caps k]: the first way, in the order of Python's
    backtracking, to match [r] at the start of [s] such that the
    continuation [k] accepts the rest of the text and the groups. *)
Fixpoint rmatch {A : Type} (r : regex) (s : string) (caps : list string)
    (k : string -> list string -> option A) : option A :=
  match r with
  | Eps => k s caps
  | Chr p =>
      match s with
      | String c s' => if p c then k s' caps else None
      | EmptyString => None
      end
  | Plus p =>
      match s with
      | String c s' =>
          if p c then star_greedy p s' (fun s'' => k s'' caps) else None
      | EmptyString => None
      end
  | PlusLazy p =>
      match s with
      | String c s' =>
          if p c then star_lazy p s' (fun s'' => k s'' caps) else None
      | EmptyString => None
      end
  | Cat r1 r2 => rmatch r1 s caps (fun s' caps' => rmatch r2 s' caps' k)
  | Alt r1 r2 =>
      match rmatch r1 s caps k with
      | Some x => Some x
      | None => rmatch r2 s caps k
      end
  | Group n r =>
      rmatch r s caps (fun s' caps' => k s' (<[n := consumed s s']> caps'))
  end.

(** One attempt of [findall] at the start of [s]: the groups and the
    text after the match. *)
Definition match_here (r : regex) (ngroups : nat) (s : string)
    : option (list string * string) :=
  rmatch r s (replicate ngroups "") (fun s' caps => Some (caps, s')).

(** [re.findall(r, s)] for a pattern with [ngroups] groups: the groups of
    the successive matches from left to right.  The scan resumes after a
    match, and one character further where there is none (or where the
    match is empty, which the pattern below excludes). *)
Fixpoint findall_go (fuel : nat) (r : regex) (ngroups : nat) (s : string)
    : list (list string) :=
  match fuel with
  | O => []
  | S fuel' =>
      match match_here r ngroups s with
      | Some (caps, s') =>
          caps ::
          (if (String.length s' <? String.length s)%nat
           then findall_go fuel' r ngroups s'
           else match s with
                | String _ t => findall_go fuel' r ngroups t
                | EmptyString => []
                end)
      | None =>
          match s with
          | String _ t => findall_go fuel' r ngroups t
          | EmptyString => []
          end
      end
  end.

Definition findall (r : regex) (ngroups : nat) (s : string) : list (list string) :=
  findall_go (S (String.length s)) r ngroups s.

(** A character of the pattern under the flag [(?i)]. *)
Definition ci (c : ascii) : regex :=
  Chr (fun x => Ascii.eqb (Py.lower_char x) (Py.lower_char c)).

Fixpoint literal_ci (w : string) : regex :=
  match w with
  | EmptyString => Eps
  | String c w' => Cat (ci c) (literal_ci w')
  end.

(** [[ivx]] under [(?i)]. *)
Definition ivx (x : ascii) : bool :=
  let l := Py.lower_char x in
  Ascii.eqb l "i" || Ascii.eqb l "v" || Ascii.eqb l "x".

(** [.]: any character but the newline. *)
Definition dot (x : ascii) : bool := negb (Ascii.eqb x Py.newline).

End Re.

(** [r'(?i)(chapter\s+\d+|section\s+\d+|[ivx]+)\s+(.+?)\s+(\d+)'] *)
Definition toc_pattern : Re.regex :=
  Re.Cat
    (Re.Group 0
       (Re.Alt
          (Re.Cat (Re.literal_ci "chapter")
             (Re.Cat (Re.Plus Py.isspace) (Re.Plus Py.isdigit)))
          (Re.Alt
             (Re.Cat (Re.literal_ci "section")
                (Re.Cat (Re.Plus Py.isspace) (Re.Plus Py.isdigit)))
             (Re.Plus Re.ivx))))
    (Re.Cat (Re.Plus Py.isspace)
       (Re.Cat (Re.Group 1 (Re.PlusLazy Re.dot))
          (Re.Cat (Re.Plus Py.isspace)
             (Re.Group 2 (Re.Plus Py.isdigit))))).

(** ** The uploaded document *)

(** An entry of [pdf.outline]: a destination, which is a [dict], with the
    value of its key ['/Title'] if it has one and the page that
    [pdf.get_destination_page_number] resolves it to; or the list of the
    children of the entry before it, which is not a [dict]. *)
#[warnings="-register-all"] Inductive outline_item : Type :=
  | Destination (title : option string) (page_num : Z)
  | Children (items : list outline_item).

(** What the readers see in the uploaded file: its bytes, its outline
    (PyPDF2) and, for every page, what [extract_text()] returns
    (pdfplumber): [None], or a string that may be empty.  Both readers
    report the same number of pages, [len(pdf.pages)]. *)
Record pdf : Type := {
  raw : list Byte.byte;
  outline : list outline_item;
  pages : list (option string)
}.

(** [len(pdf.pages)]. *)
Definition num_pages (d : pdf) : Z := Z.of_nat (length (pages d)).

(** A chapter: the dict [{'title', 'start_page', 'end_page'}]; [end_page]
    is [None] until the end pages are calculated. *)
Record chapter : Type := {
  title : string;
  start_page : Z;
  end_page : option Z
}.

Definition set_end_page (e : Z) (c : chapter) : chapter :=
  {| title := title c; start_page := start_page c; end_page := Some e |}.

(** [for item in pdf.outline: if isinstance(item, dict): chapters.append(..)] *)
Fixpoint outline_chapters (items : list outline_item) : list chapter :=
  match items with
  | [] => []
  | Destination t page_num :: rest =>
      {| title := default "Untitled" t; start_page := page_num; end_page := None |}
        :: outline_chapters rest
  | Children _ :: rest => outline_chapters rest
  end.

(** One iteration of [for i in range(len(chapters))] of the calculation
    of the end pages, on the list that the loop updates in place. *)
Definition end_page_step (total : Z) (chapters : list chapter) (i : nat)
    : list chapter :=
  if (i <? length chapters - 1)%nat then
    match chapters !! S i with
    | Some next => alter (set_end_page (start_page next)) i chapters
    | None => chapters
    end
  else alter (set_end_page total) i chapters.

Definition calculate_end_pages (total : Z) (chapters : list chapter) : list chapter :=
  fold_left (end_page_step total) (seq 0 (length chapters)) chapters.

(** [for match in matches: chapters.append(..)], for a page number that
    [int] converts; [toc_chapter_int] below has the exception of [int] for
    a page number of more than 4300 digits. *)
Definition toc_chapter (m : list string) : chapter :=
  {| title := Py.strip (nth 1 m "");
     start_page := Py.int_of_digits (nth 2 m "") - 1;
     end_page := None |}.

Definition toc_chapters (toc_text : string) : list chapter :=
  map toc_chapter (Re.findall toc_pattern 3 toc_text).

(** The chapters once [chapters] is filled: [if chapters:] calculate the
    end pages. *)
Definition finish_chapters (total : Z) (chapters : list chapter) : list chapter :=
  match chapters with
  | [] => []
  | _ :: _ => calculate_end_pages total chapters
  end.

(** *** The OpenAI variant, [pages/2_📖_Book_Chat.py] *)

Module BookChat.

(** One iteration of [for page in pdf.pages[:10]]. *)
Definition toc_step (toc_text : string) (text : option string) : string :=
  match text with
  | Some t =>
      if Py.truthy text && Py.contains "table of contents" (Py.lower t)
      then toc_text +:+ t +:+ String Py.newline ""
      else toc_text
  | None => toc_text
  end.

Definition toc_text (d : pdf) : string :=
  fold_left toc_step (take 10 (pages d)) "".

Definition extract_chapters_from_pdf (d : pdf) : list chapter :=
  match outline_chapters (outline d) with
  | (_ :: _) as chapters => calculate_end_pages (num_pages d) chapters
  | [] => finish_chapters (num_pages d) (toc_chapters (toc_text d))
  end.

(** One iteration of [for page_num in range(start_page, end_page)]. *)
Definition text_step (d : pdf) (acc : result string) (page_num : Z) : result string :=
  let* text := acc in
  if page_num <? num_pages d then
    match Py.getitem (pages d) page_num with
    | None => Raise IndexError
    | Some page_text =>
        match page_text with
        | Some t =>
            if Py.truthy page_text then Ok (text +:+ t +:+ Py.blank_line)
            else Ok text
        | None => Ok text
        end
    end
  else Ok text.

Definition extract_chapter_text (d : pdf) (start_page end_page : Z) : result string :=
  fold_left (text_step d) (Py.range start_page end_page) (Ok "").

End BookChat.

(** *** The Anthropic variant, [pages/app2.py] *)

Module App2.

(** One iteration of [for page in pdf.pages[:10]]: [text.lower()] raises
    on [None]. *)
Definition toc_step (acc : result string) (text : option string) : result string :=
  let* toc_text := acc in
  match text with
  | Some t =>
      if Py.contains "table of contents" (Py.lower t)
      then Ok (toc_text +:+ t +:+ String Py.newline "")
      else Ok toc_text
  | None => Raise AttributeError
  end.

Definition toc_text (d : pdf) : result string :=
  fold_left toc_step (take 10 (pages d)) (Ok "").

Definition extract_chapters_from_pdf (d : pdf) : result (list chapter) :=
  match outline_chapters (outline d) with
  | (_ :: _) as chapters => Ok (calculate_end_pages (num_pages d) chapters)
  | [] =>
      let* toc := toc_text d in
      Ok (finish_chapters (num_pages d) (toc_chapters toc))
  end.

(** One iteration of [for page_num in range(start_page, end_page)]:
    [None + "\n\n"] raises. *)
Definition text_step (d : pdf) (acc : result string) (page_num : Z) : result string :=
  let* text := acc in
  if page_num <? num_pages d then
    match Py.getitem (pages d) page_num with
    | None => Raise IndexError
    | Some (Some t) => Ok (text +:+ t +:+ Py.blank_line)
    | Some None => Raise TypeError
    end
  else Ok text.

Definition extract_chapter_text (d : pdf) (start_page end_page : Z) : result string :=
  fold_left (text_step d) (Py.range start_page end_page) (Ok "").

End App2.

(** ** The vector store and the indexing pass of the upload handler *)

(** The dict [{"chapter", "start_page", "end_page"}] attached to a chunk. *)
Record metadata : Type := {
  meta_chapter : string;
  meta_start_page : Z;
  meta_end_page : Z
}.

(** A number of the metadata as the store keeps it and reads it back: an
    integer of 64 bits as it is, any other integer as a floating-point
    number, the double nearest to it. *)
Inductive stored_number : Type :=
  | Int64 (z : Z)
  | Double (nearest_to : Z).

Definition store_number (z : Z) : stored_number :=
  if (- 2 ^ 63 <=? z) && (z <? 2 ^ 63) then Int64 z else Double z.

(** The metadata of a chunk as the store keeps it. *)
Record stored_metadata : Type := {
  stored_chapter : string;
  stored_start_page : stored_number;
  stored_end_page : stored_number
}.

Definition store_metadata (m : metadata) : stored_metadata :=
  {| stored_chapter := meta_chapter m;
     stored_start_page := store_number (meta_start_page m);
     stored_end_page := store_number (meta_end_page m) |}.

(** A record of a collection: a document and its metadata, under an id. *)
Record entry : Type := {
  document : string;
  meta : stored_metadata
}.

(** What the collaborator does with a record whose id the collection
    already holds: keep the stored record, or replace it. *)
Inductive on_conflict : Type :=
  | KeepExisting
  | Overwrite.

(** What the handler shows in the sidebar. *)
Inductive ui_event : Type :=
  | Spinner (text : string)
  | Selectbox (label : string) (options : list string)
  | Button (label : string)
  | Warning (text : string).

Definition add_record (policy : on_conflict) (coll : gmap string entry)
    (r : string * entry) : gmap string entry :=
  match policy, coll !! r.1 with
  | KeepExisting, Some _ => coll
  | _, _ => <[r.1 := r.2]> coll
  end.

(** [collection.add(documents=.., metadatas=.., ids=..)] on the records
    of a collection; the store rejects empty lists with a [ValueError]. *)
Definition add (policy : on_conflict) (documents : list string)
    (metadatas : list metadata) (ids : list string)
    (coll : gmap string entry) : result (gmap string entry) :=
  match ids with
  | [] => Raise ValueError
  | _ :: _ =>
      Ok (fold_left (add_record policy)
            (zip ids
               (zip_with (fun doc m => {| document := doc;
                                          meta := store_metadata m |})
                  documents metadatas))
            coll)
  end.

(** [chroma_client.get_or_create_collection(name=..)]. *)
Definition get_or_create_collection (name : string)
    (store : gmap string (gmap string entry)) : gmap string (gmap string entry) :=
  match store !! name with
  | Some _ => store
  | None => <[name := ∅]> store
  end.

(** [collection.add] through the handle of the collection [name]. *)
Definition collection_add (policy : on_conflict) (name : string)
    (documents : list string) (metadatas : list metadata) (ids : list string)
    (store : gmap string (gmap string entry))
    : result (gmap string (gmap string entry)) :=
  let* coll := add policy documents metadatas ids (default ∅ (store !! name)) in
  Ok (<[name := coll]> store).

(** [[f"{chapter['title']}_chunk_{i}" for i in range(len(chunks))]] *)
Definition chunk_ids (chapter_title : string) (n : nat) : list string :=
  map (fun i => chapter_title +:+ "_chunk_" +:+ Py.str_of_nat i) (seq 0 n).

(** The arguments of [chroma_collection.add] for one chapter. *)
Record add_call : Type := {
  call_documents : list string;
  call_metadatas : list metadata;
  call_ids : list string
}.

(** The body of [for chapter in chapters] up to the call of [add]. *)
Definition index_chapter (d : pdf) (c : chapter) : result add_call :=
  match end_page c with
  | None => Raise TypeError
  | Some e =>
      let* chapter_text := BookChat.extract_chapter_text d (start_page c) e in
      let chunks := split_text_into_chunks chapter_text default_chunk_size in
      let ids := chunk_ids (title c) (length chunks) in
      let metadatas :=
        map (fun _ => {| meta_chapter := title c;
                         meta_start_page := start_page c + 1;
                         meta_end_page := e |}) chunks in
      Ok {| call_documents := chunks; call_metadatas := metadatas; call_ids := ids |}
  end.

(** [for chapter in chapters: ...]: the store after the loop, and whether
    the loop finished; what was added before an exception stays in the
    store. *)
Fixpoint index_chapters (policy : on_conflict) (name : string) (d : pdf)
    (chapters : list chapter) (store : gmap string (gmap string entry))
    : gmap string (gmap string entry) * result unit :=
  match chapters with
  | [] => (store, Ok tt)
  | c :: rest =>
      match index_chapter d c with
      | Raise e => (store, Raise e)
      | Ok call =>
          match collection_add policy name (call_documents call)
                  (call_metadatas call) (call_ids call) store with
          | Raise e => (store, Raise e)
          | Ok store' => index_chapters policy name d rest store'
          end
      end
  end.

(** The ids handed to [add] in the course of the loop, in order. *)
Fixpoint assigned_ids (d : pdf) (chapters : list chapter) : list string :=
  match chapters with
  | [] => []
  | c :: rest =>
      match index_chapter d c with
      | Raise _ => []
      | Ok call => call_ids call ++ assigned_ids d rest
      end
  end.

(** [f"{chap['title']} (pp. {chap['start_page']+1}-{chap['end_page']})"] *)
Definition chapter_label (c : chapter) : string :=
  title c +:+ " (pp. " +:+ Py.str_of_Z (start_page c + 1) +:+ "-" +:+
  match end_page c with
  | Some e => Py.str_of_Z e
  | None => "None"
  end +:+ ")".

Section UploadHandler.

(** [hashlib.md5(..).hexdigest()]. *)
Variable md5_hexdigest : list Byte.byte -> string.

(** The behaviour of the store on an id that it already holds. *)
Variable policy : on_conflict.

(** [f"textbook_{file_hash}"] *)
Definition collection_name (d : pdf) : string :=
  "textbook_" +:+ md5_hexdigest (raw d).

(** The body of [if uploaded_file:] in the sidebar of
    [pages/2_📖_Book_Chat.py]: the store after it, and what the sidebar
    shows unless an exception ends the script. *)
Definition handle_upload (d : pdf) (store : gmap string (gmap string entry))
    : gmap string (gmap string entry) * result (list ui_event) :=
  let chapters := BookChat.extract_chapters_from_pdf d in
  match chapters with
  | _ :: _ =>
      let store1 := get_or_create_collection (collection_name d) store in
      match index_chapters policy (collection_name d) d chapters store1 with
      | (store2, Ok _) =>
          (store2,
           Ok [Spinner "Indexing textbook content...";
               Selectbox "Select Chapter" (map chapter_label chapters);
               Button "Generate Chapter Guide"])
      | (store2, Raise e) => (store2, Raise e)
      end
  | [] =>
      (store, Ok [Warning "No chapters detected in PDF. Using full document."])
  end.

End UploadHandler.

(** ** Notions used by the statements *)

(** The sum of the word counts of a group of paragraphs. *)
Definition total_words (group : list string) : Z :=
  fold_right (fun para n => para_length para + n) 0 group.

(** A group of paragraphs respects the budget: its words fit, or it is
    one paragraph that is over the budget by itself. *)
Definition within_budget (chunk_size : Z) (group : list string) : Prop :=
  para_length (Py.join Py.blank_line group) <= chunk_size
  \/ exists para, group = [para] /\ chunk_size < para_length para.

(** What holds of the loop of [split_text_into_chunks] once it has read
    the paragraphs [done]: the sealed chunks are the joins of groups of
    consecutive paragraphs, the accumulation holds the remaining ones and
    [current_length] is their word count; for a budget that is not
    negative, every group and the accumulation respect it. *)
Definition chunk_inv (chunk_size : Z) (done : list string) (st : chunker) : Prop :=
  exists groups,
    chunks st = map (Py.join Py.blank_line) groups
    /\ concat groups ++ current_chunk st = done
    /\ current_length st = total_words (current_chunk st)
    /\ (0 <= chunk_size ->
        Forall (within_budget chunk_size) groups
        /\ within_budget chunk_size (current_chunk st)).

(** [n] copies of the string [s], one after the other. *)
Fixpoint repeat_str (n : nat) (s : string) : string :=
  match n with
  | O => ""
  | S n' => s +:+ repeat_str n' s
  end.

(** The chapter at index [i] of [chapters] once its end page is set. *)
Definition resolved_at (total : Z) (chapters : list chapter) (i : nat)
    (c : chapter) : chapter :=
  set_end_page
    (match chapters !! S i with
     | Some next => start_page next
     | None => total
     end) c.

(** The chapters are chained: each one ends where the next one starts,
    and the last one ends at [total]. *)
Definition chained (total : Z) (chapters : list chapter) : Prop :=
  (forall i c next,
      chapters !! i = Some c -> chapters !! S i = Some next ->
      end_page c = Some (start_page next))
  /\ (forall c, last chapters = Some c -> end_page c = Some total).

(** A chapter spans at least one page. *)
Definition proper_span (c : chapter) : Prop :=
  exists e, end_page c = Some e /\ start_page c < e.

(** The start pages grow strictly along the list and stay below [total]. *)
Definition increasing_starts (total : Z) (chapters : list chapter) : Prop :=
  (forall i c next,
      chapters !! i = Some c -> chapters !! S i = Some next ->
      start_page c < start_page next)
  /\ (forall c, last chapters = Some c -> start_page c < total).

(** The records that a call of [add] puts in the collection, in order. *)
Definition call_records (call : add_call) : list (string * entry) :=
  zip (call_ids call)
    (zip_with (fun doc m => {| document := doc; meta := store_metadata m |})
       (call_documents call) (call_metadatas call)).

(** The records handed to the store in the course of the indexing loop,
    and how the loop ends. *)
Fixpoint pass_records (d : pdf) (chapters : list chapter) : list (string * entry) :=
  match chapters with
  | [] => []
  | c :: rest =>
      match index_chapter d c with
      | Raise _ => []
      | Ok call => call_records call ++ pass_records d rest
      end
  end.

Fixpoint pass_outcome (d : pdf) (chapters : list chapter) : result unit :=
  match chapters with
  | [] => Ok tt
  | c :: rest =>
      match index_chapter d c with
      | Raise e => Raise e
      | Ok _ => pass_outcome d rest
      end
  end.

(** Every character of [s] is in the class [p]. *)
Fixpoint all_chars (p : ascii -> bool) (s : string) : bool :=
  match s with
  | EmptyString => true
  | String c s' => p c && all_chars p s'
  end.

(** ** Documents used in the examples *)

Module Docs.

(** The outline [("Intro", page 0), ("Methods", page 10)], 20 pages. *)
Definition intro_methods : pdf :=
  {| raw := [];
     outline := [Destination (Some "Intro") 0; Destination (Some "Methods") 10];
     pages := replicate 20 (Some "some text") |}.

(** An outline whose second entry points before the first one. *)
Definition backwards : pdf :=
  {| raw := [];
     outline := [Destination (Some "A") 5; Destination (Some "B") 3];
     pages := replicate 10 (Some "some text") |}.

(** Two outline entries without a title, which the reader hands over
    with the empty title. *)
Definition two_untitled : pdf :=
  {| raw := [];
     outline := [Destination (Some "") 0; Destination (Some "") 1];
     pages := [Some "first page"; Some "second page"] |}.

(** No outline and no page that mentions a table of contents. *)
Definition no_structure : pdf :=
  {| raw := [];
     outline := [];
     pages := [Some "first page"; Some "second page"; Some "third page"] |}.

(** One chapter whose only page is a scanned image: no text. *)
Definition scanned : pdf :=
  {| raw := []; outline := [Destination (Some "Scan") 0]; pages := [None] |}.

(** One page whose text is the empty string. *)
Definition empty_page : pdf :=
  {| raw := []; outline := []; pages := [Some ""] |}.

(** One page without text, no outline. *)
Definition image_page : pdf :=
  {| raw := []; outline := []; pages := [None] |}.

(** One chapter whose first paragraph has 1001 words. *)
Definition long_paragraph : pdf :=
  {| raw := [];
     outline := [Destination None 0];
     pages := [Some (repeat_str 1001 "w ")] |}.

(** A stand-in for [hashlib.md5(..).hexdigest()] in the examples. *)
Definition digest (bytes : list Byte.byte) : string :=
  "d41d8cd98f00b204e9800998ecf8427e".

(** No outline; the first page is a table of contents with two chapters. *)
Definition with_toc : pdf :=
  {| raw := [];
     outline := [];
     pages := [Some ("Table of Contents" +:+ String Py.newline ""
                     +:+ "Chapter 1 Intro 1" +:+ String Py.newline ""
                     +:+ "Chapter 2 Methods 3");
               Some "second page"; Some "third page"; Some "fourth page"] |}.

(** A table of contents whose second page number has 4301 digits. *)
Definition long_number : pdf :=
  {| raw := [];
     outline := [];
     pages := [Some ("Table of Contents" +:+ String Py.newline ""
                     +:+ "Chapter 1 Intro 1" +:+ String Py.newline ""
                     +:+ "Chapter 2 Methods " +:+ repeat_str 4301 "7")] |}.

End Docs.

(** ** Further notions for the chunker *)

(** Between two neighbours of a list of groups, the first group and the
    first paragraph of the second do not fit the budget together. *)
Definition sealed_when_full (chunk_size : Z) (groups : list (list string)) : Prop :=
  forall i g g',
    groups !! i = Some g -> groups !! S i = Some g' ->
    exists para rest,
      g' = para :: rest
      /\ chunk_size < para_length (Py.join Py.blank_line g) + para_length para.

(** What holds of the loop besides [chunk_inv]: the sealed groups and the
    accumulation, in order, are sealed only when full. *)
Definition greedy_inv (chunk_size : Z) (done : list string) (st : chunker) : Prop :=
  exists groups,
    chunks st = map (Py.join Py.blank_line) groups
    /\ concat groups ++ current_chunk st = done
    /\ current_length st = total_words (current_chunk st)
    /\ sealed_when_full chunk_size (groups ++ [current_chunk st]).

(** ** Further notions for the text of the pages *)

(** What a page contributes to the text of a chapter: its text and a
    blank line, or nothing when it has no text. *)
Definition page_block (page : option string) : string :=
  if Py.truthy page then default "" page +:+ Py.blank_line else "".

(** The contributions of a list of pages, one after the other. *)
Definition pages_text (l : list (option string)) : string :=
  foldr (fun page acc => page_block page +:+ acc) "" l.

(** What the page number [n] contributes in [extract_chapter_text]. *)
Definition page_text_at (d : pdf) (n : Z) : result string :=
  if n <? num_pages d then
    match Py.getitem (pages d) n with
    | None => Raise IndexError
    | Some page => Ok (page_block page)
    end
  else Ok "".

(** The texts that the indexing loop extracts for the chapters, one after
    the other. *)
Fixpoint chapters_text (d : pdf) (chapters : list chapter) : result string :=
  match chapters with
  | [] => Ok ""
  | c :: rest =>
      match end_page c with
      | None => Raise TypeError
      | Some e =>
          let* text := BookChat.extract_chapter_text d (start_page c) e in
          let* texts := chapters_text d rest in
          Ok (text +:+ texts)
      end
  end.

(** The start pages do not decrease along the list and do not exceed
    [total]. *)
Definition ordered_starts (total : Z) (chapters : list chapter) : Prop :=
  (forall i c next,
      chapters !! i = Some c -> chapters !! S i = Some next ->
      start_page c <= start_page next)
  /\ (forall c, last chapters = Some c -> start_page c <= total).

(** ** Further notions for the table of contents *)

(** The pattern ends with the group [n], which is [(\d+)]. *)
Fixpoint ends_with_digits (n : nat) (r : Re.regex) : Prop :=
  match r with
  | Re.Cat _ r2 => ends_with_digits n r2
  | Re.Group m (Re.Plus p) => m = n /\ p = Py.isdigit
  | _ => False
  end.

Definition first_char (s : string) : option ascii :=
  match s with
  | EmptyString => None
  | String c _ => Some c
  end.

Fixpoint last_char (s : string) : option ascii :=
  match s with
  | EmptyString => None
  | String c EmptyString => Some c
  | String _ s' => last_char s'
  end.

(** ** The guide of a chapter: [generate_rag_content] and the main area *)

(** [s[n:]]. *)
Fixpoint drop_str (n : nat) (s : string) : string :=
  match n, s with
  | S n', String _ s' => drop_str n' s'
  | _, _ => s
  end.

Fixpoint split_once_go (sep cur s : string) : list string :=
  if Py.startswith sep s then [cur; drop_str (String.length sep) s]
  else
    match s with
    | EmptyString => [cur]
    | String c s' => split_once_go sep (Py.snoc cur c) s'
    end.

(** [s.split(sep, 1)] for a separator that is not empty: cut at the
    first occurrence. *)
Definition split_once (sep s : string) : list string := split_once_go sep "" s.

Definition practice_heading : string := "## Practice Questions".

(** The split of the reply of the model into the summary and the
    questions; [None] stands for the exception of an unpacking that does
    not get two parts. *)
Definition split_sections (content : string) : option (string * string) :=
  if Py.contains practice_heading content then
    match split_once practice_heading content with
    | [summary_part; questions_part] =>
        Some (summary_part, practice_heading +:+ questions_part)
    | _ => None
    end
  else
    Some (content,
          practice_heading +:+ String Py.newline "" +:+ "No questions generated.").

(** What the call of the model gives: the content of the reply, or an
    exception with its message. *)
Inductive reply : Type :=
  | Content (content : string)
  | Failure (message : string).

(** What the main area shows. *)
Inductive main_event : Type :=
  | Processing (text : string)
  | Error (text : string).

(** [generate_rag_content(chapter_text)]: the two parts, [None] for each
    after an exception, and the error shown.  The model sees the chapter
    through [chapter_text[:150000]]. *)
Definition generate_rag_content (chat : string -> reply) (chapter_text : string)
    : (option string * option string) * list main_event :=
  match chat (Re.take (Z.to_nat 150000) chapter_text) with
  | Content content =>
      match split_sections content with
      | Some (summary_part, questions_part) =>
          ((Some summary_part, Some questions_part), [])
      | None =>
          ((None, None),
           [Error ("Error generating content: "
                   +:+ "not enough values to unpack (expected 2, got 1)")])
      end
  | Failure message =>
      ((None, None), [Error ("Error generating content: " +:+ message)])
  end.

(** [[i for i, chap in enumerate(chapters)
      if selected_chapter.startswith(chap['title'])]], counting from [i]. *)
Fixpoint matching_indices (selected_chapter : string) (i : nat)
    (chapters : list chapter) : list nat :=
  match chapters with
  | [] => []
  | chap :: rest =>
      if Py.startswith (title chap) selected_chapter
      then i :: matching_indices selected_chapter (S i) rest
      else matching_indices selected_chapter (S i) rest
  end.

(** [[...][0]]. *)
Definition chap_index (selected_chapter : string) (chapters : list chapter)
    : result nat :=
  match matching_indices selected_chapter 0 chapters with
  | i :: _ => Ok i
  | [] => Raise IndexError
  end.

(** The dict stored in [st.session_state.chapter_data]. *)
Record chapter_data : Type := {
  data_summary : string;
  data_questions : string;
  data_title : string
}.

(** The body of [if uploaded_file and selected_chapter and
    generate_button:] in [pages/2_📖_Book_Chat.py]: the chapter data of
    the session after it ([None] for the empty dict) and what the main
    area shows. *)
Definition generate_guide (chat : string -> reply) (d : pdf)
    (chapters : list chapter) (selected_chapter : string)
    (state : option chapter_data)
    : result (option chapter_data * list main_event) :=
  let* index := chap_index selected_chapter chapters in
  match chapters !! index with
  | None => Raise IndexError
  | Some chapter =>
      match end_page chapter with
      | None => Raise TypeError
      | Some e =>
          let* chapter_text :=
            BookChat.extract_chapter_text d (start_page chapter) e in
          let spinner :=
            Processing ("Processing Chapter " +:+ Py.str_of_nat (index + 1)
                        +:+ ": " +:+ title chapter +:+ "...") in
          match generate_rag_content chat chapter_text with
          | ((summary_content, questions_content), errors) =>
              if Py.truthy summary_content && Py.truthy questions_content
              then Ok (Some {| data_summary := default "" summary_content;
                               data_questions := default "" questions_content;
                               data_title := title chapter |},
                       spinner :: errors)
              else Ok (state, spinner :: errors)
          end
      end
  end.

(** What the page number [n] contributes in [extract_chapter_text] of
    [pages/app2.py]. *)
Definition app2_page_text_at (d : pdf) (n : Z) : result string :=
  if n <? num_pages d then
    match Py.getitem (pages d) n with
    | None => Raise IndexError
    | Some (Some t) => Ok (t +:+ Py.blank_line)
    | Some None => Raise TypeError
    end
  else Ok "".

(** The text of every page of a list followed by a blank line, or the
    exception of a page without text. *)
Definition app2_pages_text (l : list (option string)) : result string :=
  foldr (fun page acc =>
           match page with
           | Some t => let* rest := acc in Ok (t +:+ Py.blank_line +:+ rest)
           | None => Raise TypeError
           end) (Ok "") l.

(** ** The chapters before their end pages *)

(** The chapters before their end pages are calculated: the destinations
    of the outline, or the matches of the table of contents when the
    outline gives none. *)
Definition chapter_drafts (d : pdf) : list chapter :=
  match outline_chapters (outline d) with
  | [] => toc_chapters (BookChat.toc_text d)
  | (_ :: _) as chapters => chapters
  end.

(** ** The numbers that the store keeps *)

(** An integer of 64 bits, which the store keeps as it is. *)
Definition int64 (z : Z) : Prop := - 2 ^ 63 <= z < 2 ^ 63.

(** An integer within the range of a floating-point number. *)
Definition double_range (z : Z) : Prop := Z.abs z < 2 ^ 1024.

(** The page numbers that the handler hands to the store with the chunks
    of the chapters are integers of 64 bits. *)
Definition page_numbers_int64 (d : pdf) : Prop :=
  Forall (fun c => int64 (start_page c + 1)
                   /\ forall e, end_page c = Some e -> int64 e)
    (BookChat.extract_chapters_from_pdf d).

(** ** The limit of [int] on the digits of a page number *)

(** The limit of Python 3.11 and later on the digits of a string that
    [int] converts. *)
Definition int_max_str_digits : nat := 4300.

(** [int(s)] for a string [s] of decimal digits that is not empty, as the
    group [(\d+)] captures: a [ValueError] above the limit. *)
Definition int_of_digit_string (s : string) : result Z :=
  if (String.length s <=? int_max_str_digits)%nat
  then Ok (Py.int_of_digits s)
  else Raise ValueError.

(** Every page number that the pattern finds in the text of the table of
    contents is within the limit of [int]. *)
Definition toc_numbers_convert (d : pdf) : Prop :=
  Forall (fun m => (String.length (nth 2 m "") <= int_max_str_digits)%nat)
    (Re.findall toc_pattern 3 (BookChat.toc_text d)).

(** The dict that [chapters.append(..)] receives for a match, with the
    exception of [int(match[2])]. *)
Definition toc_chapter_int (m : list string) : result chapter :=
  let* n := int_of_digit_string (nth 2 m "") in
  Ok {| title := Py.strip (nth 1 m ""); start_page := n - 1; end_page := None |}.

(** One iteration of [for match in matches]. *)
Definition toc_append (acc : result (list chapter)) (m : list string)
    : result (list chapter) :=
  let* chapters := acc in
  let* c := toc_chapter_int m in
  Ok (chapters ++ [c]).

Definition toc_chapters_int (toc_text : string) : result (list chapter) :=
  fold_left toc_append (Re.findall toc_pattern 3 toc_text) (Ok []).

(** [extract_chapters_from_pdf] of [pages/2_📖_Book_Chat.py] with the
    exception of [int]: the first page number over the limit ends the
    function. *)
Definition extract_chapters_int (d : pdf) : result (list chapter) :=
  match outline_chapters (outline d) with
  | (_ :: _) as chapters => Ok (calculate_end_pages (num_pages d) chapters)
  | [] =>
      let* chapters := toc_chapters_int (BookChat.toc_text d) in
      Ok (finish_chapters (num_pages d) chapters)
  end.

(** The body of [if uploaded_file:] with that exception, which ends the
    script before the store is opened. *)
Definition handle_upload_int (md5_hexdigest : list Byte.byte -> string)
    (policy : on_conflict) (d : pdf) (store : gmap string (gmap string entry))
    : gmap string (gmap string entry) * result (list ui_event) :=
  match extract_chapters_int d with
  | Raise e => (store, Raise e)
  | Ok [] =>
      (store, Ok [Warning "No chapters detected in PDF. Using full document."])
  | Ok ((_ :: _) as chapters) =>
      let name := collection_name md5_hexdigest d in
      let store1 := get_or_create_collection name store in
      match index_chapters policy name d chapters store1 with
      | (store2, Ok _) =>
          (store2,
           Ok [Spinner "Indexing textbook content...";
               Selectbox "Select Chapter" (map chapter_label chapters);
               Button "Generate Chapter Guide"])
      | (store2, Raise e) => (store2, Raise e)
      end
  end.

(** * Properties *)

(** ** Strings *)

Section StringFacts.

Lemma app_nil_left (s : string) : "" +:+ s = s.
Proof. reflexivity. Qed.

Lemma app_cons_left (c : ascii) (s t : string) :
  String c s +:+ t = String c (s +:+ t).
Proof. reflexivity. Qed.

Lemma app_nil_right (s : string) : s +:+ "" = s.
Proof.
  induction s as [|c s IH]; [reflexivity|].
  rewrite app_cons_left, IH. reflexivity.
Qed.

Lemma app_assoc_str (s t u : string) : (s +:+ t) +:+ u = s +:+ t +:+ u.
Proof.
  induction s as [|c s IH]; [reflexivity|].
  rewrite !app_cons_left, IH. reflexivity.
Qed.

Lemma length_app_str (s t : string) :
  String.length (s +:+ t) = (String.length s + String.length t)%nat.
Proof.
  induction s as [|c s IH]; [reflexivity|].
  rewrite app_cons_left. simpl. rewrite IH. reflexivity.
Qed.

Lemma snoc_app (cur : string) (c : ascii) (s : string) :
  Py.snoc cur c +:+ s = cur +:+ String c s.
Proof. unfold Py.snoc. rewrite app_assoc_str. reflexivity. Qed.

(** Cancellation of a common suffix. *)
Lemma app_cancel_right (u s t : string) : s +:+ u = t +:+ u -> s = t.
Proof.
  revert t. induction s as [|c s IH]; intros [|d t] H.
  - reflexivity.
  - apply (f_equal String.length) in H.
    rewrite app_nil_left, app_cons_left in H. simpl in H.
    rewrite length_app_str in H. lia.
  - apply (f_equal String.length) in H.
    rewrite app_nil_left, app_cons_left in H. simpl in H.
    rewrite length_app_str in H. lia.
  - rewrite !app_cons_left in H. injection H as -> H.
    f_equal. apply IH, H.
Qed.

End StringFacts.

(** ** [str.split()] and [str.join] *)

Lemma split_ws_go_space (a : string) : forall (cur : string) (w : ascii) (b : string),
  Py.isspace w = true ->
  Py.split_ws_go cur (a +:+ String w b)
  = Py.split_ws_go cur a ++ Py.split_ws_go "" b.
Proof.
  induction a as [|c a IH]; intros cur w b Hw.
  - rewrite app_nil_left. simpl. rewrite Hw. reflexivity.
  - rewrite app_cons_left. simpl. destruct (Py.isspace c).
    + rewrite (IH "" w b Hw). rewrite app_assoc. reflexivity.
    + apply IH, Hw.
Qed.

Lemma split_ws_blank_line (a b : string) :
  Py.split_ws (a +:+ Py.blank_line +:+ b) = Py.split_ws a ++ Py.split_ws b.
Proof.
  unfold Py.split_ws, Py.blank_line.
  rewrite app_cons_left, split_ws_go_space by reflexivity.
  rewrite app_cons_left, app_nil_left. reflexivity.
Qed.

(** The words of a joined group are the words of its paragraphs. *)
Lemma split_ws_join (l : list string) :
  Py.split_ws (Py.join Py.blank_line l) = concat (map Py.split_ws l).
Proof.
  induction l as [|x [|y rest] IH].
  - reflexivity.
  - simpl. rewrite app_nil_r. reflexivity.
  - change (Py.join Py.blank_line (x :: y :: rest))
      with (x +:+ Py.blank_line +:+ Py.join Py.blank_line (y :: rest)).
    rewrite split_ws_blank_line, IH. reflexivity.
Qed.

Lemma para_length_join (l : list string) :
  para_length (Py.join Py.blank_line l) = total_words l.
Proof.
  unfold para_length. rewrite split_ws_join.
  induction l as [|x l IH]; [reflexivity|].
  simpl. rewrite length_app, Nat2Z.inj_add, IH. reflexivity.
Qed.

Lemma total_words_app (l1 l2 : list string) :
  total_words (l1 ++ l2) = total_words l1 + total_words l2.
Proof.
  induction l1 as [|x l1 IH]; simpl; [reflexivity|]. rewrite IH. lia.
Qed.

Lemma para_length_nonneg (s : string) : 0 <= para_length s.
Proof. unfold para_length. lia. Qed.

(** ** [str.split('\n\n')] *)

Lemma split_blank_go_nonempty (s cur : string) : Py.split_blank_go cur s <> [].
Proof.
  revert cur. 
  assert (H : forall s cur, Py.split_blank_go cur s <> []
                            /\ forall c, Py.split_blank_go cur (String c s) <> []).
  { clear s. induction s as [|d s IH]; intros cur.
    - split; [discriminate|]. intros c. discriminate.
    - split; [apply IH|]. intros c. simpl.
      destruct (Ascii.eqb c Py.newline && Ascii.eqb d Py.newline);
        [discriminate|]. apply IH. }
  intros cur. apply H.
Qed.

Lemma join_cons (sep x : string) (l : list string) :
  l <> [] -> Py.join sep (x :: l) = x +:+ sep +:+ Py.join sep l.
Proof. destruct l; [congruence|reflexivity]. Qed.

(** Joining the paragraphs with blank lines gives the text back. *)
Lemma join_split_blank_go (s : string) : forall cur,
  Py.join Py.blank_line (Py.split_blank_go cur s) = cur +:+ s.
Proof.
  assert (H : forall s cur,
             Py.join Py.blank_line (Py.split_blank_go cur s) = cur +:+ s
             /\ forall c, Py.join Py.blank_line (Py.split_blank_go cur (String c s))
                          = cur +:+ String c s).
  { clear s. induction s as [|d s IH]; intros cur.
    - split; [simpl; rewrite app_nil_right; reflexivity|].
      intros c. reflexivity.
    - split; [apply IH|]. intros c.
      change (Py.split_blank_go cur (String c (String d s)))
        with (if Ascii.eqb c Py.newline && Ascii.eqb d Py.newline
              then cur :: Py.split_blank_go "" s
              else Py.split_blank_go (Py.snoc cur c) (String d s)).
      destruct (Ascii.eqb c Py.newline) eqn:Hc, (Ascii.eqb d Py.newline) eqn:Hd; simpl "&&"; cbv iota.
      + apply Ascii.eqb_eq in Hc, Hd. subst c d.
        rewrite join_cons by apply split_blank_go_nonempty.
        rewrite (proj1 (IH "")). reflexivity.
      + rewrite (proj2 (IH _)). apply snoc_app.
      + rewrite (proj2 (IH _)). apply snoc_app.
      + rewrite (proj2 (IH _)). apply snoc_app. }
  intros cur. apply H.
Qed.

Lemma join_split_blank (text : string) :
  Py.join Py.blank_line (Py.split_blank text) = text.
Proof. apply join_split_blank_go. Qed.

(** ** The chunker *)

Lemma chunk_inv_init (chunk_size : Z) : chunk_inv chunk_size [] chunker_init.
Proof.
  exists []. repeat split; try reflexivity; [constructor|].
  left. rewrite para_length_join. simpl. assumption.
Qed.

Lemma chunk_inv_step (chunk_size : Z) (done : list string) (st : chunker)
    (para : string) :
  chunk_inv chunk_size done st ->
  chunk_inv chunk_size (done ++ [para]) (chunk_step chunk_size st para).
Proof.
  intros (groups & Hchunks & Hdone & Hlen & Hbudget).
  unfold chunk_step.
  destruct (current_length st + para_length para >? chunk_size) eqn:Hcmp.
  - exists (groups ++ [current_chunk st]). simpl.
    repeat split.
    + rewrite map_app, Hchunks. reflexivity.
    + rewrite concat_app. simpl. rewrite app_nil_r, Hdone. reflexivity.
    + lia.
    + apply Forall_app. split; [apply Hbudget, H|].
      constructor; [apply Hbudget, H|constructor].
    + destruct (Z_le_gt_dec (para_length para) chunk_size) as [Hle|Hgt].
      * left. rewrite para_length_join. simpl. lia.
      * right. exists para. split; [reflexivity|lia].
  - exists groups. simpl. repeat split.
    + assumption.
    + rewrite app_assoc, Hdone. reflexivity.
    + rewrite total_words_app, Hlen. simpl. lia.
    + apply Hbudget, H.
    + left. rewrite para_length_join, total_words_app. simpl.
      rewrite Z.gtb_ltb in Hcmp. apply Z.ltb_ge in Hcmp. lia.
Qed.

Lemma chunk_inv_loop (chunk_size : Z) (paragraphs : list string) :
  forall done st,
    chunk_inv chunk_size done st ->
    chunk_inv chunk_size (done ++ paragraphs) (chunk_loop chunk_size paragraphs st).
Proof.
  induction paragraphs as [|para rest IH]; intros done st Hinv.
  - rewrite app_nil_r. exact Hinv.
  - simpl. replace (done ++ para :: rest) with ((done ++ [para]) ++ rest)
      by (rewrite <- app_assoc; reflexivity).
    apply IH, chunk_inv_step, Hinv.
Qed.

(** The chunks are the joins of groups that partition the paragraphs of
    the text in order. *)
Lemma chunks_are_groups (text : string) (chunk_size : Z) :
  exists groups,
    split_text_into_chunks text chunk_size = map (Py.join Py.blank_line) groups
    /\ concat groups = Py.split_blank text
    /\ (0 <= chunk_size -> Forall (within_budget chunk_size) groups).
Proof.
  unfold split_text_into_chunks, chunk_finish.
  destruct (chunk_inv_loop chunk_size (Py.split_blank text) [] chunker_init
              (chunk_inv_init chunk_size))
    as (groups & Hchunks & Hdone & _ & Hbudget).
  simpl in Hdone.
  destruct (current_chunk _) as [|p cur] eqn:Hcur.
  - exists groups. rewrite app_nil_r in Hdone. repeat split; try assumption.
    intros H. apply Hbudget, H.
  - exists (groups ++ [p :: cur]). repeat split.
    + rewrite map_app, Hchunks. reflexivity.
    + rewrite concat_app. simpl. rewrite app_nil_r. exact Hdone.
    + intros H. apply Forall_app. split; [apply Hbudget, H|].
      constructor; [apply Hbudget, H|constructor].
Qed.

(** The sealed chunks only grow at their end. *)
Lemma chunk_loop_prefix (chunk_size : Z) (paragraphs : list string) :
  forall st, exists more, chunks (chunk_loop chunk_size paragraphs st) = chunks st ++ more.
Proof.
  induction paragraphs as [|para rest IH]; intros st.
  - exists []. simpl. rewrite app_nil_r. reflexivity.
  - change (chunk_loop chunk_size (para :: rest) st)
      with (chunk_loop chunk_size rest (chunk_step chunk_size st para)).
    destruct (IH (chunk_step chunk_size st para)) as [more Hmore].
    rewrite Hmore. unfold chunk_step.
    destruct (_ >? _); simpl.
    + eexists. rewrite <- app_assoc. reflexivity.
    + eexists. reflexivity.
Qed.

(** The chunker returns at least one chunk, whatever the text. *)
Lemma split_text_into_chunks_nonempty (text : string) (chunk_size : Z) :
  split_text_into_chunks text chunk_size <> [].
Proof.
  unfold split_text_into_chunks, chunk_finish.
  destruct (chunk_inv_loop chunk_size (Py.split_blank text) [] chunker_init
              (chunk_inv_init chunk_size))
    as (groups & Hchunks & Hdone & _ & _).
  simpl in Hdone.
  destruct (current_chunk _) as [|p cur] eqn:Hcur.
  - rewrite app_nil_r in Hdone.
    destruct groups as [|g groups].
    + exfalso. apply (split_blank_go_nonempty text ""). symmetry. exact Hdone.
    + rewrite Hchunks. discriminate.
  - intros H. apply app_eq_nil in H. destruct H as [_ H]. discriminate.
Qed.

(** C3: for a positive word budget, the chunks are the joins of groups
    of consecutive paragraphs of the text, and every group either has a
    word count within the budget or is a single paragraph that exceeds the
    budget by itself; such a paragraph is a chunk of its own, unsplit. *)
Theorem chunks_within_budget (text : string) (chunk_size : Z) :
  0 < chunk_size ->
  exists groups,
    split_text_into_chunks text chunk_size = map (Py.join Py.blank_line) groups
    /\ concat groups = Py.split_blank text
    /\ Forall (fun group =>
                 para_length (Py.join Py.blank_line group) <= chunk_size
                 \/ exists para,
                      group = [para] /\ Py.join Py.blank_line group = para
                      /\ chunk_size < para_length para) groups.
Proof.
  intros Hpos.
  destruct (chunks_are_groups text chunk_size) as (groups & Hchunks & Hcat & Hbudget).
  exists groups. repeat split; try assumption.
  eapply Forall_impl; [apply Hbudget; lia|].
  intros group [Hle|(para & -> & Hgt)]; [left; exact Hle|].
  right. exists para. repeat split. exact Hgt.
Qed.

(** C4: the chunks joined with blank lines have the words of the text,
    in the same order. *)
Theorem chunks_round_trip (text : string) (chunk_size : Z) :
  Py.split_ws (Py.join Py.blank_line (split_text_into_chunks text chunk_size))
  = Py.split_ws text.
Proof.
  destruct (chunks_are_groups text chunk_size) as (groups & Hchunks & Hcat & _).
  rewrite Hchunks, split_ws_join.
  transitivity (Py.split_ws (Py.join Py.blank_line (Py.split_blank text)));
    [|rewrite join_split_blank; reflexivity].
  rewrite split_ws_join, <- Hcat.
  clear. induction groups as [|g groups IH]; [reflexivity|].
  simpl. rewrite map_app, concat_app, <- IH, split_ws_join. reflexivity.
Qed.

(** The documents and ids that the loop hands to [add] for a chapter. *)
Lemma index_chapter_ok (d : pdf) (c : chapter) (e : Z) (text : string) :
  end_page c = Some e ->
  BookChat.extract_chapter_text d (start_page c) e = Ok text ->
  exists call,
    index_chapter d c = Ok call
    /\ call_documents call = split_text_into_chunks text default_chunk_size
    /\ call_ids call
       = chunk_ids (title c) (length (split_text_into_chunks text default_chunk_size))
    /\ length (call_metadatas call) = length (call_documents call).
Proof.
  intros He Htext. unfold index_chapter. rewrite He, Htext. simpl.
  eexists. split; [reflexivity|]. simpl. rewrite length_map. auto.
Qed.

(** C10: when the first paragraph of the text exceeds the budget by
    itself, the first chunk is the empty string; with the budget of the
    pipeline, the indexing loop then hands the empty document to the
    store under the first id of the chapter. *)
Theorem first_chunk_empty (text : string) (chunk_size : Z)
    (para : string) (rest : list string) :
  Py.split_blank text = para :: rest ->
  chunk_size < para_length para ->
  (exists more, split_text_into_chunks text chunk_size = "" :: more)
  /\ (chunk_size = default_chunk_size ->
      forall d c e,
        end_page c = Some e ->
        BookChat.extract_chapter_text d (start_page c) e = Ok text ->
        exists call more_documents more_ids,
          index_chapter d c = Ok call
          /\ call_documents call = "" :: more_documents
          /\ call_ids call = (title c +:+ "_chunk_0") :: more_ids).
Proof.
  intros Hsplit Hover.
  assert (Hfirst : exists more, split_text_into_chunks text chunk_size = "" :: more).
  { unfold split_text_into_chunks. rewrite Hsplit.
    change (chunk_loop chunk_size (para :: rest) chunker_init)
      with (chunk_loop chunk_size rest (chunk_step chunk_size chunker_init para)).
    unfold chunk_step at 1. simpl current_length. simpl current_chunk.
    replace (0 + para_length para >? chunk_size) with true
      by (symmetry; rewrite Z.gtb_ltb; apply Z.ltb_lt; lia).
    match goal with |- context [chunk_loop _ _ ?st] =>
      destruct (chunk_loop_prefix chunk_size rest st) as [more Hmore] end.
    unfold chunk_finish. rewrite Hmore. simpl.
    destruct (current_chunk _); eexists; reflexivity. }
  split; [exact Hfirst|].
  intros -> d c e He Htext.
  destruct (index_chapter_ok d c e text He Htext) as (call & Hcall & Hdocs & Hids & _).
  destruct Hfirst as [more Hmore].
  exists call, more, (map (fun i => title c +:+ "_chunk_" +:+ Py.str_of_nat i)
                        (seq 1 (length more))).
  split; [exact Hcall|]. split; [rewrite Hdocs; exact Hmore|].
  rewrite Hids, Hmore. reflexivity.
Qed.

Lemma chunks_within_budget_witness :
  0 < 2
  /\ exists groups,
       split_text_into_chunks
         ("a b c" +:+ Py.blank_line +:+ "d e" +:+ Py.blank_line +:+ "f") 2
       = map (Py.join Py.blank_line) groups
       /\ concat groups
          = Py.split_blank
              ("a b c" +:+ Py.blank_line +:+ "d e" +:+ Py.blank_line +:+ "f")
       /\ Forall (fun group =>
                    para_length (Py.join Py.blank_line group) <= 2
                    \/ exists para,
                         group = [para] /\ Py.join Py.blank_line group = para
                         /\ 2 < para_length para) groups.
Proof.
  split; [lia|].
  apply (chunks_within_budget
           ("a b c" +:+ Py.blank_line +:+ "d e" +:+ Py.blank_line +:+ "f") 2).
  lia.
Defined.

Lemma first_chunk_empty_witness :
  Py.split_blank (repeat_str 1001 "w " +:+ Py.blank_line)
  = [repeat_str 1001 "w "; ""]
  /\ default_chunk_size < para_length (repeat_str 1001 "w ")
  /\ BookChat.extract_chapters_from_pdf Docs.long_paragraph
     = [{| title := "Untitled"; start_page := 0; end_page := Some 1 |}]
  /\ (exists more,
        split_text_into_chunks (repeat_str 1001 "w " +:+ Py.blank_line)
          default_chunk_size = "" :: more)
  /\ exists call more_documents more_ids,
       index_chapter Docs.long_paragraph
         {| title := "Untitled"; start_page := 0; end_page := Some 1 |} = Ok call
       /\ call_documents call = "" :: more_documents
       /\ call_ids call = "Untitled_chunk_0" :: more_ids.
Proof.
  assert (Hsplit : Py.split_blank (repeat_str 1001 "w " +:+ Py.blank_line)
                   = [repeat_str 1001 "w "; ""])
    by (vm_compute; reflexivity).
  assert (Hover : default_chunk_size < para_length (repeat_str 1001 "w "))
    by (vm_compute; reflexivity).
  split; [exact Hsplit|]. split; [exact Hover|].
  split; [vm_compute; reflexivity|].
  destruct (first_chunk_empty _ default_chunk_size _ _ Hsplit Hover)
    as [Hfirst Hindex].
  split; [exact Hfirst|].
  apply (Hindex eq_refl Docs.long_paragraph
           {| title := "Untitled"; start_page := 0; end_page := Some 1 |} 1);
    [reflexivity|vm_compute; reflexivity].
Defined.

(** ** The end pages of the chapters *)

Lemma end_page_step_alter (total : Z) (chapters : list chapter) (i : nat) :
  end_page_step total chapters i
  = alter (resolved_at total chapters i) i chapters.
Proof.
  unfold end_page_step, resolved_at.
  destruct (i <? length chapters - 1)%nat eqn:Hi.
  - apply Nat.ltb_lt in Hi.
    destruct (chapters !! S i) as [next|] eqn:Hnext; [reflexivity|].
    apply lookup_ge_None in Hnext. lia.
  - apply Nat.ltb_ge in Hi.
    destruct (chapters !! S i) as [next|] eqn:Hnext; [|reflexivity].
    apply lookup_lt_Some in Hnext. lia.
Qed.

(** After the first [k] iterations the chapters below [k] have their end
    page and the others are as they were. *)
Lemma end_pages_prefix (total : Z) (chapters : list chapter) (k : nat) :
  (k <= length chapters)%nat ->
  forall j,
    fold_left (end_page_step total) (seq 0 k) chapters !! j
    = if decide (j < k)%nat
      then resolved_at total chapters j <$> chapters !! j
      else chapters !! j.
Proof.
  induction k as [|k IH]; intros Hk j.
  - simpl. destruct (decide (j < 0)%nat); [lia|reflexivity].
  - rewrite seq_S, fold_left_app. simpl.
    rewrite end_page_step_alter.
    set (done := fold_left (end_page_step total) (seq 0 k) chapters) in *.
    assert (Hnext : done !! S k = chapters !! S k).
    { subst done. rewrite IH by lia. destruct (decide (S k < k)%nat); [lia|reflexivity]. }
    assert (Hfun : resolved_at total done k = resolved_at total chapters k).
    { unfold resolved_at. rewrite Hnext. reflexivity. }
    rewrite Hfun.
    destruct (decide (j = k)) as [->|Hne].
    + rewrite list_lookup_alter_eq. subst done. rewrite IH by lia.
      destruct (decide (k < k)%nat); [lia|].
      destruct (decide (k < S k)%nat); [reflexivity|lia].
    + rewrite list_lookup_alter_ne by congruence. subst done. rewrite IH by lia.
      destruct (decide (j < k)%nat), (decide (j < S k)%nat); try lia; reflexivity.
Qed.

Lemma calculate_end_pages_lookup (total : Z) (chapters : list chapter) (j : nat) :
  calculate_end_pages total chapters !! j
  = resolved_at total chapters j <$> chapters !! j.
Proof.
  unfold calculate_end_pages. rewrite end_pages_prefix by lia.
  destruct (decide (j < length chapters)%nat) as [Hlt|Hge]; [reflexivity|].
  rewrite lookup_ge_None_2 by lia. reflexivity.
Qed.

Lemma calculate_end_pages_length (total : Z) (chapters : list chapter) :
  length (calculate_end_pages total chapters) = length chapters.
Proof.
  destruct (Nat.lt_trichotomy (length (calculate_end_pages total chapters))
              (length chapters)) as [Hlt|[Heq|Hgt]]; [|exact Heq|].
  - pose proof (calculate_end_pages_lookup total chapters
                  (length (calculate_end_pages total chapters))) as H.
    rewrite lookup_ge_None_2 in H by lia.
    destruct (lookup_lt_is_Some_2 chapters _ Hlt) as [c Hc].
    rewrite Hc in H. discriminate.
  - pose proof (calculate_end_pages_lookup total chapters (length chapters)) as H.
    rewrite (lookup_ge_None_2 chapters) in H by lia.
    destruct (lookup_lt_is_Some_2 (calculate_end_pages total chapters) _ Hgt) as [c Hc].
    rewrite Hc in H. discriminate.
Qed.

Lemma calculate_end_pages_titles (total : Z) (chapters : list chapter) :
  map title (calculate_end_pages total chapters) = map title chapters.
Proof.
  apply list_eq. intros j. rewrite !list_lookup_fmap, calculate_end_pages_lookup.
  destruct (chapters !! j); reflexivity.
Qed.

Lemma calculate_end_pages_chained (total : Z) (chapters : list chapter) :
  chained total (calculate_end_pages total chapters).
Proof.
  split.
  - intros i c next Hc Hnext.
    rewrite calculate_end_pages_lookup in Hc, Hnext.
    destruct (chapters !! i) as [c0|] eqn:Hc0; [|discriminate].
    destruct (chapters !! S i) as [c1|] eqn:Hc1; [|discriminate].
    injection Hc as <-. injection Hnext as <-.
    unfold resolved_at. rewrite Hc1. reflexivity.
  - intros c Hlast. rewrite last_lookup, calculate_end_pages_length in Hlast.
    rewrite calculate_end_pages_lookup in Hlast.
    destruct (chapters !! pred (length chapters)) as [c0|] eqn:Hc0; [|discriminate].
    injection Hlast as <-.
    apply lookup_lt_Some in Hc0.
    unfold resolved_at. rewrite lookup_ge_None_2 by lia. reflexivity.
Qed.

Lemma finish_chapters_chained (total : Z) (chapters : list chapter) :
  chained total (finish_chapters total chapters).
Proof.
  destruct chapters as [|c chapters]; [|apply calculate_end_pages_chained].
  split; [intros i c next H; discriminate|intros c H; discriminate].
Qed.

Lemma bookchat_chapters_chained (d : pdf) :
  chained (num_pages d) (BookChat.extract_chapters_from_pdf d).
Proof.
  unfold BookChat.extract_chapters_from_pdf.
  destruct (outline_chapters (outline d)).
  - apply finish_chapters_chained.
  - apply calculate_end_pages_chained.
Qed.

Lemma app2_chapters_chained (d : pdf) (chapters : list chapter) :
  App2.extract_chapters_from_pdf d = Ok chapters ->
  chained (num_pages d) chapters.
Proof.
  unfold App2.extract_chapters_from_pdf.
  destruct (outline_chapters (outline d)).
  - destruct (App2.toc_text d); simpl; [|discriminate].
    intros [= <-]. apply finish_chapters_chained.
  - intros [= <-]. apply calculate_end_pages_chained.
Qed.

(** C1: the chapters that [extract_chapters_from_pdf] returns, in either
    variant and from the outline or from the table of contents, are
    chained: each end page is the start page of the next chapter, and the
    end page of the last chapter is the number of pages of the document. *)
Theorem extract_chapters_chained (d : pdf) :
  chained (num_pages d) (BookChat.extract_chapters_from_pdf d)
  /\ forall chapters,
       App2.extract_chapters_from_pdf d = Ok chapters ->
       chained (num_pages d) chapters.
Proof.
  split; [apply bookchat_chapters_chained|apply app2_chapters_chained].
Qed.

Lemma extract_chapters_chained_witness :
  App2.extract_chapters_from_pdf Docs.intro_methods
  = Ok [{| title := "Intro"; start_page := 0; end_page := Some 10 |};
        {| title := "Methods"; start_page := 10; end_page := Some 20 |}]
  /\ chained 20 [{| title := "Intro"; start_page := 0; end_page := Some 10 |};
                 {| title := "Methods"; start_page := 10; end_page := Some 20 |}]
  /\ chained 20 (BookChat.extract_chapters_from_pdf Docs.intro_methods).
Proof.
  split; [vm_compute; reflexivity|]. split.
  - apply (proj2 (extract_chapters_chained Docs.intro_methods)).
    vm_compute. reflexivity.
  - apply (proj1 (extract_chapters_chained Docs.intro_methods)).
Defined.

(** In a chained list a chapter has a proper span exactly when it starts
    before the next one, or before the end of the document if it is the
    last. *)
Lemma chained_proper_spans (total : Z) (chapters : list chapter) :
  chained total chapters ->
  Forall proper_span chapters <-> increasing_starts total chapters.
Proof.
  intros [Hnext Hlast]. split.
  - intros Hall. rewrite Forall_lookup in Hall. split.
    + intros i c next Hc Hn.
      destruct (Hall i c Hc) as (e & He & Hlt).
      rewrite (Hnext i c next Hc Hn) in He. injection He as <-. exact Hlt.
    + intros c Hc. pose proof Hc as Hc'. rewrite last_lookup in Hc'.
      destruct (Hall _ c Hc') as (e & He & Hlt).
      rewrite (Hlast c Hc) in He. injection He as <-. exact Hlt.
  - intros [Hinc Hinc_last]. apply Forall_lookup. intros i c Hc.
    destruct (chapters !! S i) as [next|] eqn:Hn.
    + exists (start_page next). split; [eapply Hnext; eassumption|].
      eapply Hinc; eassumption.
    + assert (Hl : last chapters = Some c).
      { rewrite last_lookup. pose proof (lookup_lt_Some _ _ _ Hc) as Hi.
        apply lookup_ge_None in Hn.
        replace (pred (length chapters)) with i by lia. exact Hc. }
      exists total. split; [apply Hlast, Hl|apply Hinc_last, Hl].
Qed.

(** The chapters of the backwards outline. *)
Lemma backwards_chapters :
  BookChat.extract_chapters_from_pdf Docs.backwards
  = [{| title := "A"; start_page := 5; end_page := Some 3 |};
     {| title := "B"; start_page := 3; end_page := Some 10 |}].
Proof. vm_compute. reflexivity. Qed.

(** C6, as stated, fails: a chapter that ends before it starts is neither
    dropped nor rejected; it is in the list and it is indexed. *)
Lemma negative_span_passed_downstream :
  ~ Forall (fun c => exists e, end_page c = Some e /\ start_page c < e)
      (BookChat.extract_chapters_from_pdf Docs.backwards)
  /\ assigned_ids Docs.backwards (BookChat.extract_chapters_from_pdf Docs.backwards)
     = ["A_chunk_0"; "B_chunk_0"].
Proof.
  split; [|vm_compute; reflexivity].
  rewrite backwards_chapters. intros H.
  apply Forall_cons in H as [(e & He & Hlt) _].
  simpl in He, Hlt. injection He as <-. lia.
Qed.


(** ** The ids of the chunks *)

Lemma all_chars_app_cons (p : ascii -> bool) (a : string) (c : ascii) (b : string) :
  all_chars p (a +:+ String c b) = true -> p c = true.
Proof.
  induction a as [|x a IH].
  - rewrite app_nil_left. simpl. intros H. apply andb_true_iff in H. tauto.
  - rewrite app_cons_left. simpl. intros H. apply andb_true_iff in H. tauto.
Qed.

Lemma string_of_uint_digits (u : Decimal.uint) :
  all_chars Py.isdigit (NilEmpty.string_of_uint u) = true.
Proof. induction u; simpl; auto. Qed.

Lemma str_of_nat_digits (n : nat) : all_chars Py.isdigit (Py.str_of_nat n) = true.
Proof.
  unfold Py.str_of_nat, NilZero.string_of_uint.
  destruct (Nat.to_uint n); try apply string_of_uint_digits. reflexivity.
Qed.

Lemma str_of_nat_inj (n m : nat) : Py.str_of_nat n = Py.str_of_nat m -> n = m.
Proof.
  assert (H : forall k, option_map Nat.of_uint
                          (NilZero.uint_of_string (Py.str_of_nat k)) = Some k).
  { intros k. unfold Py.str_of_nat.
    destruct (Nat.to_uint k) eqn:E;
      try (rewrite <- E, NilZero.usu by (rewrite E; discriminate);
           simpl; rewrite DecimalNat.Unsigned.of_to; reflexivity).
    simpl. rewrite <- (DecimalNat.Unsigned.of_to k), E. reflexivity. }
  intros Heq. pose proof (H n) as Hn. rewrite Heq, H in Hn. congruence.
Qed.

(** Two strings that end in an underscore followed by digits are equal
    only if the digits and what precedes the underscore are. *)
Lemma underscore_digits_inj (a : string) : forall (b x y : string),
  all_chars Py.isdigit x = true ->
  all_chars Py.isdigit y = true ->
  a +:+ String "_" x = b +:+ String "_" y ->
  a = b /\ x = y.
Proof.
  induction a as [|c a IH]; intros [|c' b] x y Hx Hy Heq.
  - rewrite !app_nil_left in Heq. injection Heq as ->. auto.
  - rewrite app_nil_left, app_cons_left in Heq. injection Heq as <- ->.
    apply all_chars_app_cons in Hx. discriminate.
  - rewrite app_nil_left, app_cons_left in Heq. injection Heq as -> <-.
    apply all_chars_app_cons in Hy. discriminate.
  - rewrite !app_cons_left in Heq. injection Heq as -> Heq.
    destruct (IH b x y Hx Hy Heq) as [-> ->]. auto.
Qed.

(** The id of a chunk determines the title of its chapter and its
    position. *)
Lemma chunk_id_inj (t1 t2 : string) (i j : nat) :
  t1 +:+ "_chunk_" +:+ Py.str_of_nat i = t2 +:+ "_chunk_" +:+ Py.str_of_nat j ->
  t1 = t2 /\ i = j.
Proof.
  intros Heq.
  assert (Hshape : forall t x,
             t +:+ "_chunk_" +:+ x = (t +:+ "_chunk") +:+ String "_" x).
  { intros t x. rewrite app_assoc_str. reflexivity. }
  rewrite !Hshape in Heq.
  apply underscore_digits_inj in Heq as [Ht Hd]; try apply str_of_nat_digits.
  split; [eapply app_cancel_right, Ht|apply str_of_nat_inj, Hd].
Qed.

Lemma chunk_ids_NoDup (t : string) (n : nat) : NoDup (chunk_ids t n).
Proof.
  unfold chunk_ids. apply NoDup_fmap_2_strong; [|apply NoDup_seq].
  intros i j _ _ Heq. apply chunk_id_inj in Heq. tauto.
Qed.

Lemma elem_of_chunk_ids (t : string) (n : nat) (x : string) :
  x ∈ chunk_ids t n -> exists i, x = t +:+ "_chunk_" +:+ Py.str_of_nat i.
Proof.
  unfold chunk_ids. intros H. apply list_elem_of_fmap in H as (i & -> & _).
  exists i. reflexivity.
Qed.

Lemma index_chapter_ids (d : pdf) (c : chapter) (call : add_call) :
  index_chapter d c = Ok call ->
  exists n, call_ids call = chunk_ids (title c) n.
Proof.
  unfold index_chapter. destruct (end_page c); [|discriminate].
  destruct (BookChat.extract_chapter_text _ _ _); simpl; [|discriminate].
  intros [= <-]. eexists. reflexivity.
Qed.

Lemma elem_of_assigned_ids (d : pdf) (chapters : list chapter) (x : string) :
  x ∈ assigned_ids d chapters ->
  exists c i, c ∈ chapters /\ x = title c +:+ "_chunk_" +:+ Py.str_of_nat i.
Proof.
  induction chapters as [|c rest IH]; simpl.
  - intros H. apply elem_of_nil in H. contradiction.
  - destruct (index_chapter d c) as [call|] eqn:Hcall.
    + intros H. apply elem_of_app in H as [H|H].
      * destruct (index_chapter_ids d c call Hcall) as [n Hn].
        rewrite Hn in H. apply elem_of_chunk_ids in H as [i ->].
        exists c, i. split; [left|reflexivity].
      * destruct (IH H) as (c' & i & Hc' & ->).
        exists c', i. split; [right; exact Hc'|reflexivity].
    + intros H. apply elem_of_nil in H. contradiction.
Qed.

Lemma assigned_ids_NoDup (d : pdf) (chapters : list chapter) :
  NoDup (map title chapters) -> NoDup (assigned_ids d chapters).
Proof.
  induction chapters as [|c rest IH]; simpl; intros Hnd.
  - constructor.
  - apply NoDup_cons in Hnd as [Hnotin Hnd].
    destruct (index_chapter d c) as [call|] eqn:Hcall; [|constructor].
    destruct (index_chapter_ids d c call Hcall) as [n Hn].
    apply NoDup_app. split; [rewrite Hn; apply chunk_ids_NoDup|].
    split; [|apply IH, Hnd].
    intros x Hx Hx'. rewrite Hn in Hx.
    apply elem_of_chunk_ids in Hx as [i ->].
    apply elem_of_assigned_ids in Hx' as (c' & j & Hc' & Heq).
    apply chunk_id_inj in Heq as [Ht _].
    apply Hnotin. rewrite Ht. apply list_elem_of_fmap_2, Hc'.
Qed.


(** ** The store *)

Lemma add_records_overwrite (recs : list (string * entry)) :
  forall coll : gmap string entry,
    fold_left (add_record Overwrite) recs coll = list_to_map (rev recs) ∪ coll.
Proof.
  induction recs as [|[k v] recs IH]; intros coll; simpl.
  - rewrite (left_id_L ∅ (∪)). reflexivity.
  - rewrite IH. unfold add_record. simpl.
    rewrite list_to_map_app. simpl.
    rewrite <- (assoc_L (∪)). f_equal.
    rewrite insert_empty, <- insert_union_singleton_l. reflexivity.
Qed.

Lemma add_record_keep (coll : gmap string entry) (k : string) (v : entry) :
  add_record KeepExisting coll (k, v) = coll ∪ {[k := v]}.
Proof.
  unfold add_record. simpl. destruct (coll !! k) as [w|] eqn:Hk.
  - apply map_eq. intros i. destruct (decide (i = k)) as [->|Hne].
    + rewrite Hk. symmetry. apply lookup_union_Some_l, Hk.
    + rewrite lookup_union, lookup_singleton_ne by congruence.
      destruct (coll !! i); reflexivity.
  - rewrite insert_union_singleton_r by exact Hk. reflexivity.
Qed.

Lemma add_records_keep (recs : list (string * entry)) :
  forall coll : gmap string entry,
    fold_left (add_record KeepExisting) recs coll = coll ∪ list_to_map recs.
Proof.
  induction recs as [|[k v] recs IH]; intros coll; cbn [fold_left].
  - simpl. rewrite (right_id_L ∅ (∪)). reflexivity.
  - rewrite IH, add_record_keep, <- (assoc_L (∪)). f_equal.
    rewrite list_to_map_cons.
    rewrite <- insert_union_singleton_l. reflexivity.
Qed.

(** Adding the same records a second time changes nothing. *)
Lemma add_records_idempotent (policy : on_conflict) (recs : list (string * entry))
    (coll : gmap string entry) :
  fold_left (add_record policy) recs (fold_left (add_record policy) recs coll)
  = fold_left (add_record policy) recs coll.
Proof.
  destruct policy.
  - rewrite !add_records_keep, <- (assoc_L (∪)), (idemp_L (∪)). reflexivity.
  - rewrite !add_records_overwrite, (assoc_L (∪)), (idemp_L (∪)). reflexivity.
Qed.

(** A chapter that is indexed hands at least one id to [add], the first
    of its ids. *)
Lemma index_chapter_first_id (d : pdf) (c : chapter) (call : add_call) :
  index_chapter d c = Ok call ->
  exists n, call_ids call = chunk_ids (title c) (S n)
            /\ call_ids call
               = (title c +:+ "_chunk_0") :: map (fun i => title c +:+ "_chunk_" +:+ Py.str_of_nat i) (seq 1 n).
Proof.
  unfold index_chapter. destruct (end_page c); [|discriminate].
  destruct (BookChat.extract_chapter_text _ _ _) as [text|]; simpl; [|discriminate].
  intros [= <-]. simpl.
  destruct (split_text_into_chunks text default_chunk_size) as [|chunk more] eqn:Hch.
  - exfalso. apply (split_text_into_chunks_nonempty text default_chunk_size Hch).
  - exists (length more). split; reflexivity.
Qed.

(** The store accepts the call of [add] for a chapter: its lists are not
    empty. *)
Lemma add_call_records (d : pdf) (c : chapter) (policy : on_conflict)
    (call : add_call) (coll : gmap string entry) :
  index_chapter d c = Ok call ->
  add policy (call_documents call) (call_metadatas call) (call_ids call) coll
  = Ok (fold_left (add_record policy) (call_records call) coll).
Proof.
  intros Hcall. destruct (index_chapter_first_id d c call Hcall) as (n & _ & Hids).
  unfold add, call_records. rewrite Hids. reflexivity.
Qed.

(** The loop over the chapters, on a store that has the collection. *)
Lemma index_chapters_spec (policy : on_conflict) (name : string) (d : pdf)
    (chapters : list chapter) :
  forall (store : gmap string (gmap string entry)) (coll : gmap string entry),
    store !! name = Some coll ->
    index_chapters policy name d chapters store
    = (<[name := fold_left (add_record policy) (pass_records d chapters) coll]> store,
       pass_outcome d chapters).
Proof.
  induction chapters as [|c rest IH]; intros store coll Hcoll; simpl.
  - rewrite insert_id by exact Hcoll. reflexivity.
  - destruct (index_chapter d c) as [call|e] eqn:Hcall; simpl.
    + unfold collection_add. rewrite Hcoll. simpl.
      rewrite (add_call_records d c policy call coll Hcall). simpl.
      erewrite IH by apply lookup_insert_eq.
      rewrite insert_insert_eq, fold_left_app. reflexivity.
    + rewrite insert_id by exact Hcoll. reflexivity.
Qed.

Lemma get_or_create_collection_lookup (name : string)
    (store : gmap string (gmap string entry)) :
  get_or_create_collection name store !! name = Some (default ∅ (store !! name)).
Proof.
  unfold get_or_create_collection. destruct (store !! name) eqn:H; simpl.
  - exact H.
  - apply lookup_insert_eq.
Qed.

Lemma get_or_create_collection_present (name : string)
    (store : gmap string (gmap string entry)) (coll : gmap string entry) :
  store !! name = Some coll -> get_or_create_collection name store = store.
Proof. intros H. unfold get_or_create_collection. rewrite H. reflexivity. Qed.

Section UploadFacts.

Variable md5_hexdigest : list Byte.byte -> string.
Variable policy : on_conflict.

(** What the handler does when there is at least one chapter. *)
Lemma handle_upload_chapters (d : pdf) (store : gmap string (gmap string entry)) :
  BookChat.extract_chapters_from_pdf d <> [] ->
  handle_upload md5_hexdigest policy d store
  = (<[collection_name md5_hexdigest d :=
         fold_left (add_record policy)
           (pass_records d (BookChat.extract_chapters_from_pdf d))
           (default ∅ (store !! collection_name md5_hexdigest d))]>
       (get_or_create_collection (collection_name md5_hexdigest d) store),
     match pass_outcome d (BookChat.extract_chapters_from_pdf d) with
     | Ok _ =>
         Ok [Spinner "Indexing textbook content...";
             Selectbox "Select Chapter"
               (map chapter_label (BookChat.extract_chapters_from_pdf d));
             Button "Generate Chapter Guide"]
     | Raise e => Raise e
     end).
Proof.
  intros Hne. unfold handle_upload.
  destruct (BookChat.extract_chapters_from_pdf d) as [|c rest] eqn:Hch;
    [congruence|].
  rewrite (index_chapters_spec policy _ d (c :: rest) _ _
             (get_or_create_collection_lookup _ store)).
  destruct (pass_outcome d (c :: rest)); reflexivity.
Qed.

(** What the handler does when there is no chapter. *)
Lemma handle_upload_no_chapters (d : pdf) (store : gmap string (gmap string entry)) :
  BookChat.extract_chapters_from_pdf d = [] ->
  handle_upload md5_hexdigest policy d store
  = (store, Ok [Warning "No chapters detected in PDF. Using full document."]).
Proof. intros H. unfold handle_upload. rewrite H. reflexivity. Qed.

Lemma handle_upload_twice (d : pdf) (store : gmap string (gmap string entry)) :
  handle_upload md5_hexdigest policy d (handle_upload md5_hexdigest policy d store).1
  = handle_upload md5_hexdigest policy d store.
Proof.
  destruct (BookChat.extract_chapters_from_pdf d) as [|c rest] eqn:Hch.
  - rewrite !handle_upload_no_chapters by exact Hch. reflexivity.
  - assert (Hne : BookChat.extract_chapters_from_pdf d <> []) by congruence.
    rewrite (handle_upload_chapters d store Hne).
    cbn [fst].
    rewrite (handle_upload_chapters d _ Hne).
    f_equal.
    rewrite lookup_insert_eq. simpl.
    rewrite add_records_idempotent.
    erewrite get_or_create_collection_present by apply lookup_insert_eq.
    apply insert_insert_eq.
Qed.

End UploadFacts.

(** C8: indexing the same document a second time uses the same
    collection, whose name depends on the bytes only, and leaves the store
    as the first pass left it, whether the store keeps or replaces a
    record whose id it holds; ids are the keys of a collection, so none
    occurs twice. *)
Theorem reindexing_is_idempotent (md5_hexdigest : list Byte.byte -> string)
    (policy : on_conflict) (d : pdf) (store : gmap string (gmap string entry)) :
  (forall d', raw d' = raw d ->
      collection_name md5_hexdigest d' = collection_name md5_hexdigest d)
  /\ handle_upload md5_hexdigest policy d
       (handle_upload md5_hexdigest policy d store).1
     = handle_upload md5_hexdigest policy d store
  /\ forall coll,
       (handle_upload md5_hexdigest policy d store).1
         !! collection_name md5_hexdigest d = Some coll ->
       NoDup (map fst (map_to_list coll)).
Proof.
  split; [|split].
  - intros d' Hraw. unfold collection_name. rewrite Hraw. reflexivity.
  - apply handle_upload_twice.
  - intros coll _. apply NoDup_fst_map_to_list.
Qed.

Lemma reindexing_is_idempotent_witness :
  raw Docs.two_untitled = raw Docs.intro_methods
  /\ collection_name Docs.digest Docs.two_untitled
     = collection_name Docs.digest Docs.intro_methods
  /\ handle_upload Docs.digest Overwrite Docs.intro_methods
       (handle_upload Docs.digest Overwrite Docs.intro_methods ∅).1
     = handle_upload Docs.digest Overwrite Docs.intro_methods ∅
  /\ exists coll,
       (handle_upload Docs.digest Overwrite Docs.intro_methods ∅).1
         !! collection_name Docs.digest Docs.intro_methods = Some coll
       /\ NoDup (map fst (map_to_list coll)).
Proof.
  destruct (reindexing_is_idempotent Docs.digest Overwrite Docs.intro_methods ∅)
    as (Hkey & Htwice & Hids).
  split; [reflexivity|]. split; [apply Hkey; reflexivity|].
  split; [exact Htwice|].
  assert (Hsome : is_Some ((handle_upload Docs.digest Overwrite Docs.intro_methods ∅).1
                             !! collection_name Docs.digest Docs.intro_methods)).
  { rewrite handle_upload_chapters by (vm_compute; discriminate).
    cbn [fst]. rewrite lookup_insert_eq. eexists. reflexivity. }
  destruct Hsome as [coll Hcoll].
  exists coll. split; [exact Hcoll|apply Hids, Hcoll].
Defined.

(** ** A document without structure *)

(** C2: for a document with no outline and no table of contents the
    handler shows the warning "No chapters detected in PDF. Using full
    document." and leaves the store as it is: there is no chapter for the
    whole document, and nothing is extracted, chunked or indexed. *)
Theorem no_structure_indexes_nothing (md5_hexdigest : list Byte.byte -> string)
    (policy : on_conflict) (store : gmap string (gmap string entry)) :
  BookChat.extract_chapters_from_pdf Docs.no_structure = []
  /\ handle_upload md5_hexdigest policy Docs.no_structure store
     = (store, Ok [Warning "No chapters detected in PDF. Using full document."]).
Proof.
  assert (H : BookChat.extract_chapters_from_pdf Docs.no_structure = [])
    by (vm_compute; reflexivity).
  split; [exact H|]. apply handle_upload_no_chapters, H.
Qed.

(** ** A chapter without text *)


Lemma chained_end_page (total : Z) (chapters : list chapter) (c : chapter) :
  chained total chapters -> c ∈ chapters -> exists e, end_page c = Some e.
Proof.
  intros [Hnext Hlast] Hin. apply list_elem_of_lookup in Hin as [i Hc].
  destruct (chapters !! S i) as [next|] eqn:Hn.
  - eexists. eapply Hnext; eassumption.
  - exists total. apply Hlast. rewrite last_lookup.
    pose proof (lookup_lt_Some _ _ _ Hc) as Hi. apply lookup_ge_None in Hn.
    replace (pred (length chapters)) with i by lia. exact Hc.
Qed.

Lemma pass_outcome_ok (d : pdf) (chapters : list chapter) :
  (forall c, c ∈ chapters -> exists call, index_chapter d c = Ok call) ->
  pass_outcome d chapters = Ok tt.
Proof.
  induction chapters as [|c rest IH]; intros Hall; simpl; [reflexivity|].
  destruct (Hall c) as [call ->]; [left|].
  apply IH. intros c' Hc'. apply Hall. right. exact Hc'.
Qed.


(** ** The two variants *)

(** The scan of [findall] never runs out of fuel: any two amounts of fuel
    above the length of the text give the same matches. *)
Lemma findall_go_fuel (r : Re.regex) (ngroups : nat) (fuel1 : nat) :
  forall (fuel2 : nat) (s : string),
    (String.length s < fuel1)%nat -> (String.length s < fuel2)%nat ->
    Re.findall_go fuel1 r ngroups s = Re.findall_go fuel2 r ngroups s.
Proof.
  induction fuel1 as [|fuel1 IH]; intros [|fuel2] s H1 H2; try lia.
  simpl. destruct (Re.match_here r ngroups s) as [[caps s']|].
  - f_equal. destruct (String.length s' <? String.length s)%nat eqn:Hlt.
    + apply Nat.ltb_lt in Hlt. apply IH; lia.
    + destruct s as [|c t]; [reflexivity|]. simpl in H1, H2. apply IH; lia.
  - destruct s as [|c t]; [reflexivity|]. simpl in H1, H2. apply IH; lia.
Qed.

(** The chapters read from a table of contents. *)
Lemma with_toc_chapters :
  BookChat.extract_chapters_from_pdf Docs.with_toc
  = [{| title := "Intro"; start_page := 0; end_page := Some 2 |};
     {| title := "Methods"; start_page := 2; end_page := Some 4 |}]
  /\ App2.extract_chapters_from_pdf Docs.with_toc
     = Ok (BookChat.extract_chapters_from_pdf Docs.with_toc).
Proof. split; vm_compute; reflexivity. Qed.

Lemma getitem_elem_of {A : Type} (l : list A) (i : Z) (x : A) :
  Py.getitem l i = Some x -> x ∈ l.
Proof.
  unfold Py.getitem. intros H. apply list_elem_of_lookup.
  destruct (0 <=? i); [eauto|]. destruct (_ <=? i); [eauto|discriminate].
Qed.

(** Where every page has text that is not empty, the two variants read
    the same text and find the same chapters. *)
Lemma variants_agree_with_text (d : pdf) :
  Forall (fun page => Py.truthy page = true) (pages d) ->
  (forall start_page end_page,
      App2.extract_chapter_text d start_page end_page
      = BookChat.extract_chapter_text d start_page end_page)
  /\ App2.extract_chapters_from_pdf d = Ok (BookChat.extract_chapters_from_pdf d).
Proof.
  intros Hpages. split.
  - intros start_page end_page.
    unfold App2.extract_chapter_text, BookChat.extract_chapter_text.
    generalize (Ok "" : result string) as acc.
    induction (Py.range start_page end_page) as [|n rest IH]; intros acc;
      [reflexivity|].
    simpl. rewrite IH. f_equal.
    unfold App2.text_step, BookChat.text_step.
    destruct acc as [text|e]; simpl; [|reflexivity].
    destruct (n <? num_pages d); [|reflexivity].
    destruct (Py.getitem (pages d) n) as [page|] eqn:Hget; [|reflexivity].
    apply getitem_elem_of in Hget.
    rewrite Forall_forall in Hpages. specialize (Hpages page Hget).
    destruct page as [[|c t]|]; try discriminate. reflexivity.
  - unfold App2.extract_chapters_from_pdf, BookChat.extract_chapters_from_pdf.
    destruct (outline_chapters (outline d)); [|reflexivity].
    assert (Htoc : App2.toc_text d = Ok (BookChat.toc_text d)).
    { unfold App2.toc_text, BookChat.toc_text.
      assert (Hten : Forall (fun page => Py.truthy page = true) (take 10 (pages d)))
        by (apply Forall_take, Hpages).
      generalize "" as acc.
      induction Hten as [|page rest Hpage _ IH]; intros acc; [reflexivity|].
      simpl. rewrite <- IH. f_equal.
      unfold BookChat.toc_step. rewrite Hpage.
      destruct page as [t|]; [|discriminate]. simpl.
      destruct (Py.contains _ _); reflexivity. }
    rewrite Htoc. reflexivity.
Qed.

(** C9: on a page without text the variants differ.  Where the text of a
    page is the empty string, [pages/app2.py] appends the separator that
    [pages/2_📖_Book_Chat.py] skips; where [extract_text()] returns [None],
    [pages/app2.py] raises, both when it reads the text of a chapter and
    when it looks for the table of contents. *)
Theorem variants_differ_without_text :
  BookChat.extract_chapter_text Docs.empty_page 0 1 = Ok ""
  /\ App2.extract_chapter_text Docs.empty_page 0 1 = Ok Py.blank_line
  /\ BookChat.extract_chapter_text Docs.image_page 0 1 = Ok ""
  /\ App2.extract_chapter_text Docs.image_page 0 1 = Raise TypeError
  /\ BookChat.extract_chapters_from_pdf Docs.image_page = []
  /\ App2.extract_chapters_from_pdf Docs.image_page = Raise AttributeError.
Proof. repeat split; vm_compute; reflexivity. Qed.

(** ** More on the chunker *)

Lemma greedy_inv_init (chunk_size : Z) : greedy_inv chunk_size [] chunker_init.
Proof.
  exists []. repeat split; try reflexivity.
  intros [|i] g g' Hg Hg'; simpl in Hg'; discriminate.
Qed.

Lemma greedy_inv_step (chunk_size : Z) (done : list string) (st : chunker)
    (para : string) :
  greedy_inv chunk_size done st ->
  greedy_inv chunk_size (done ++ [para]) (chunk_step chunk_size st para).
Proof.
  intros (groups & Hchunks & Hdone & Hlen & Hgreedy).
  unfold chunk_step.
  destruct (current_length st + para_length para >? chunk_size) eqn:Hcmp.
  - exists (groups ++ [current_chunk st]). simpl. repeat split.
    + rewrite map_app, Hchunks. reflexivity.
    + rewrite concat_app. simpl. rewrite app_nil_r, Hdone. reflexivity.
    + lia.
    + intros i g g' Hg Hg'.
      assert (Hlen_all : length (groups ++ [current_chunk st]) = S (length groups))
        by (rewrite length_app; simpl; lia).
      destruct (decide (S i < S (length groups))%nat) as [Hin|Hout].
      * rewrite lookup_app_l in Hg by lia. rewrite lookup_app_l in Hg' by lia.
        eapply Hgreedy; eassumption.
      * pose proof (lookup_lt_Some _ _ _ Hg') as Hi.
        rewrite length_app in Hi. simpl in Hi.
        assert (i = length groups) as -> by lia.
        rewrite lookup_app_r in Hg' by lia.
        replace (S (length groups) - length (groups ++ [current_chunk st]))%nat
          with 0%nat in Hg' by lia.
        injection Hg' as <-.
        rewrite lookup_app_l in Hg by lia.
        rewrite lookup_app_r in Hg by lia.
        replace (length groups - length groups)%nat with 0%nat in Hg by lia.
        injection Hg as <-.
        exists para, []. split; [reflexivity|].
        rewrite para_length_join, <- Hlen.
        rewrite Z.gtb_ltb in Hcmp. apply Z.ltb_lt in Hcmp. exact Hcmp.
  - exists groups. simpl. repeat split.
    + assumption.
    + rewrite app_assoc, Hdone. reflexivity.
    + rewrite total_words_app, Hlen. simpl. lia.
    + intros i g g' Hg Hg'.
      pose proof (lookup_lt_Some _ _ _ Hg') as Hi.
      rewrite length_app in Hi. simpl in Hi.
      destruct (decide (S i < length groups)%nat) as [Hin|Hout].
      * rewrite lookup_app_l in Hg by lia. rewrite lookup_app_l in Hg' by lia.
        apply (Hgreedy i g g'); rewrite lookup_app_l by lia; assumption.
      * assert (S i = length groups) as Hi' by lia.
        rewrite lookup_app_l in Hg by lia.
        rewrite lookup_app_r in Hg' by lia.
        replace (S i - length groups)%nat with 0%nat in Hg' by lia.
        injection Hg' as <-.
        destruct (Hgreedy i g (current_chunk st)) as (p & rest & Hcur & Hfull).
        { rewrite lookup_app_l by lia. exact Hg. }
        { rewrite lookup_app_r by lia.
          replace (S i - length groups)%nat with 0%nat by lia. reflexivity. }
        exists p, (rest ++ [para]). split; [rewrite Hcur; reflexivity|exact Hfull].
Qed.

Lemma greedy_inv_loop (chunk_size : Z) (paragraphs : list string) :
  forall done st,
    greedy_inv chunk_size done st ->
    greedy_inv chunk_size (done ++ paragraphs) (chunk_loop chunk_size paragraphs st).
Proof.
  induction paragraphs as [|para rest IH]; intros done st Hinv.
  - rewrite app_nil_r. exact Hinv.
  - replace (done ++ para :: rest) with ((done ++ [para]) ++ rest)
      by (rewrite <- app_assoc; reflexivity).
    apply IH, greedy_inv_step, Hinv.
Qed.

(** The groups behind the chunks, sealed only when full. *)
Lemma chunks_greedy_groups (text : string) (chunk_size : Z) :
  exists groups,
    split_text_into_chunks text chunk_size = map (Py.join Py.blank_line) groups
    /\ concat groups = Py.split_blank text
    /\ sealed_when_full chunk_size groups.
Proof.
  unfold split_text_into_chunks, chunk_finish.
  destruct (greedy_inv_loop chunk_size (Py.split_blank text) [] chunker_init
              (greedy_inv_init chunk_size))
    as (groups & Hchunks & Hdone & _ & Hgreedy).
  simpl in Hdone.
  destruct (current_chunk _) as [|p cur] eqn:Hcur.
  - exists groups. rewrite app_nil_r in Hdone. repeat split; try assumption.
    intros i g g' Hg Hg'. pose proof (lookup_lt_Some _ _ _ Hg') as Hi.
    apply (Hgreedy i g g'); rewrite lookup_app_l by lia; assumption.
  - exists (groups ++ [p :: cur]). repeat split.
    + rewrite map_app, Hchunks. reflexivity.
    + rewrite concat_app. simpl. rewrite app_nil_r. exact Hdone.
    + exact Hgreedy.
Qed.

Lemma total_words_nonneg (l : list string) : 0 <= total_words l.
Proof.
  induction l as [|x l IH]; simpl; [lia|]. pose proof (para_length_nonneg x). lia.
Qed.

Lemma total_words_concat_cons (g : list string) (groups : list (list string)) :
  total_words (concat (g :: groups)) = total_words g + total_words (concat groups).
Proof. simpl. apply total_words_app. Qed.

Lemma para_length_text (text : string) :
  para_length text = total_words (Py.split_blank text).
Proof. rewrite <- para_length_join, join_split_blank. reflexivity. Qed.

(** X1: the chunker is greedy. *)
Theorem chunks_sealed_only_when_full (text : string) (chunk_size : Z) :
  exists groups,
    split_text_into_chunks text chunk_size = map (Py.join Py.blank_line) groups
    /\ concat groups = Py.split_blank text
    /\ forall i g g',
         groups !! i = Some g -> groups !! S i = Some g' ->
         exists para rest,
           g' = para :: rest
           /\ chunk_size < para_length (Py.join Py.blank_line g) + para_length para.
Proof. apply chunks_greedy_groups. Qed.

(** X2: a text whose words fit the budget is one chunk, the text itself. *)
Theorem text_within_budget_is_one_chunk (text : string) (chunk_size : Z) :
  para_length text <= chunk_size ->
  split_text_into_chunks text chunk_size = [text].
Proof.
  intros Hfit.
  destruct (chunks_greedy_groups text chunk_size) as (groups & Hchunks & Hcat & Hgreedy).
  destruct groups as [|g [|g' groups]].
  - exfalso. apply (split_text_into_chunks_nonempty text chunk_size).
    rewrite Hchunks. reflexivity.
  - rewrite Hchunks. simpl in *. rewrite app_nil_r in Hcat.
    rewrite Hcat, join_split_blank. reflexivity.
  - exfalso.
    destruct (Hgreedy 0%nat g g' eq_refl eq_refl) as (p & rest & -> & Hfull).
    rewrite para_length_text, <- Hcat in Hfit.
    rewrite para_length_join in Hfull.
    rewrite !total_words_concat_cons in Hfit. simpl in Hfit.
    pose proof (total_words_nonneg rest). pose proof (total_words_nonneg (concat groups)).
    lia.
Qed.

Lemma text_within_budget_is_one_chunk_witness :
  para_length ("one two" +:+ Py.blank_line +:+ "three") <= 3
  /\ split_text_into_chunks ("one two" +:+ Py.blank_line +:+ "three") 3
     = ["one two" +:+ Py.blank_line +:+ "three"].
Proof.
  assert (H : para_length ("one two" +:+ Py.blank_line +:+ "three") <= 3)
    by (vm_compute; discriminate).
  split; [exact H|].
  apply (text_within_budget_is_one_chunk _ 3 H).
Defined.

Lemma join_snoc (l : list string) (x : string) :
  l <> [] ->
  Py.join Py.blank_line (l ++ [x])
  = Py.join Py.blank_line l +:+ Py.blank_line +:+ x.
Proof.
  induction l as [|y l IH]; [congruence|]. intros _.
  destruct l as [|z l].
  - reflexivity.
  - change ((y :: z :: l) ++ [x]) with (y :: ((z :: l) ++ [x])).
    rewrite join_cons by (destruct l; discriminate).
    rewrite IH by discriminate.
    rewrite (join_cons _ y (z :: l)) by discriminate.
    rewrite !app_assoc_str. reflexivity.
Qed.

Lemma join_last_app (l : list string) (x y : string) :
  Py.join Py.blank_line (l ++ [x +:+ y])
  = Py.join Py.blank_line (l ++ [x]) +:+ y.
Proof.
  induction l as [|z l IH]; [reflexivity|].
  change ((z :: l) ++ [x +:+ y]) with (z :: (l ++ [x +:+ y])).
  change ((z :: l) ++ [x]) with (z :: (l ++ [x])).
  rewrite !join_cons by (destruct l; discriminate).
  rewrite IH, !app_assoc_str. reflexivity.
Qed.

(** Once the accumulation holds a paragraph, the sealed chunks followed
    by the accumulation join to the paragraphs read, after what the
    sealed chunks were at that point. *)
Lemma chunk_loop_join (chunk_size : Z) (paragraphs : list string) :
  forall (st : chunker) (done : list string) (prefix : string),
    current_chunk st <> [] -> done <> [] ->
    Py.join Py.blank_line
      (chunks st ++ [Py.join Py.blank_line (current_chunk st)])
    = prefix +:+ Py.join Py.blank_line done ->
    let st' := chunk_loop chunk_size paragraphs st in
    current_chunk st' <> []
    /\ Py.join Py.blank_line
         (chunks st' ++ [Py.join Py.blank_line (current_chunk st')])
       = prefix +:+ Py.join Py.blank_line (done ++ paragraphs).
Proof.
  induction paragraphs as [|para rest IH]; intros st done prefix Hcur Hdone Hjoin.
  - simpl. rewrite app_nil_r. auto.
  - replace (done ++ para :: rest) with ((done ++ [para]) ++ rest)
      by (rewrite <- app_assoc; reflexivity).
    change (chunk_loop chunk_size (para :: rest) st)
      with (chunk_loop chunk_size rest (chunk_step chunk_size st para)).
    apply IH.
    + unfold chunk_step. destruct (_ >? _); simpl; [discriminate|].
      destruct (current_chunk st); discriminate.
    + destruct done; discriminate.
    + rewrite (join_snoc done) by exact Hdone.
      rewrite <- app_assoc_str, <- Hjoin.
      unfold chunk_step. destruct (_ >? _); simpl.
      * rewrite join_snoc by (destruct (chunks st); discriminate).
        reflexivity.
      * rewrite (join_snoc (current_chunk st)) by exact Hcur.
        rewrite join_last_app. reflexivity.
Qed.

(** X3: joining the chunks with blank lines gives the text back, after a
    blank line when the first paragraph is over the budget. *)
Theorem chunks_join_to_text (text : string) (chunk_size : Z) :
  Py.join Py.blank_line (split_text_into_chunks text chunk_size)
  = (if chunk_size <? para_length (hd "" (Py.split_blank text))
     then Py.blank_line else "") +:+ text.
Proof.
  unfold split_text_into_chunks.
  pose proof (join_split_blank text) as Htext.
  destruct (Py.split_blank text) as [|p1 rest] eqn:Hsplit.
  { exfalso. apply (split_blank_go_nonempty text ""). exact Hsplit. }
  change (chunk_loop chunk_size (p1 :: rest) chunker_init)
    with (chunk_loop chunk_size rest (chunk_step chunk_size chunker_init p1)).
  simpl hd.
  assert (Hgo : forall st prefix,
             current_chunk st = [p1] ->
             Py.join Py.blank_line (chunks st ++ [p1]) = prefix +:+ p1 ->
             Py.join Py.blank_line (chunk_finish (chunk_loop chunk_size rest st))
             = prefix +:+ text).
  { intros st prefix Hcur Hjoin.
    destruct (chunk_loop_join chunk_size rest st [p1] prefix) as [Hne Hres].
    - rewrite Hcur. discriminate.
    - discriminate.
    - rewrite Hcur. exact Hjoin.
    - unfold chunk_finish. destruct (current_chunk (chunk_loop chunk_size rest st)) eqn:E;
        [congruence|].
      rewrite Hres. change ([p1] ++ rest) with (p1 :: rest). rewrite Htext. reflexivity. }
  unfold chunk_step. simpl current_length. simpl current_chunk. simpl chunks.
  rewrite Z.gtb_ltb. change (0 + para_length p1) with (para_length p1).
  destruct (chunk_size <? para_length p1); apply Hgo; reflexivity.
Qed.

Lemma sealed_when_full_tail (chunk_size : Z) (g : list string)
    (groups : list (list string)) :
  sealed_when_full chunk_size (g :: groups) ->
  sealed_when_full chunk_size groups
  /\ (length groups <= length (concat groups))%nat.
Proof.
  revert g. induction groups as [|g' groups IH]; intros g Hfull.
  - split; [|simpl; lia]. intros i x y Hx Hy. destruct i; discriminate.
  - assert (Htail : sealed_when_full chunk_size (g' :: groups)).
    { intros i x y Hx Hy. apply (Hfull (S i) x y); assumption. }
    split; [exact Htail|].
    destruct (Hfull 0%nat g g' eq_refl eq_refl) as (p & rest & -> & _).
    destruct (IH _ Htail) as [_ Hlen]. simpl. rewrite length_app. simpl in *. lia.
Qed.

(** X4: there is at least one chunk, and at most one more than there are
    paragraphs. *)
Theorem chunk_count_bounds (text : string) (chunk_size : Z) :
  (1 <= length (split_text_into_chunks text chunk_size)
   <= S (length (Py.split_blank text)))%nat.
Proof.
  destruct (chunks_greedy_groups text chunk_size) as (groups & Hchunks & Hcat & Hgreedy).
  pose proof (split_text_into_chunks_nonempty text chunk_size) as Hne.
  rewrite Hchunks in *. rewrite length_map, <- Hcat.
  destruct groups as [|g groups]; [exfalso; apply Hne; reflexivity|].
  destruct (sealed_when_full_tail _ _ _ Hgreedy) as [_ Hlen].
  simpl. rewrite length_app. lia.
Qed.

(** ** The text of a range of pages *)

Lemma text_step_page (d : pdf) (acc : string) (n : Z) :
  BookChat.text_step d (Ok acc) n
  = let* block := page_text_at d n in Ok (acc +:+ block).
Proof.
  unfold BookChat.text_step, page_text_at, page_block. simpl.
  destruct (n <? num_pages d); simpl; [|rewrite app_nil_right; reflexivity].
  destruct (Py.getitem (pages d) n) as [[[|c t]|]|]; simpl;
    try rewrite app_nil_right; reflexivity.
Qed.

Lemma fold_text_step_raise (d : pdf) (l : list Z) (e : exn) :
  fold_left (BookChat.text_step d) l (Raise e) = Raise e.
Proof. induction l as [|n l IH]; [reflexivity|exact IH]. Qed.

Lemma fold_text_step_acc (d : pdf) (l : list Z) : forall acc,
  fold_left (BookChat.text_step d) l (Ok acc)
  = let* text := fold_left (BookChat.text_step d) l (Ok "") in Ok (acc +:+ text).
Proof.
  induction l as [|n l IH]; intros acc.
  - simpl. rewrite app_nil_right. reflexivity.
  - cbn [fold_left]. rewrite !text_step_page.
    destruct (page_text_at d n) as [block|e]; simpl.
    + rewrite app_nil_left, (IH (acc +:+ block)), (IH block).
      destruct (fold_left _ l (Ok "")); simpl; [|reflexivity].
      rewrite app_assoc_str. reflexivity.
    + rewrite fold_text_step_raise. reflexivity.
Qed.

Lemma range_split (a b c : Z) :
  a <= b <= c -> Py.range a c = Py.range a b ++ Py.range b c.
Proof.
  intros H. unfold Py.range.
  replace (Z.to_nat (c - a)) with (Z.to_nat (b - a) + Z.to_nat (c - b))%nat by lia.
  rewrite seq_app, map_app. f_equal. cbn [Nat.add].
  replace (seq (Z.to_nat (b - a)) (Z.to_nat (c - b)))
    with (Nat.add (Z.to_nat (b - a)) <$> seq 0 (Z.to_nat (c - b)))
    by (rewrite fmap_add_seq, Nat.add_0_r; reflexivity).
  change (map ?f (?g <$> ?l)) with (f <$> (g <$> l)).
  rewrite <- list_fmap_compose. apply list_fmap_ext. intros i x _. simpl. lia.
Qed.

Lemma extract_chapter_text_split (d : pdf) (a b c : Z) :
  a <= b <= c ->
  BookChat.extract_chapter_text d a c
  = let* first := BookChat.extract_chapter_text d a b in
    let* second := BookChat.extract_chapter_text d b c in
    Ok (first +:+ second).
Proof.
  intros H. unfold BookChat.extract_chapter_text.
  rewrite (range_split a b c H), fold_left_app.
  destruct (fold_left _ (Py.range a b) (Ok "")) as [first|e]; simpl.
  - apply fold_text_step_acc.
  - apply fold_text_step_raise.
Qed.

Lemma getitem_nonneg {A : Type} (l : list A) (n : nat) :
  Py.getitem l (Z.of_nat n) = l !! n.
Proof.
  unfold Py.getitem. destruct (0 <=? Z.of_nat n) eqn:H.
  - rewrite Nat2Z.id. reflexivity.
  - apply Z.leb_gt in H. lia.
Qed.

Lemma pages_from (d : pdf) (n : nat) : forall (k : nat),
  fold_left (BookChat.text_step d) (map Z.of_nat (seq k n)) (Ok "")
  = Ok (pages_text (take n (drop k (pages d)))).
Proof.
  induction n as [|n IH]; intros k; [reflexivity|].
  cbn [seq map fold_left]. rewrite text_step_page.
  unfold page_text_at, num_pages. rewrite getitem_nonneg.
  destruct (Z.of_nat k <? Z.of_nat (length (pages d))) eqn:Hk.
  - apply Z.ltb_lt in Hk.
    destruct (pages d !! k) as [page|] eqn:Hpage;
      [|apply lookup_ge_None in Hpage; lia].
    simpl. rewrite fold_text_step_acc, IH. simpl.
    rewrite (drop_S _ _ _ Hpage). reflexivity.
  - apply Z.ltb_ge in Hk. simpl.
    rewrite IH. rewrite !drop_ge by lia. rewrite !take_nil. reflexivity.
Qed.

Lemma range_of_nat (start end_ : Z) :
  0 <= start ->
  Py.range start end_
  = map Z.of_nat (seq (Z.to_nat start) (Z.to_nat (end_ - start))).
Proof.
  intros H. unfold Py.range.
  replace (seq (Z.to_nat start) (Z.to_nat (end_ - start)))
    with (Nat.add (Z.to_nat start) <$> seq 0 (Z.to_nat (end_ - start)))
    by (rewrite fmap_add_seq, Nat.add_0_r; reflexivity).
  change (map ?f (?g <$> ?l)) with (f <$> (g <$> l)).
  rewrite <- list_fmap_compose. apply list_fmap_ext. intros i x _. simpl. lia.
Qed.

(** X5: for a start page that is not negative, the text of the pages
    [start_page] to [end_page - 1] is the text of the pages that the
    document has at these indices, in order: none when [end_page] is
    [start_page] or less, a negative [end_page] included. *)
Theorem extract_chapter_text_slice (d : pdf) (start_page end_page : Z) :
  0 <= start_page ->
  BookChat.extract_chapter_text d start_page end_page
  = Ok (pages_text (take (Z.to_nat (end_page - start_page))
                      (drop (Z.to_nat start_page) (pages d)))).
Proof.
  intros H. unfold BookChat.extract_chapter_text.
  rewrite range_of_nat by exact H. apply pages_from.
Qed.

Lemma extract_chapter_text_slice_witness :
  0 <= 1
  /\ BookChat.extract_chapter_text Docs.with_toc 1 7
     = Ok ("second page" +:+ Py.blank_line +:+ "third page" +:+ Py.blank_line
           +:+ "fourth page" +:+ Py.blank_line).
Proof.
  split; [lia|].
  rewrite (extract_chapter_text_slice Docs.with_toc 1 7) by lia.
  vm_compute. reflexivity.
Defined.

Lemma page_text_at_ok (d : pdf) (n : Z) :
  - num_pages d <= n -> exists block, page_text_at d n = Ok block.
Proof.
  intros H. unfold page_text_at, num_pages in *.
  destruct (n <? Z.of_nat (length (pages d))) eqn:Hn; [|eexists; reflexivity].
  apply Z.ltb_lt in Hn. unfold Py.getitem.
  destruct (0 <=? n) eqn:H0.
  - apply Z.leb_le in H0.
    destruct (lookup_lt_is_Some_2 (pages d) (Z.to_nat n)) as [page ->]; [lia|].
    eexists. reflexivity.
  - apply Z.leb_gt in H0.
    replace (- Z.of_nat (length (pages d)) <=? n) with true
      by (symmetry; apply Z.leb_le; lia).
    destruct (lookup_lt_is_Some_2 (pages d)
                (Z.to_nat (Z.of_nat (length (pages d)) + n))) as [page ->]; [lia|].
    eexists. reflexivity.
Qed.

Lemma fold_text_step_ok (d : pdf) (l : list Z) :
  Forall (fun n => - num_pages d <= n) l ->
  forall acc, exists text, fold_left (BookChat.text_step d) l (Ok acc) = Ok text.
Proof.
  induction 1 as [|n l Hn _ IH]; intros acc; [eexists; reflexivity|].
  cbn [fold_left]. rewrite text_step_page.
  destruct (page_text_at_ok d n Hn) as [block ->]. simpl. apply IH.
Qed.

Lemma range_lower_bound (a b n : Z) : n ∈ Py.range a b -> a <= n < b.
Proof.
  unfold Py.range. intros H.
  apply list_elem_of_fmap in H as (i & -> & Hi).
  apply elem_of_seq in Hi. lia.
Qed.

(** The text of a chapter is read without an exception when its start
    page is not below minus the number of pages. *)
Lemma extract_chapter_text_ok (d : pdf) (start_page end_page : Z) :
  - num_pages d <= start_page ->
  exists text, BookChat.extract_chapter_text d start_page end_page = Ok text.
Proof.
  intros H. apply fold_text_step_ok, Forall_forall. intros n Hn.
  apply range_lower_bound in Hn. lia.
Qed.

Lemma fold_text_step_beyond (d : pdf) (l : list Z) :
  Forall (fun n => num_pages d <= n) l ->
  forall acc, fold_left (BookChat.text_step d) l (Ok acc) = Ok acc.
Proof.
  induction 1 as [|n l Hn _ IH]; intros acc; [reflexivity|].
  cbn [fold_left]. rewrite text_step_page. unfold page_text_at.
  replace (n <? num_pages d) with false by (symmetry; apply Z.ltb_ge; lia).
  simpl. rewrite app_nil_right. apply IH.
Qed.

(** X6: page numbers past the end of the document are skipped. *)
Theorem extract_chapter_text_clipped (d : pdf) (start_page end_page : Z) :
  BookChat.extract_chapter_text d start_page end_page
  = BookChat.extract_chapter_text d start_page (Z.min end_page (num_pages d)).
Proof.
  destruct (Z.le_gt_cases end_page (num_pages d)) as [Hle|Hgt].
  { rewrite Z.min_l by lia. reflexivity. }
  rewrite Z.min_r by lia.
  destruct (Z.le_gt_cases (num_pages d) start_page) as [Hs|Hs].
  - unfold BookChat.extract_chapter_text.
    rewrite fold_text_step_beyond.
    + unfold Py.range. replace (Z.to_nat (num_pages d - start_page)) with 0%nat by lia.
      reflexivity.
    + apply Forall_forall. intros n Hn. apply range_lower_bound in Hn. lia.
  - rewrite (extract_chapter_text_split d start_page (num_pages d) end_page) by lia.
    destruct (BookChat.extract_chapter_text d start_page (num_pages d)) as [text|e];
      simpl; [|reflexivity].
    unfold BookChat.extract_chapter_text at 1.
    rewrite fold_text_step_beyond.
    + simpl. rewrite app_nil_right. reflexivity.
    + apply Forall_forall. intros n Hn. apply range_lower_bound in Hn. lia.
Qed.

(** X7: the text of two adjacent ranges of pages is the text of the
    range that they form, and an exception in either is one of the
    whole. *)
Theorem extract_chapter_text_adjacent (d : pdf) (a b c : Z) :
  a <= b <= c ->
  BookChat.extract_chapter_text d a c
  = let* first := BookChat.extract_chapter_text d a b in
    let* second := BookChat.extract_chapter_text d b c in
    Ok (first +:+ second).
Proof. apply extract_chapter_text_split. Qed.

Lemma extract_chapter_text_adjacent_witness :
  1 <= 2 <= 4
  /\ BookChat.extract_chapter_text Docs.with_toc 1 4
     = let* first := BookChat.extract_chapter_text Docs.with_toc 1 2 in
       let* second := BookChat.extract_chapter_text Docs.with_toc 2 4 in
       Ok (first +:+ second).
Proof.
  split; [lia|]. apply (extract_chapter_text_adjacent Docs.with_toc 1 2 4). lia.
Defined.

Lemma ordered_starts_tail (total : Z) (c : chapter) (chapters : list chapter) :
  chapters <> [] ->
  ordered_starts total (c :: chapters) -> ordered_starts total chapters.
Proof.
  intros Hne [Hnext Hlast]. split.
  - intros i x y Hx Hy. apply (Hnext (S i) x y); assumption.
  - intros x Hx. apply Hlast. destruct chapters; [congruence|exact Hx].
Qed.

Lemma chained_tail (total : Z) (c : chapter) (chapters : list chapter) :
  chapters <> [] ->
  chained total (c :: chapters) -> chained total chapters.
Proof.
  intros Hne [Hnext Hlast]. split.
  - intros i x y Hx Hy. apply (Hnext (S i) x y); assumption.
  - intros x Hx. apply Hlast. destruct chapters; [congruence|exact Hx].
Qed.

Lemma ordered_starts_bound (total : Z) (chapters : list chapter) :
  forall c, ordered_starts total (c :: chapters) -> start_page c <= total.
Proof.
  induction chapters as [|c' rest IH]; intros c Hord.
  - apply (proj2 Hord). reflexivity.
  - pose proof (proj1 Hord 0%nat c c' eq_refl eq_refl).
    pose proof (IH c' (ordered_starts_tail total c (c' :: rest) ltac:(discriminate) Hord)).
    lia.
Qed.

(** The texts of chained chapters in order are the text of the pages
    from the first start page to the end. *)
Lemma chapters_text_cover (d : pdf) (total : Z) (chapters : list chapter) :
  forall c,
    chained total (c :: chapters) ->
    ordered_starts total (c :: chapters) ->
    chapters_text d (c :: chapters)
    = BookChat.extract_chapter_text d (start_page c) total.
Proof.
  induction chapters as [|c' rest IH]; intros c Hch Hord.
  - simpl. rewrite (proj2 Hch c eq_refl).
    destruct (BookChat.extract_chapter_text d (start_page c) total); simpl;
      [rewrite app_nil_right|]; reflexivity.
  - assert (Hne : c' :: rest <> []) by discriminate.
    pose proof (chained_tail total c _ Hne Hch) as Hch'.
    pose proof (ordered_starts_tail total c _ Hne Hord) as Hord'.
    change (chapters_text d (c :: c' :: rest))
      with (match end_page c with
            | None => Raise TypeError
            | Some e =>
                let* text := BookChat.extract_chapter_text d (start_page c) e in
                let* texts := chapters_text d (c' :: rest) in
                Ok (text +:+ texts)
            end).
    rewrite (proj1 Hch 0%nat c c' eq_refl eq_refl), (IH c' Hch' Hord').
    symmetry. apply extract_chapter_text_split. split.
    + apply (proj1 Hord 0%nat c c'); reflexivity.
    + apply (ordered_starts_bound total rest c' Hord').
Qed.

(** X8: when the start pages of the chapters do not decrease and do not
    exceed the number of pages, the texts that the indexing loop extracts
    are, one after the other, what one call of [extract_chapter_text]
    from the start of the first chapter to the number of pages gives;
    when the first chapter does not start at a negative page, this is
    the text of the pages from its start to the last page, each page once
    and in order. *)
Theorem chapters_cover_document (d : pdf) (c : chapter) (rest : list chapter) :
  BookChat.extract_chapters_from_pdf d = c :: rest ->
  ordered_starts (num_pages d) (c :: rest) ->
  chapters_text d (c :: rest)
  = BookChat.extract_chapter_text d (start_page c) (num_pages d)
  /\ (0 <= start_page c ->
      chapters_text d (c :: rest)
      = Ok (pages_text (drop (Z.to_nat (start_page c)) (pages d)))).
Proof.
  intros Hchapters Hord.
  assert (H : chapters_text d (c :: rest)
              = BookChat.extract_chapter_text d (start_page c) (num_pages d)).
  { apply chapters_text_cover; [|exact Hord].
    rewrite <- Hchapters. apply bookchat_chapters_chained. }
  split; [exact H|]. intros Hstart. rewrite H.
  unfold BookChat.extract_chapter_text. rewrite range_of_nat by exact Hstart.
  rewrite pages_from. rewrite take_ge; [reflexivity|].
  rewrite length_drop. unfold num_pages. lia.
Qed.

(** ** The matches of the pattern of the table of contents *)

Lemma star_greedy_cont {A : Type} (p : ascii -> bool) (k : string -> option A)
    (x : A) (s : string) :
  Re.star_greedy p s k = Some x ->
  exists pre s', s = pre +:+ s' /\ all_chars p pre = true /\ k s' = Some x.
Proof.
  induction s as [|c s IH]; simpl.
  - intros H. exists "", "". auto.
  - destruct (p c) eqn:Hc.
    + destruct (Re.star_greedy p s k) as [r|] eqn:Hs.
      * intros [= ->]. destruct (IH eq_refl) as (pre & s' & -> & Hpre & Hk).
        exists (String c pre), s'. simpl. rewrite Hc, Hpre. auto.
      * intros H. exists "", (String c s). auto.
    + intros H. exists "", (String c s). auto.
Qed.

Lemma star_lazy_cont {A : Type} (p : ascii -> bool) (k : string -> option A)
    (x : A) (s : string) :
  Re.star_lazy p s k = Some x ->
  exists pre s', s = pre +:+ s' /\ all_chars p pre = true /\ k s' = Some x.
Proof.
  induction s as [|c s IH]; simpl.
  - destruct (k "") eqn:Hk; [|discriminate]. intros [= ->]. exists "", "". auto.
  - destruct (k (String c s)) eqn:Hk.
    + intros [= ->]. exists "", (String c s). auto.
    + destruct (p c) eqn:Hc; [|discriminate]. intros H.
      destruct (IH H) as (pre & s' & -> & Hpre & Hk').
      exists (String c pre), s'. simpl. rewrite Hc, Hpre. auto.
Qed.

(** A match hands to its continuation a list of groups of the same
    length. *)
Lemma rmatch_cont (r : Re.regex) :
  forall {A : Type} (s : string) (caps : list string)
         (k : string -> list string -> option A) (x : A),
    Re.rmatch r s caps k = Some x ->
    exists s' caps', k s' caps' = Some x /\ length caps' = length caps.
Proof.
  induction r as [|p|p|p|r1 IH1 r2 IH2|r1 IH1 r2 IH2|n r IH];
    intros A s caps k x; simpl.
  - eauto.
  - destruct s as [|c s]; [discriminate|]. destruct (p c); [eauto|discriminate].
  - destruct s as [|c s]; [discriminate|]. destruct (p c); [|discriminate].
    intros H. apply star_greedy_cont in H as (pre & s' & _ & _ & H). eauto.
  - destruct s as [|c s]; [discriminate|]. destruct (p c); [|discriminate].
    intros H. apply star_lazy_cont in H as (pre & s' & _ & _ & H). eauto.
  - intros H. apply IH1 in H as (s1 & caps1 & H & Hlen).
    apply IH2 in H as (s2 & caps2 & H & Hlen2). exists s2, caps2.
    split; [exact H|congruence].
  - destruct (Re.rmatch r1 s caps k) eqn:H1.
    + intros [= ->]. eapply IH1, H1.
    + apply IH2.
  - intros H. apply IH in H as (s1 & caps1 & H & Hlen).
    eexists _, _. split; [exact H|]. rewrite length_insert. exact Hlen.
Qed.

Lemma take_app_length (a b : string) : Re.take (String.length a) (a +:+ b) = a.
Proof.
  induction a as [|c a IH].
  - rewrite app_nil_left. destruct b; reflexivity.
  - rewrite app_cons_left. simpl. rewrite IH. reflexivity.
Qed.

Lemma consumed_app (a b : string) : Re.consumed (a +:+ b) b = a.
Proof.
  unfold Re.consumed. rewrite length_app_str.
  replace (String.length a + String.length b - String.length b)%nat
    with (String.length a) by lia.
  apply take_app_length.
Qed.

(** The last group of a match of a pattern that ends with [(\d+)] is a
    string of digits that is not empty. *)
Lemma match_ends_with_digits (n : nat) (r : Re.regex) :
  ends_with_digits n r ->
  forall (s : string) (caps : list string) (out : list string) (s' : string),
    (n < length caps)%nat ->
    Re.rmatch r s caps (fun s' caps' => Some (caps', s')) = Some (out, s') ->
    exists c ds,
      out !! n = Some (String c ds) /\ all_chars Py.isdigit (String c ds) = true.
Proof.
  induction r as [|p|p|p|r1 _ r2 IH2|r1 _ r2 _|m r _]; simpl; try contradiction.
  - intros Hend s caps out s' Hn H.
    apply rmatch_cont in H as (s1 & caps1 & H & Hlen).
    apply (IH2 Hend s1 caps1 out s'); [lia|exact H].
  - destruct r as [|p|p|p|r1 r2|r1 r2|m' r]; try contradiction.
    intros [-> ->] s caps out s' Hn. simpl.
    destruct s as [|c s]; [discriminate|].
    destruct (Py.isdigit c) eqn:Hc; [|discriminate].
    intros H. apply star_greedy_cont in H as (pre & rest & -> & Hpre & H).
    injection H as <- <-.
    exists c, pre. split.
    + change (String c (pre +:+ rest)) with (String c pre +:+ rest).
      rewrite consumed_app. apply list_lookup_insert_eq. exact Hn.
    + simpl. rewrite Hc, Hpre. reflexivity.
Qed.

Lemma findall_go_Forall (P : list string -> Prop) (r : Re.regex) (ngroups : nat) :
  (forall s caps s', Re.match_here r ngroups s = Some (caps, s') -> P caps) ->
  forall fuel s, Forall P (Re.findall_go fuel r ngroups s).
Proof.
  intros HP. induction fuel as [|fuel IH]; intros s; simpl; [constructor|].
  destruct (Re.match_here r ngroups s) as [[caps s']|] eqn:Hm.
  - constructor; [eapply HP, Hm|].
    destruct (_ <? _)%nat; [apply IH|].
    destruct s; [constructor|apply IH].
  - destruct s; [constructor|apply IH].
Qed.

Lemma digit_value_nonneg (c : ascii) : Py.isdigit c = true -> 0 <= Py.digit_value c <= 9.
Proof.
  unfold Py.isdigit, Py.digit_value. intros H.
  apply andb_true_iff in H as [H1 H2].
  apply N.leb_le in H1, H2. lia.
Qed.

Lemma int_of_digits_nonneg (s : string) :
  all_chars Py.isdigit s = true -> 0 <= Py.int_of_digits s.
Proof.
  unfold Py.int_of_digits.
  assert (H : forall s acc, 0 <= acc -> all_chars Py.isdigit s = true ->
              0 <= fold_left (fun acc c => 10 * acc + Py.digit_value c)
                     (String.list_ascii_of_string s) acc).
  { clear s. induction s as [|c s IH]; intros acc Hacc Hs; simpl; [exact Hacc|].
    simpl in Hs. apply andb_true_iff in Hs as [Hc Hs].
    apply IH; [|exact Hs]. pose proof (digit_value_nonneg c Hc). lia. }
  intros Hs. apply H; [lia|exact Hs].
Qed.

Lemma lstrip_first (s : string) (a : ascii) :
  first_char (Py.lstrip s) = Some a -> Py.isspace a = false.
Proof.
  induction s as [|c s IH]; simpl; [discriminate|].
  destruct (Py.isspace c) eqn:Hc; [exact IH|].
  simpl. intros [= <-]. exact Hc.
Qed.

Lemma rstrip_first (s : string) (a : ascii) :
  first_char (Py.rstrip s) = Some a -> first_char s = Some a.
Proof.
  destruct s as [|c s]; simpl; [discriminate|].
  destruct (Py.rstrip s); [destruct (Py.isspace c); [discriminate|]|]; auto.
Qed.

Lemma rstrip_last (s : string) (a : ascii) :
  last_char (Py.rstrip s) = Some a -> Py.isspace a = false.
Proof.
  induction s as [|c s IH]; simpl; [discriminate|].
  destruct (Py.rstrip s) as [|c' r] eqn:Hr.
  - destruct (Py.isspace c) eqn:Hc; [discriminate|].
    simpl. intros [= <-]. exact Hc.
  - exact IH.
Qed.

(** [s.strip()] has no white space at either end. *)
Lemma strip_ends (s : string) (a : ascii) :
  first_char (Py.strip s) = Some a \/ last_char (Py.strip s) = Some a ->
  Py.isspace a = false.
Proof.
  unfold Py.strip. intros [H|H].
  - eapply lstrip_first, rstrip_first, H.
  - eapply rstrip_last, H.
Qed.

Lemma toc_pattern_match_digits (s : string) (caps : list string) (s' : string) :
  Re.match_here toc_pattern 3 s = Some (caps, s') ->
  0 <= Py.int_of_digits (nth 2 caps "").
Proof.
  intros H. unfold Re.match_here in H.
  apply (match_ends_with_digits 2 toc_pattern) in H as (c & ds & Hcaps & Hds).
  - rewrite nth_lookup, Hcaps. simpl. apply int_of_digits_nonneg, Hds.
  - simpl. auto.
  - simpl. lia.
Qed.

(** What the chapters read from the text of a table of contents are. *)
Lemma toc_chapters_shape (toc_text : string) :
  Forall (fun c =>
            -1 <= start_page c
            /\ forall a,
                 first_char (title c) = Some a \/ last_char (title c) = Some a ->
                 Py.isspace a = false)
    (toc_chapters toc_text).
Proof.
  unfold toc_chapters, Re.findall. apply Forall_fmap.
  eapply Forall_impl; [apply (findall_go_Forall
                                (fun caps => 0 <= Py.int_of_digits (nth 2 caps "")));
                       apply toc_pattern_match_digits|].
  intros caps Hcaps. cbv beta in Hcaps. unfold compose, toc_chapter.
  cbn [start_page title].
  split; [lia|]. apply strip_ends.
Qed.

Lemma calculate_end_pages_elem (total : Z) (chapters : list chapter) (c : chapter) :
  c ∈ calculate_end_pages total chapters ->
  exists c0, c0 ∈ chapters /\ title c = title c0 /\ start_page c = start_page c0.
Proof.
  intros H. apply list_elem_of_lookup in H as [i Hi].
  rewrite calculate_end_pages_lookup in Hi.
  destruct (chapters !! i) as [c0|] eqn:Hc0; [|discriminate].
  injection Hi as <-. exists c0. split; [|auto].
  apply list_elem_of_lookup. eauto.
Qed.

Lemma finish_chapters_elem (total : Z) (chapters : list chapter) (c : chapter) :
  c ∈ finish_chapters total chapters ->
  exists c0, c0 ∈ chapters /\ title c = title c0 /\ start_page c = start_page c0.
Proof.
  destruct chapters as [|c1 rest]; [intros H; apply elem_of_nil in H; contradiction|].
  apply calculate_end_pages_elem.
Qed.

(** ** The limit of [int] in the table of contents *)

Lemma toc_append_raise (ms : list (list string)) (e : exn) :
  fold_left toc_append ms (Raise e) = Raise e.
Proof. induction ms as [|m ms IH]; [reflexivity|exact IH]. Qed.

Lemma toc_chapter_int_ok (m : list string) :
  (String.length (nth 2 m "") <= int_max_str_digits)%nat ->
  toc_chapter_int m = Ok (toc_chapter m).
Proof.
  intros H. unfold toc_chapter_int, int_of_digit_string.
  apply Nat.leb_le in H. rewrite H. reflexivity.
Qed.

Lemma toc_chapter_int_raise (m : list string) :
  ~ (String.length (nth 2 m "") <= int_max_str_digits)%nat ->
  toc_chapter_int m = Raise ValueError.
Proof.
  intros H. unfold toc_chapter_int, int_of_digit_string.
  apply Nat.leb_nle in H. rewrite H. reflexivity.
Qed.

Lemma toc_append_ok (ms : list (list string)) :
  Forall (fun m => (String.length (nth 2 m "") <= int_max_str_digits)%nat) ms ->
  forall acc, fold_left toc_append ms (Ok acc) = Ok (acc ++ map toc_chapter ms).
Proof.
  induction 1 as [|m ms Hm _ IH]; intros acc; simpl.
  - rewrite app_nil_r. reflexivity.
  - rewrite (toc_chapter_int_ok m Hm). simpl.
    rewrite IH, <- app_assoc. reflexivity.
Qed.

Lemma toc_append_over (ms : list (list string)) :
  ~ Forall (fun m => (String.length (nth 2 m "") <= int_max_str_digits)%nat) ms ->
  forall acc, fold_left toc_append ms (Ok acc) = Raise ValueError.
Proof.
  induction ms as [|m ms IH]; intros Hnot acc.
  - exfalso. apply Hnot. constructor.
  - simpl.
    destruct (decide (String.length (nth 2 m "") <= int_max_str_digits)%nat)
      as [Hm|Hm].
    + rewrite (toc_chapter_int_ok m Hm). simpl. apply IH.
      intros Hall. apply Hnot. constructor; assumption.
    + rewrite (toc_chapter_int_raise m Hm). simpl. apply toc_append_raise.
Qed.

(** When the page numbers convert, the function returns the chapters of
    [BookChat.extract_chapters_from_pdf]. *)
Lemma extract_chapters_int_ok (d : pdf) :
  (outline_chapters (outline d) = [] -> toc_numbers_convert d) ->
  extract_chapters_int d = Ok (BookChat.extract_chapters_from_pdf d).
Proof.
  unfold extract_chapters_int, BookChat.extract_chapters_from_pdf,
    toc_chapters_int, toc_chapters.
  destruct (outline_chapters (outline d)); [|reflexivity].
  intros H. rewrite (toc_append_ok _ (H eq_refl)). reflexivity.
Qed.

Lemma extract_chapters_int_over (d : pdf) :
  outline_chapters (outline d) = [] -> ~ toc_numbers_convert d ->
  extract_chapters_int d = Raise ValueError.
Proof.
  unfold extract_chapters_int, toc_chapters_int. intros -> H.
  rewrite (toc_append_over _ H). reflexivity.
Qed.

Lemma toc_numbers_convert_dec (d : pdf) :
  toc_numbers_convert d \/ ~ toc_numbers_convert d.
Proof.
  unfold toc_numbers_convert.
  destruct (decide (Forall (fun m => (String.length (nth 2 m "")
                                      <= int_max_str_digits)%nat)
                      (Re.findall toc_pattern 3 (BookChat.toc_text d))));
    [left|right]; assumption.
Qed.

Lemma extract_chapters_int_inv (d : pdf) (chapters : list chapter) :
  extract_chapters_int d = Ok chapters ->
  chapters = BookChat.extract_chapters_from_pdf d
  /\ (outline_chapters (outline d) = [] -> toc_numbers_convert d).
Proof.
  intros H.
  assert (Hconv : outline_chapters (outline d) = [] -> toc_numbers_convert d).
  { intros Hout. destruct (toc_numbers_convert_dec d) as [Hc|Hc]; [exact Hc|].
    rewrite (extract_chapters_int_over d Hout Hc) in H. discriminate. }
  split; [|exact Hconv].
  rewrite (extract_chapters_int_ok d Hconv) in H. congruence.
Qed.

(** With the page numbers within the limit, the handler is the one
    without the exception of [int]. *)
Lemma handle_upload_int_ok (md5_hexdigest : list Byte.byte -> string)
    (policy : on_conflict) (d : pdf) (store : gmap string (gmap string entry)) :
  (outline_chapters (outline d) = [] -> toc_numbers_convert d) ->
  handle_upload_int md5_hexdigest policy d store
  = handle_upload md5_hexdigest policy d store.
Proof.
  intros H. unfold handle_upload_int, handle_upload.
  rewrite (extract_chapters_int_ok d H). reflexivity.
Qed.

Lemma toc_pattern_match_number (s : string) (caps : list string) (s' : string) :
  Re.match_here toc_pattern 3 s = Some (caps, s') ->
  nth 2 caps "" <> "" /\ all_chars Py.isdigit (nth 2 caps "") = true.
Proof.
  intros H. unfold Re.match_here in H.
  apply (match_ends_with_digits 2 toc_pattern) in H as (c & ds & Hcaps & Hds).
  - rewrite nth_lookup, Hcaps. simpl. split; [discriminate|exact Hds].
  - simpl. auto.
  - simpl. lia.
Qed.

(** The page number of a chapter read from the matches. *)
Lemma toc_chapters_number (toc_text : string) :
  Forall (fun m => (String.length (nth 2 m "") <= int_max_str_digits)%nat)
    (Re.findall toc_pattern 3 toc_text) ->
  Forall (fun c =>
            exists digits,
              digits <> "" /\ all_chars Py.isdigit digits = true
              /\ int_of_digit_string digits = Ok (start_page c + 1))
    (toc_chapters toc_text).
Proof.
  intros Hconv. unfold toc_chapters. apply Forall_fmap.
  pose proof (findall_go_Forall
                (fun caps => nth 2 caps "" <> ""
                             /\ all_chars Py.isdigit (nth 2 caps "") = true)
                toc_pattern 3 toc_pattern_match_number
                (S (String.length toc_text)) toc_text) as Hdigits.
  fold (Re.findall toc_pattern 3 toc_text) in Hdigits.
  rewrite Forall_forall in Hconv, Hdigits. apply Forall_forall.
  intros m Hm. destruct (Hdigits m Hm) as [Hne Hall].
  unfold compose. exists (nth 2 m ""). split; [exact Hne|]. split; [exact Hall|].
  unfold int_of_digit_string. pose proof (Hconv m Hm) as Hlen.
  apply Nat.leb_le in Hlen. rewrite Hlen. unfold toc_chapter. cbn [start_page].
  f_equal. lia.
Qed.

(** The page numbers of the two tables of contents of the examples. *)
Lemma with_toc_numbers_convert : toc_numbers_convert Docs.with_toc.
Proof.
  unfold toc_numbers_convert.
  replace (Re.findall toc_pattern 3 (BookChat.toc_text Docs.with_toc))
    with [["Chapter 1"; "Intro"; "1"]; ["Chapter 2"; "Methods"; "3"]]
    by (vm_compute; reflexivity).
  apply Forall_cons. split; [apply Nat.leb_le; vm_compute; reflexivity|].
  apply Forall_cons. split; [apply Nat.leb_le; vm_compute; reflexivity|].
  constructor.
Qed.

Lemma long_number_over_limit : ~ toc_numbers_convert Docs.long_number.
Proof.
  unfold toc_numbers_convert. intros H.
  assert (Hm : (String.length (repeat_str 4301 "7") <= int_max_str_digits)%nat).
  { rewrite Forall_forall in H.
    apply (H ["Chapter 2"; "Methods"; repeat_str 4301 "7"]).
    replace (Re.findall toc_pattern 3 (BookChat.toc_text Docs.long_number))
      with [["Chapter 1"; "Intro"; "1"];
            ["Chapter 2"; "Methods"; repeat_str 4301 "7"]]
      by (vm_compute; reflexivity).
    right. left. }
  apply Nat.leb_le in Hm. vm_compute in Hm. discriminate.
Qed.

Lemma with_toc_page_numbers : page_numbers_int64 Docs.with_toc.
Proof.
  unfold page_numbers_int64.
  replace (BookChat.extract_chapters_from_pdf Docs.with_toc)
    with [{| title := "Intro"; start_page := 0; end_page := Some 2 |};
          {| title := "Methods"; start_page := 2; end_page := Some 4 |}]
    by (vm_compute; reflexivity).
  apply Forall_cons. split.
  { split; [unfold int64; simpl; lia|].
    intros e [= <-]. unfold int64. lia. }
  apply Forall_cons. split; [|constructor].
  split; [unfold int64; simpl; lia|].
  intros e [= <-]. unfold int64. lia.
Qed.

(** X9: for a document whose outline gives no chapter, the chapters are
    read from the table of contents without an exception exactly when
    every page number that the pattern finds has at most 4300 digits, the
    limit of [int]; otherwise the function raises [ValueError].  A
    chapter that is read starts at the page number minus one, the page
    number being what [int] gives for a string of decimal digits that is
    not empty, so at -1 or later; and its title has no white space at
    either end. *)
Theorem toc_chapter_shape (d : pdf) :
  outline_chapters (outline d) = [] ->
  ((exists chapters, extract_chapters_int d = Ok chapters) <-> toc_numbers_convert d)
  /\ (~ toc_numbers_convert d -> extract_chapters_int d = Raise ValueError)
  /\ forall chapters c,
       extract_chapters_int d = Ok chapters -> c ∈ chapters ->
       (exists digits,
           digits <> "" /\ all_chars Py.isdigit digits = true
           /\ int_of_digit_string digits = Ok (start_page c + 1))
       /\ -1 <= start_page c
       /\ forall a,
            first_char (title c) = Some a \/ last_char (title c) = Some a ->
            Py.isspace a = false.
Proof.
  intros Hout. split; [split|split].
  - intros [chapters H]. apply (extract_chapters_int_inv d chapters H), Hout.
  - intros H. eexists. apply extract_chapters_int_ok. intros _. exact H.
  - apply extract_chapters_int_over, Hout.
  - intros chapters c Hch Hc.
    destruct (extract_chapters_int_inv d chapters Hch) as [-> Hconv].
    unfold BookChat.extract_chapters_from_pdf in Hc. rewrite Hout in Hc.
    apply finish_chapters_elem in Hc as (c0 & Hc0 & -> & ->).
    pose proof (toc_chapters_number (BookChat.toc_text d) (Hconv Hout)) as Hnum.
    pose proof (toc_chapters_shape (BookChat.toc_text d)) as Hshape.
    rewrite Forall_forall in Hnum, Hshape.
    split; [apply Hnum, Hc0|apply Hshape, Hc0].
Qed.

Lemma toc_chapter_shape_witness :
  outline_chapters (outline Docs.with_toc) = []
  /\ toc_numbers_convert Docs.with_toc
  /\ extract_chapters_int Docs.with_toc
     = Ok [{| title := "Intro"; start_page := 0; end_page := Some 2 |};
           {| title := "Methods"; start_page := 2; end_page := Some 4 |}]
  /\ {| title := "Intro"; start_page := 0; end_page := Some 2 |}
       ∈ [{| title := "Intro"; start_page := 0; end_page := Some 2 |};
          {| title := "Methods"; start_page := 2; end_page := Some 4 |}]
  /\ (exists digits,
         digits <> "" /\ all_chars Py.isdigit digits = true
         /\ int_of_digit_string digits = Ok (0 + 1))
  /\ -1 <= 0
  /\ outline_chapters (outline Docs.long_number) = []
  /\ ~ toc_numbers_convert Docs.long_number
  /\ extract_chapters_int Docs.long_number = Raise ValueError.
Proof.
  assert (Hch : extract_chapters_int Docs.with_toc
                = Ok [{| title := "Intro"; start_page := 0; end_page := Some 2 |};
                      {| title := "Methods"; start_page := 2; end_page := Some 4 |}])
    by (vm_compute; reflexivity).
  assert (Hin : {| title := "Intro"; start_page := 0; end_page := Some 2 |}
                  ∈ [{| title := "Intro"; start_page := 0; end_page := Some 2 |};
                     {| title := "Methods"; start_page := 2; end_page := Some 4 |}])
    by left.
  pose proof long_number_over_limit as Hover.
  destruct (toc_chapter_shape Docs.with_toc eq_refl) as (Hiff & _ & Hshape).
  destruct (toc_chapter_shape Docs.long_number eq_refl) as (_ & Hraise & _).
  destruct (Hshape _ _ Hch Hin) as (Hdigits & Hstart & _).
  split; [reflexivity|]. split; [apply Hiff; eexists; exact Hch|].
  split; [exact Hch|]. split; [exact Hin|]. split; [exact Hdigits|].
  split; [exact Hstart|]. split; [reflexivity|]. split; [exact Hover|].
  exact (Hraise Hover).
Defined.

Lemma toc_text_no_pages (d : pdf) : pages d = [] -> BookChat.toc_text d = "".
Proof. intros H. unfold BookChat.toc_text. rewrite H. reflexivity. Qed.

Lemma pass_outcome_starts (d : pdf) (chapters : list chapter) :
  (forall c, c ∈ chapters ->
             (exists e, end_page c = Some e) /\ - num_pages d <= start_page c) ->
  pass_outcome d chapters = Ok tt.
Proof.
  intros H. apply pass_outcome_ok. intros c Hc.
  destruct (H c Hc) as [[e He] Hstart].
  destruct (extract_chapter_text_ok d (start_page c) e Hstart) as [text Htext].
  destruct (index_chapter_ok d c e text He Htext) as (call & Hcall & _).
  exists call. exact Hcall.
Qed.

Lemma chapter_starts_in_range (d : pdf) (c : chapter) :
  Forall (fun c => - num_pages d <= start_page c) (outline_chapters (outline d)) ->
  c ∈ BookChat.extract_chapters_from_pdf d ->
  - num_pages d <= start_page c.
Proof.
  intros Hout Hc. unfold BookChat.extract_chapters_from_pdf in Hc.
  destruct (outline_chapters (outline d)) as [|c1 rest] eqn:Hdest.
  - destruct (pages d) as [|page more] eqn:Hpages.
    + rewrite (toc_text_no_pages d Hpages) in Hc.
      apply elem_of_nil in Hc. contradiction.
    + apply finish_chapters_elem in Hc as (c0 & Hc0 & _ & ->).
      pose proof (toc_chapters_shape (BookChat.toc_text d)) as H.
      rewrite Forall_forall in H. destruct (H c0 Hc0) as [Hstart _].
      unfold num_pages. rewrite Hpages. simpl length. lia.
  - apply calculate_end_pages_elem in Hc as (c0 & Hc0 & _ & ->).
    rewrite Forall_forall in Hout. apply Hout, Hc0.
Qed.

(** X10: with the limit of [int] on the digits of a page number, the
    upload handler ends without an exception when no destination of the
    outline resolves to a page number below minus the number of pages,
    the page numbers handed to the store are integers of 64 bits and, for
    a document whose outline gives no chapter, every page number that the
    pattern finds in the table of contents has at most 4300 digits; for a
    document whose outline gives no chapter and whose table of contents
    has a page number of more than 4300 digits, the handler ends with a
    [ValueError] and leaves the store as it was. *)
Theorem handle_upload_no_exception (md5_hexdigest : list Byte.byte -> string)
    (policy : on_conflict) (d : pdf) (store : gmap string (gmap string entry)) :
  (Forall (fun c => - num_pages d <= start_page c) (outline_chapters (outline d)) ->
   page_numbers_int64 d ->
   (outline_chapters (outline d) = [] -> toc_numbers_convert d) ->
   exists ui, (handle_upload_int md5_hexdigest policy d store).2 = Ok ui)
  /\ (outline_chapters (outline d) = [] -> ~ toc_numbers_convert d ->
      handle_upload_int md5_hexdigest policy d store = (store, Raise ValueError)).
Proof.
  split.
  - intros Hout _ Hconv. rewrite (handle_upload_int_ok _ _ _ _ Hconv).
    destruct (BookChat.extract_chapters_from_pdf d) as [|c rest] eqn:Hch.
    + rewrite handle_upload_no_chapters by exact Hch. eexists. reflexivity.
    + rewrite handle_upload_chapters by congruence. cbn [snd].
      rewrite pass_outcome_starts; [eexists; reflexivity|].
      intros c' Hc'. split.
      * apply (chained_end_page _ _ c' (bookchat_chapters_chained d) Hc').
      * apply chapter_starts_in_range; assumption.
  - intros Hout Hover. unfold handle_upload_int.
    rewrite (extract_chapters_int_over d Hout Hover). reflexivity.
Qed.

Lemma handle_upload_no_exception_witness :
  Forall (fun c => - num_pages Docs.with_toc <= start_page c)
    (outline_chapters (outline Docs.with_toc))
  /\ page_numbers_int64 Docs.with_toc
  /\ (outline_chapters (outline Docs.with_toc) = [] ->
      toc_numbers_convert Docs.with_toc)
  /\ (exists ui, (handle_upload_int Docs.digest KeepExisting Docs.with_toc ∅).2
                 = Ok ui)
  /\ outline_chapters (outline Docs.long_number) = []
  /\ ~ toc_numbers_convert Docs.long_number
  /\ handle_upload_int Docs.digest KeepExisting Docs.long_number ∅
     = (∅, Raise ValueError).
Proof.
  assert (Hout : Forall (fun c => - num_pages Docs.with_toc <= start_page c)
                   (outline_chapters (outline Docs.with_toc))) by constructor.
  assert (Hconv : outline_chapters (outline Docs.with_toc) = [] ->
                  toc_numbers_convert Docs.with_toc)
    by (intros _; exact with_toc_numbers_convert).
  pose proof long_number_over_limit as Hover.
  pose proof with_toc_page_numbers as Hnum.
  split; [exact Hout|]. split; [exact Hnum|]. split; [exact Hconv|].
  split; [exact (proj1 (handle_upload_no_exception Docs.digest KeepExisting
                          Docs.with_toc ∅) Hout Hnum Hconv)|].
  split; [reflexivity|]. split; [exact Hover|].
  exact (proj2 (handle_upload_no_exception Docs.digest KeepExisting
                  Docs.long_number ∅) eq_refl Hover).
Defined.

(** ** The records of the collection after an upload *)

Lemma add_record_is_Some (policy : on_conflict) (coll : gmap string entry)
    (r : string * entry) (k : string) :
  is_Some (add_record policy coll r !! k) <-> is_Some (coll !! k) \/ k = r.1.
Proof.
  assert (Hins : is_Some (<[r.1 := r.2]> coll !! k)
                 <-> is_Some (coll !! k) \/ k = r.1).
  { rewrite lookup_insert_is_Some. destruct (decide (r.1 = k)) as [Heq|Hne].
    - split; auto.
    - split; [intros [H|[_ H]]; [congruence|auto]|].
      intros [H|H]; [right; auto|congruence]. }
  unfold add_record.
  destruct policy, (coll !! r.1) eqn:Hr; try exact Hins.
  split; [auto|]. intros [H|H]; [exact H|]. rewrite H, Hr. eauto.
Qed.

Lemma add_records_is_Some (policy : on_conflict) (recs : list (string * entry)) :
  forall (coll : gmap string entry) (k : string),
    is_Some (fold_left (add_record policy) recs coll !! k)
    <-> is_Some (coll !! k) \/ k ∈ recs.*1.
Proof.
  induction recs as [|r recs IH]; intros coll k; cbn [fold_left].
  - rewrite elem_of_nil. tauto.
  - rewrite IH, add_record_is_Some, fmap_cons, elem_of_cons. tauto.
Qed.

Lemma index_chapter_lengths (d : pdf) (c : chapter) (call : add_call) :
  index_chapter d c = Ok call ->
  length (call_ids call) = length (call_documents call)
  /\ length (call_metadatas call) = length (call_documents call).
Proof.
  unfold index_chapter. destruct (end_page c); [|discriminate].
  destruct (BookChat.extract_chapter_text _ _ _); simpl; [|discriminate].
  intros [= <-]. simpl. unfold chunk_ids. rewrite !length_map, length_seq. auto.
Qed.

Lemma call_records_ids (d : pdf) (c : chapter) (call : add_call) :
  index_chapter d c = Ok call -> (call_records call).*1 = call_ids call.
Proof.
  intros H. destruct (index_chapter_lengths d c call H) as [Hids Hmetas].
  unfold call_records. apply fst_zip. rewrite length_zip_with. lia.
Qed.

Lemma pass_records_ids (d : pdf) (chapters : list chapter) :
  (pass_records d chapters).*1 = assigned_ids d chapters.
Proof.
  induction chapters as [|c rest IH]; simpl; [reflexivity|].
  destruct (index_chapter d c) as [call|] eqn:Hcall; [|reflexivity].
  rewrite fmap_app, IH, (call_records_ids d c call Hcall). reflexivity.
Qed.

Section CollectionFacts.

Variable md5_hexdigest : list Byte.byte -> string.
Variable policy : on_conflict.

(** The collection of the document after the handler, in terms of the
    collection before it. *)
Lemma handle_upload_collection (d : pdf) (store : gmap string (gmap string entry)) :
  BookChat.extract_chapters_from_pdf d <> [] ->
  (handle_upload md5_hexdigest policy d store).1 !! collection_name md5_hexdigest d
  = Some (fold_left (add_record policy)
            (pass_records d (BookChat.extract_chapters_from_pdf d))
            (default ∅ (store !! collection_name md5_hexdigest d))).
Proof.
  intros Hne. rewrite handle_upload_chapters by exact Hne. cbn [fst].
  apply lookup_insert_eq.
Qed.

Lemma handle_upload_other (d : pdf) (store : gmap string (gmap string entry))
    (name : string) :
  name <> collection_name md5_hexdigest d ->
  (handle_upload md5_hexdigest policy d store).1 !! name = store !! name.
Proof.
  intros Hne.
  destruct (BookChat.extract_chapters_from_pdf d) as [|c rest] eqn:Hch.
  - rewrite handle_upload_no_chapters by exact Hch. reflexivity.
  - rewrite handle_upload_chapters by congruence. cbn [fst].
    rewrite lookup_insert_ne by congruence.
    unfold get_or_create_collection.
    destruct (store !! collection_name md5_hexdigest d); [reflexivity|].
    apply lookup_insert_ne. congruence.
Qed.

Lemma handle_upload_ids (d : pdf) (store : gmap string (gmap string entry))
    (id : string) :
  is_Some ((handle_upload md5_hexdigest policy d store).1
             !! collection_name md5_hexdigest d ≫= (.!! id))
  <-> is_Some (store !! collection_name md5_hexdigest d ≫= (.!! id))
      \/ id ∈ assigned_ids d (BookChat.extract_chapters_from_pdf d).
Proof.
  destruct (BookChat.extract_chapters_from_pdf d) as [|c rest] eqn:Hch.
  - rewrite handle_upload_no_chapters by exact Hch. simpl.
    rewrite elem_of_nil. tauto.
  - rewrite <- Hch, handle_upload_collection by congruence. simpl.
    rewrite add_records_is_Some, pass_records_ids.
    destruct (store !! collection_name md5_hexdigest d) as [coll|]; simpl;
      [reflexivity|].
    rewrite lookup_empty. split; (intros [H|H]; [|auto]);
      destruct H as [? H]; discriminate.
Qed.

End CollectionFacts.

(** X11: the handler changes no collection but the one of the document. *)
Theorem upload_leaves_other_collections (md5_hexdigest : list Byte.byte -> string)
    (policy : on_conflict) (d : pdf) (store : gmap string (gmap string entry))
    (name : string) :
  name <> collection_name md5_hexdigest d ->
  (handle_upload md5_hexdigest policy d store).1 !! name = store !! name.
Proof. apply handle_upload_other. Qed.

Lemma upload_leaves_other_collections_witness :
  "textbook_other" <> collection_name Docs.digest Docs.intro_methods
  /\ (handle_upload Docs.digest Overwrite Docs.intro_methods
        {[ "textbook_other" := ∅ ]}).1 !! "textbook_other"
     = ({[ "textbook_other" := ∅ ]} : gmap string (gmap string entry))
         !! "textbook_other".
Proof.
  assert (H : "textbook_other" <> collection_name Docs.digest Docs.intro_methods)
    by (vm_compute; discriminate).
  split; [exact H|].
  apply (upload_leaves_other_collections Docs.digest Overwrite Docs.intro_methods _ _ H).
Defined.


Lemma add_record_lookup_ne (policy : on_conflict) (coll : gmap string entry)
    (r : string * entry) (k : string) :
  k <> r.1 -> add_record policy coll r !! k = coll !! k.
Proof.
  intros Hne. unfold add_record.
  destruct policy, (coll !! r.1); try reflexivity;
    apply lookup_insert_ne; congruence.
Qed.

Lemma add_records_lookup_notin (policy : on_conflict) (recs : list (string * entry)) :
  forall (coll : gmap string entry) (k : string),
    k ∉ recs.*1 -> fold_left (add_record policy) recs coll !! k = coll !! k.
Proof.
  induction recs as [|r recs IH]; intros coll k Hk; cbn [fold_left]; [reflexivity|].
  rewrite fmap_cons, not_elem_of_cons in Hk. destruct Hk as [Hne Hk].
  rewrite IH by exact Hk. apply add_record_lookup_ne, Hne.
Qed.

(** A record whose id occurs once among the records added is found under
    its id afterwards, if the store replaces or the id is new. *)
Lemma add_records_lookup (policy : on_conflict) (recs : list (string * entry)) :
  forall (coll : gmap string entry) (k : string) (v : entry),
    NoDup recs.*1 -> (k, v) ∈ recs ->
    policy = Overwrite \/ coll !! k = None ->
    fold_left (add_record policy) recs coll !! k = Some v.
Proof.
  induction recs as [|r recs IH]; intros coll k v Hnd Hin Hfresh.
  - apply elem_of_nil in Hin. contradiction.
  - rewrite fmap_cons in Hnd. apply NoDup_cons in Hnd as [Hnotin Hnd].
    cbn [fold_left]. apply elem_of_cons in Hin as [<- | Hin].
    + rewrite add_records_lookup_notin by exact Hnotin.
      unfold add_record. simpl.
      destruct Hfresh as [-> | ->]; [|destruct policy]; apply lookup_insert_eq.
    + assert (Hne : k <> r.1).
      { intros ->. apply Hnotin. apply (list_elem_of_fmap_2 fst) in Hin. exact Hin. }
      apply IH; [exact Hnd|exact Hin|].
      destruct Hfresh as [H|H]; [left; exact H|right].
      rewrite add_record_lookup_ne by exact Hne. exact H.
Qed.

Lemma pass_records_elem (d : pdf) (chapters : list chapter) (c : chapter)
    (call : add_call) (r : string * entry) :
  pass_outcome d chapters = Ok tt -> c ∈ chapters ->
  index_chapter d c = Ok call -> r ∈ call_records call ->
  r ∈ pass_records d chapters.
Proof.
  induction chapters as [|c' rest IH]; intros Hok Hc Hcall Hr.
  - apply elem_of_nil in Hc. contradiction.
  - simpl in Hok |- *.
    destruct (index_chapter d c') as [call'|] eqn:Hcall'; [|discriminate].
    apply elem_of_app. apply elem_of_cons in Hc as [-> | Hc].
    + left. rewrite Hcall in Hcall'. injection Hcall' as <-. exact Hr.
    + right. apply IH; assumption.
Qed.

Lemma call_records_elem (d : pdf) (c : chapter) (e : Z) (text : string)
    (call : add_call) (i : nat) (chunk : string) :
  end_page c = Some e ->
  BookChat.extract_chapter_text d (start_page c) e = Ok text ->
  index_chapter d c = Ok call ->
  split_text_into_chunks text default_chunk_size !! i = Some chunk ->
  (title c +:+ "_chunk_" +:+ Py.str_of_nat i,
   {| document := chunk;
      meta := store_metadata
                {| meta_chapter := title c; meta_start_page := start_page c + 1;
                   meta_end_page := e |} |}) ∈ call_records call.
Proof.
  intros He Htext Hcall Hchunk.
  unfold index_chapter in Hcall. rewrite He, Htext in Hcall. simpl in Hcall.
  injection Hcall as <-. unfold call_records. simpl.
  pose proof (lookup_lt_Some _ _ _ Hchunk) as Hi.
  apply (list_elem_of_lookup_2 _ i).
  apply lookup_zip_with_Some. eexists _, _. split; [reflexivity|]. split.
  - unfold chunk_ids. change (map ?f ?l) with (f <$> l).
    rewrite list_lookup_fmap, lookup_seq_lt by exact Hi. reflexivity.
  - apply lookup_zip_with_Some. eexists _, _. split; [reflexivity|].
    split; [exact Hchunk|].
    change (map ?f ?l) with (f <$> l).
    rewrite list_lookup_fmap, Hchunk. reflexivity.
Qed.

(** X13: when the titles of the chapters are pairwise distinct and the pass
    ends without an exception, every chunk of every chapter is found in
    the collection of the document under its id, with the title and the
    page range of its chapter as the store keeps them: a page number of 64
    bits as it is, a larger one, within the range of a floating-point
    number, as the floating-point number nearest to it; provided the
    store replaces records or did not hold the id. *)
Theorem indexed_chunk_is_retrievable (md5_hexdigest : list Byte.byte -> string)
    (policy : on_conflict) (d : pdf) (store : gmap string (gmap string entry))
    (ui : list ui_event) (c : chapter) (e : Z) (text : string) (i : nat)
    (chunk : string) :
  (handle_upload md5_hexdigest policy d store).2 = Ok ui ->
  NoDup (map title (BookChat.extract_chapters_from_pdf d)) ->
  c ∈ BookChat.extract_chapters_from_pdf d ->
  end_page c = Some e ->
  double_range (start_page c + 1) -> double_range e ->
  BookChat.extract_chapter_text d (start_page c) e = Ok text ->
  split_text_into_chunks text default_chunk_size !! i = Some chunk ->
  policy = Overwrite
  \/ store !! collection_name md5_hexdigest d
       ≫= (.!! (title c +:+ "_chunk_" +:+ Py.str_of_nat i)) = None ->
  (handle_upload md5_hexdigest policy d store).1
    !! collection_name md5_hexdigest d
    ≫= (.!! (title c +:+ "_chunk_" +:+ Py.str_of_nat i))
  = Some {| document := chunk;
            meta := store_metadata
                      {| meta_chapter := title c;
                         meta_start_page := start_page c + 1;
                         meta_end_page := e |} |}.
Proof.
  intros Hui Hnd Hc He _ _ Htext Hchunk Hfresh.
  assert (Hne : BookChat.extract_chapters_from_pdf d <> []).
  { intros H. rewrite H in Hc. apply elem_of_nil in Hc. exact Hc. }
  rewrite handle_upload_chapters in Hui by exact Hne. cbn [snd] in Hui.
  destruct (pass_outcome d (BookChat.extract_chapters_from_pdf d)) as [[]|] eqn:Hok;
    [|discriminate].
  rewrite handle_upload_collection by exact Hne. simpl.
  destruct (index_chapter_ok d c e text He Htext) as (call & Hcall & _).
  apply add_records_lookup.
  - rewrite pass_records_ids. apply assigned_ids_NoDup, Hnd.
  - eapply pass_records_elem; [exact Hok|exact Hc|exact Hcall|].
    eapply call_records_elem; eassumption.
  - destruct Hfresh as [H|H]; [left; exact H|right].
    destruct (store !! collection_name md5_hexdigest d); simpl in *;
      [exact H|apply lookup_empty].
Qed.

(** ** The selection of a chapter and its guide *)

Lemma startswith_app (p s : string) : Py.startswith p (p +:+ s) = true.
Proof.
  induction p as [|c p IH]; [reflexivity|].
  rewrite app_cons_left. simpl. rewrite Ascii.eqb_refl. exact IH.
Qed.

Lemma startswith_prefix (p x y : string) :
  Py.startswith p x = true -> Py.startswith p (x +:+ y) = true.
Proof.
  revert x. induction p as [|c p IH]; intros x H; [reflexivity|].
  destruct x as [|b x]; [discriminate|].
  rewrite app_cons_left. simpl in *.
  apply andb_true_iff in H as [Hc Hp]. rewrite Hc. apply IH, Hp.
Qed.

Lemma startswith_drop (p s : string) :
  Py.startswith p s = true -> s = p +:+ drop_str (String.length p) s.
Proof.
  revert s. induction p as [|c p IH]; intros s H.
  - destruct s; reflexivity.
  - destruct s as [|b s]; [discriminate|]. simpl in H.
    apply andb_true_iff in H as [Hc Hp]. apply Ascii.eqb_eq in Hc. subst b.
    rewrite app_cons_left. simpl. f_equal. apply IH, Hp.
Qed.

(** The cut at the first occurrence of a separator that occurs. *)
Lemma split_once_go_found (sep : string) (s : string) : forall cur,
  sep <> "" -> Py.contains sep s = true ->
  exists a b,
    split_once_go sep cur s = [cur +:+ a; b]
    /\ s = a +:+ sep +:+ b
    /\ Py.contains sep a = false.
Proof.
  induction s as [|c s IH]; intros cur Hsep Hin.
  - simpl in Hin. rewrite orb_false_r in Hin.
    destruct sep; [congruence|discriminate].
  - cbn [split_once_go].
    destruct (Py.startswith sep (String c s)) eqn:Hstart.
    + exists "", (drop_str (String.length sep) (String c s)).
      rewrite app_nil_right. split; [reflexivity|].
      split; [apply startswith_drop, Hstart|].
      destruct sep; [congruence|reflexivity].
    + cbn [Py.contains] in Hin. rewrite Hstart in Hin. simpl in Hin.
      destruct (IH (Py.snoc cur c) Hsep Hin) as (a & b & Hgo & Hs & Hnot).
      exists (String c a), b. rewrite Hgo. split; [rewrite snoc_app; reflexivity|].
      split; [rewrite app_cons_left, <- Hs; reflexivity|].
      cbn [Py.contains]. rewrite Hnot, orb_false_r.
      destruct (Py.startswith sep (String c a)) eqn:Ha; [|reflexivity].
      apply (startswith_prefix _ _ (sep +:+ b)) in Ha.
      rewrite app_cons_left, <- Hs in Ha. congruence.
Qed.

(** The parts of the split of a reply. *)
Lemma split_sections_spec (content : string) :
  exists summary_part rest,
    split_sections content = Some (summary_part, practice_heading +:+ rest)
    /\ Py.contains practice_heading summary_part = false
    /\ (if Py.contains practice_heading content
        then summary_part +:+ practice_heading +:+ rest = content
        else summary_part = content
             /\ rest = String Py.newline "" +:+ "No questions generated.").
Proof.
  unfold split_sections.
  destruct (Py.contains practice_heading content) eqn:Hin.
  - destruct (split_once_go_found practice_heading content "" ltac:(discriminate) Hin)
      as (a & b & Hgo & Hs & Hnot).
    unfold split_once. rewrite Hgo, app_nil_left.
    exists a, b. auto.
  - eexists _, _. split; [reflexivity|]. auto.
Qed.

(** X14: the split of a reply never fails; the questions start with the
    heading, the summary does not contain it, and when the reply contains
    the heading the two parts together are the reply. *)
Theorem split_sections_parts (content : string) :
  exists summary_part rest,
    split_sections content = Some (summary_part, practice_heading +:+ rest)
    /\ Py.contains practice_heading summary_part = false
    /\ (if Py.contains practice_heading content
        then summary_part +:+ practice_heading +:+ rest = content
        else summary_part = content
             /\ rest = String Py.newline "" +:+ "No questions generated.").
Proof. apply split_sections_spec. Qed.

Lemma matching_indices_least (selected : string) (chapters : list chapter) :
  forall (i : nat),
    match matching_indices selected i chapters with
    | j :: _ =>
        (i <= j)%nat
        /\ (exists chap, chapters !! (j - i)%nat = Some chap
                         /\ Py.startswith (title chap) selected = true)
        /\ forall k chap, (k < j - i)%nat -> chapters !! k = Some chap ->
                          Py.startswith (title chap) selected = false
    | [] =>
        forall k chap, chapters !! k = Some chap ->
                       Py.startswith (title chap) selected = false
    end.
Proof.
  induction chapters as [|c rest IH]; intros i; simpl.
  - intros k chap H. discriminate.
  - destruct (Py.startswith (title c) selected) eqn:Hc.
    + split; [lia|]. replace (i - i)%nat with 0%nat by lia.
      split; [exists c; auto|]. intros k chap Hk. lia.
    + specialize (IH (S i)).
      destruct (matching_indices selected (S i) rest) as [|j more].
      * intros [|k] chap Hk; simpl in Hk; [congruence|eapply IH, Hk].
      * destruct IH as (Hle & (chap & Hchap & Hstart) & Hbefore).
        split; [lia|].
        replace (j - i)%nat with (S (j - S i)) by lia.
        split; [exists chap; auto|].
        intros [|k] chap' Hk Hk'; simpl in Hk'; [congruence|].
        apply (Hbefore k chap'); [lia|exact Hk'].
Qed.

(** The index that the main area picks is the least index of a chapter
    whose title starts the selected label. *)
Lemma chap_index_least (selected : string) (chapters : list chapter) :
  match chap_index selected chapters with
  | Ok j =>
      (exists chap, chapters !! j = Some chap
                    /\ Py.startswith (title chap) selected = true)
      /\ forall k chap, (k < j)%nat -> chapters !! k = Some chap ->
                        Py.startswith (title chap) selected = false
  | Raise e =>
      e = IndexError
      /\ forall k chap, chapters !! k = Some chap ->
                        Py.startswith (title chap) selected = false
  end.
Proof.
  unfold chap_index.
  pose proof (matching_indices_least selected chapters 0) as H.
  destruct (matching_indices selected 0 chapters) as [|j more].
  - auto.
  - destruct H as (_ & Hj & Hbefore).
    rewrite Nat.sub_0_r in Hj, Hbefore. auto.
Qed.

Lemma chapter_label_title (c : chapter) :
  Py.startswith (title c) (chapter_label c) = true.
Proof. unfold chapter_label. apply startswith_app. Qed.

(** X15: for the label of the chapter at index [k] the main area picks an
    index, at most [k]; it picks [k] exactly when no earlier chapter has a
    title that starts the label. *)
Theorem selected_chapter_index (chapters : list chapter) (k : nat) (c : chapter) :
  chapters !! k = Some c ->
  exists j,
    chap_index (chapter_label c) chapters = Ok j
    /\ (j <= k)%nat
    /\ (j = k <->
        forall k' c', (k' < k)%nat -> chapters !! k' = Some c' ->
                      Py.startswith (title c') (chapter_label c) = false).
Proof.
  intros Hk. pose proof (chap_index_least (chapter_label c) chapters) as H.
  destruct (chap_index (chapter_label c) chapters) as [j|e].
  - destruct H as ((chap & Hchap & Hstart) & Hbefore).
    exists j. split; [reflexivity|].
    assert (Hle : (j <= k)%nat).
    { destruct (Nat.le_gt_cases j k) as [Hle|Hgt]; [exact Hle|].
      pose proof (Hbefore k c Hgt Hk) as Hno.
      rewrite chapter_label_title in Hno. discriminate. }
    split; [exact Hle|]. split.
    + intros ->. exact Hbefore.
    + intros Hnone. destruct (Nat.eq_dec j k) as [Heq|Hne]; [exact Heq|].
      rewrite (Hnone j chap) in Hstart; [discriminate|lia|exact Hchap].
  - destruct H as [_ Hnone]. pose proof (Hnone k c Hk) as Hno.
    rewrite chapter_label_title in Hno. discriminate.
Qed.

Lemma selected_chapter_index_witness :
  BookChat.extract_chapters_from_pdf Docs.two_untitled !! 1%nat
  = Some {| title := ""; start_page := 1; end_page := Some 2 |}
  /\ chap_index " (pp. 2-2)"
       (BookChat.extract_chapters_from_pdf Docs.two_untitled) = Ok 0%nat
  /\ exists j,
       chap_index
         (chapter_label {| title := ""; start_page := 1; end_page := Some 2 |})
         (BookChat.extract_chapters_from_pdf Docs.two_untitled) = Ok j
       /\ (j <= 1)%nat.
Proof.
  assert (H : BookChat.extract_chapters_from_pdf Docs.two_untitled !! 1%nat
              = Some {| title := ""; start_page := 1; end_page := Some 2 |})
    by (vm_compute; reflexivity).
  split; [exact H|]. split; [vm_compute; reflexivity|].
  destruct (selected_chapter_index _ 1%nat _ H) as (j & Hj & Hle & _).
  exists j. auto.
Defined.

Lemma startswith_contains (p s : string) :
  Py.startswith p s = true -> Py.contains p s = true.
Proof. intros H. destruct s; simpl in *; rewrite H; reflexivity. Qed.

(** When the parts of a reply are empty: the questions never, the summary
    when the reply is empty or begins with the heading. *)
Lemma split_sections_truthy (content summary_part questions_part : string) :
  split_sections content = Some (summary_part, questions_part) ->
  Py.truthy (Some questions_part) = true
  /\ Py.truthy (Some summary_part)
     = Py.truthy (Some content) && negb (Py.startswith practice_heading content).
Proof.
  intros Hsplit.
  destruct (split_sections_spec content) as (summary & rest & Heq & _ & Hparts).
  rewrite Heq in Hsplit. injection Hsplit as <- <-.
  split; [reflexivity|].
  destruct (Py.contains practice_heading content) eqn:Hin.
  - destruct (Py.startswith practice_heading content) eqn:Hstart.
    + rewrite andb_false_r.
      unfold split_sections in Heq. rewrite Hin in Heq.
      unfold split_once in Heq.
      destruct content as [|c content]; [discriminate|].
      cbn [split_once_go] in Heq. rewrite Hstart in Heq.
      injection Heq as <- _. reflexivity.
    + rewrite andb_true_r.
      destruct summary as [|c summary].
      * rewrite app_nil_left in Hparts. rewrite <- Hparts, startswith_app in Hstart.
        discriminate.
      * rewrite <- Hparts. reflexivity.
  - destruct Hparts as [-> _].
    destruct (Py.startswith practice_heading content) eqn:Hstart.
    + apply startswith_contains in Hstart. congruence.
    + rewrite andb_true_r. reflexivity.
Qed.

(** X16: when the chapter is found and its text is read, the main area
    replaces the chapter data of the session only for a reply that is not
    empty and does not begin with the heading of the questions; for any
    other reply it keeps the data and shows no error, and after an
    exception of the model it keeps the data and shows the error. *)
Theorem generate_guide_outcome (chat : string -> reply) (d : pdf)
    (chapters : list chapter) (selected_chapter : string)
    (state : option chapter_data) (index : nat) (c : chapter) (e : Z)
    (text : string) :
  chap_index selected_chapter chapters = Ok index ->
  chapters !! index = Some c ->
  end_page c = Some e ->
  BookChat.extract_chapter_text d (start_page c) e = Ok text ->
  let spinner :=
    Processing ("Processing Chapter " +:+ Py.str_of_nat (index + 1)
                +:+ ": " +:+ title c +:+ "...") in
  match chat (Re.take (Z.to_nat 150000) text) with
  | Content content =>
      if Py.truthy (Some content)
         && negb (Py.startswith practice_heading content)
      then
        exists summary_part questions_part,
          split_sections content = Some (summary_part, questions_part)
          /\ generate_guide chat d chapters selected_chapter state
             = Ok (Some {| data_summary := summary_part;
                           data_questions := questions_part;
                           data_title := title c |}, [spinner])
      else
        generate_guide chat d chapters selected_chapter state
        = Ok (state, [spinner])
  | Failure message =>
      generate_guide chat d chapters selected_chapter state
      = Ok (state, [spinner; Error ("Error generating content: " +:+ message)])
  end.
Proof.
  intros Hindex Hc He Htext spinner.
  unfold generate_guide.
  rewrite Hindex. cbn [bind]. rewrite Hc, He, Htext. cbn [bind].
  unfold generate_rag_content.
  destruct (chat (Re.take (Z.to_nat 150000) text)) as [content|message];
    [|reflexivity].
  destruct (split_sections_spec content) as (summary & rest & Heq & _).
  rewrite Heq.
  destruct (split_sections_truthy _ _ _ Heq) as [Hq Hs].
  rewrite Hq, Hs, andb_true_r.
  destruct (Py.truthy (Some content) && negb (Py.startswith practice_heading content)).
  - exists summary, (practice_heading +:+ rest). split; reflexivity.
  - reflexivity.
Qed.

Lemma generate_guide_outcome_witness :
  chap_index "Intro (pp. 1-10)"
    (BookChat.extract_chapters_from_pdf Docs.intro_methods) = Ok 0%nat
  /\ BookChat.extract_chapters_from_pdf Docs.intro_methods !! 0%nat
     = Some {| title := "Intro"; start_page := 0; end_page := Some 10 |}
  /\ (exists text, BookChat.extract_chapter_text Docs.intro_methods 0 10 = Ok text)
  /\ generate_guide (fun _ => Content "## Practice Questions 1. Why?")
       Docs.intro_methods (BookChat.extract_chapters_from_pdf Docs.intro_methods)
       "Intro (pp. 1-10)" None
     = Ok (None, [Processing "Processing Chapter 1: Intro..."]).
Proof.
  assert (H1 : chap_index "Intro (pp. 1-10)"
                 (BookChat.extract_chapters_from_pdf Docs.intro_methods) = Ok 0%nat)
    by (vm_compute; reflexivity).
  assert (H2 : BookChat.extract_chapters_from_pdf Docs.intro_methods !! 0%nat
               = Some {| title := "Intro"; start_page := 0; end_page := Some 10 |})
    by (vm_compute; reflexivity).
  destruct (extract_chapter_text_ok Docs.intro_methods 0 10) as [text Htext];
    [vm_compute; discriminate|].
  split; [exact H1|]. split; [exact H2|]. split; [exists text; exact Htext|].
  exact (generate_guide_outcome (fun _ => Content "## Practice Questions 1. Why?")
           Docs.intro_methods _ "Intro (pp. 1-10)" None 0%nat _ 10 text
           H1 H2 eq_refl Htext).
Defined.

Lemma chapters_cover_document_witness :
  BookChat.extract_chapters_from_pdf Docs.with_toc
  = [{| title := "Intro"; start_page := 0; end_page := Some 2 |};
     {| title := "Methods"; start_page := 2; end_page := Some 4 |}]
  /\ ordered_starts (num_pages Docs.with_toc)
       [{| title := "Intro"; start_page := 0; end_page := Some 2 |};
        {| title := "Methods"; start_page := 2; end_page := Some 4 |}]
  /\ 0 <= 0
  /\ chapters_text Docs.with_toc
       [{| title := "Intro"; start_page := 0; end_page := Some 2 |};
        {| title := "Methods"; start_page := 2; end_page := Some 4 |}]
     = BookChat.extract_chapter_text Docs.with_toc 0 4
  /\ chapters_text Docs.with_toc
       [{| title := "Intro"; start_page := 0; end_page := Some 2 |};
        {| title := "Methods"; start_page := 2; end_page := Some 4 |}]
     = Ok (pages_text (pages Docs.with_toc)).
Proof.
  assert (H1 : BookChat.extract_chapters_from_pdf Docs.with_toc
               = [{| title := "Intro"; start_page := 0; end_page := Some 2 |};
                  {| title := "Methods"; start_page := 2; end_page := Some 4 |}])
    by (vm_compute; reflexivity).
  assert (H2 : ordered_starts (num_pages Docs.with_toc)
                 [{| title := "Intro"; start_page := 0; end_page := Some 2 |};
                  {| title := "Methods"; start_page := 2; end_page := Some 4 |}]).
  { change (num_pages Docs.with_toc) with 4. split.
    - intros [|[|i]] c next Hc Hn; simpl in Hc, Hn; try discriminate.
      injection Hc as <-. injection Hn as <-. simpl. lia.
    - intros c Hc. injection Hc as <-. simpl. lia. }
  assert (H3 : 0 <= 0) by lia.
  destruct (chapters_cover_document Docs.with_toc _ _ H1 H2) as [Hcall Hpages].
  split; [exact H1|]. split; [exact H2|]. split; [exact H3|].
  split; [exact Hcall|]. exact (Hpages H3).
Defined.

Lemma indexed_chunk_is_retrievable_witness :
  (handle_upload Docs.digest KeepExisting Docs.with_toc ∅).2
  = Ok [Spinner "Indexing textbook content...";
        Selectbox "Select Chapter" ["Intro (pp. 1-2)"; "Methods (pp. 3-4)"];
        Button "Generate Chapter Guide"]
  /\ double_range (2 + 1) /\ double_range 4
  /\ BookChat.extract_chapter_text Docs.with_toc 2 4
     = Ok ("third page" +:+ Py.blank_line +:+ "fourth page" +:+ Py.blank_line)
  /\ (handle_upload Docs.digest KeepExisting Docs.with_toc ∅).1
       !! collection_name Docs.digest Docs.with_toc ≫= (.!! "Methods_chunk_0")
     = Some {| document := "third page" +:+ Py.blank_line +:+ "fourth page"
                           +:+ Py.blank_line;
               meta := {| stored_chapter := "Methods";
                          stored_start_page := Int64 3;
                          stored_end_page := Int64 4 |} |}.
Proof.
  assert (Hui : (handle_upload Docs.digest KeepExisting Docs.with_toc ∅).2
                = Ok [Spinner "Indexing textbook content...";
                      Selectbox "Select Chapter"
                        ["Intro (pp. 1-2)"; "Methods (pp. 3-4)"];
                      Button "Generate Chapter Guide"])
    by (vm_compute; reflexivity).
  assert (Htext : BookChat.extract_chapter_text Docs.with_toc 2 4
                  = Ok ("third page" +:+ Py.blank_line +:+ "fourth page"
                        +:+ Py.blank_line))
    by (vm_compute; reflexivity).
  assert (Hchapters : BookChat.extract_chapters_from_pdf Docs.with_toc
                      = [{| title := "Intro"; start_page := 0; end_page := Some 2 |};
                         {| title := "Methods"; start_page := 2; end_page := Some 4 |}])
    by (vm_compute; reflexivity).
  assert (Hstart : double_range (2 + 1)) by (unfold double_range; simpl; lia).
  assert (Hend : double_range 4) by (unfold double_range; simpl; lia).
  split; [exact Hui|]. split; [exact Hstart|]. split; [exact Hend|].
  split; [exact Htext|].
  assert (Hnd : NoDup (map title (BookChat.extract_chapters_from_pdf Docs.with_toc))).
  { rewrite Hchapters. simpl. apply NoDup_cons. split.
    - intros Hin. apply list_elem_of_singleton in Hin. discriminate.
    - apply NoDup_singleton. }
  assert (Hin : {| title := "Methods"; start_page := 2; end_page := Some 4 |}
                  ∈ BookChat.extract_chapters_from_pdf Docs.with_toc)
    by (rewrite Hchapters; right; left).
  assert (Hchunk : split_text_into_chunks
                     ("third page" +:+ Py.blank_line +:+ "fourth page"
                      +:+ Py.blank_line) default_chunk_size !! 0%nat
                   = Some ("third page" +:+ Py.blank_line +:+ "fourth page"
                           +:+ Py.blank_line))
    by (vm_compute; reflexivity).
  exact (indexed_chunk_is_retrievable Docs.digest KeepExisting Docs.with_toc ∅ _
           {| title := "Methods"; start_page := 2; end_page := Some 4 |} 4
           _ 0%nat _ Hui Hnd Hin eq_refl Hstart Hend Htext Hchunk
           (or_intror eq_refl)).
Defined.

Lemma chunks_sealed_only_when_full_witness :
  split_text_into_chunks ("a b c" +:+ Py.blank_line +:+ "d e") 3 = ["a b c"; "d e"]
  /\ exists groups,
       split_text_into_chunks ("a b c" +:+ Py.blank_line +:+ "d e") 3
       = map (Py.join Py.blank_line) groups
       /\ concat groups = Py.split_blank ("a b c" +:+ Py.blank_line +:+ "d e")
       /\ forall i g g',
            groups !! i = Some g -> groups !! S i = Some g' ->
            exists para rest,
              g' = para :: rest
              /\ 3 < para_length (Py.join Py.blank_line g) + para_length para.
Proof.
  split; [vm_compute; reflexivity|].
  apply (chunks_sealed_only_when_full ("a b c" +:+ Py.blank_line +:+ "d e") 3).
Defined.


(** X17: the calculation of the end pages keeps the titles, the start pages
    and the order of the chapters, and leaves no end page unset. *)
Theorem calculate_end_pages_keeps (total : Z) (chapters : list chapter) :
  map title (calculate_end_pages total chapters) = map title chapters
  /\ map start_page (calculate_end_pages total chapters) = map start_page chapters
  /\ Forall (fun c => is_Some (end_page c)) (calculate_end_pages total chapters).
Proof.
  split; [apply calculate_end_pages_titles|]. split.
  - apply list_eq. intros j. rewrite !list_lookup_fmap, calculate_end_pages_lookup.
    destruct (chapters !! j); reflexivity.
  - apply Forall_lookup. intros i c Hc. rewrite calculate_end_pages_lookup in Hc.
    destruct (chapters !! i); [|discriminate]. injection Hc as <-.
    unfold resolved_at. simpl. eauto.
Qed.

(** X18: a chapter that starts at page -1, as for a table of contents that
    prints the page number 0, reads the last page of the document before
    the pages from the first one on. *)
Theorem extract_chapter_text_from_minus_one (d : pdf) (end_page : Z)
    (page : option string) :
  0 <= end_page ->
  last (pages d) = Some page ->
  BookChat.extract_chapter_text d (-1) end_page
  = let* text := BookChat.extract_chapter_text d 0 end_page in
    Ok (page_block page +:+ text).
Proof.
  intros Hend Hlast.
  rewrite (extract_chapter_text_split d (-1) 0 end_page) by lia.
  assert (Hfirst : BookChat.extract_chapter_text d (-1) 0 = Ok (page_block page)).
  { unfold BookChat.extract_chapter_text.
    change (Py.range (-1) 0) with [-1]. cbn [fold_left].
    rewrite text_step_page. unfold page_text_at, num_pages.
    rewrite last_lookup in Hlast.
    pose proof (lookup_lt_Some _ _ _ Hlast) as Hlen.
    replace (-1 <? Z.of_nat (length (pages d))) with true
      by (symmetry; apply Z.ltb_lt; lia).
    unfold Py.getitem.
    replace (0 <=? -1) with false by reflexivity.
    replace (- Z.of_nat (length (pages d)) <=? -1) with true
      by (symmetry; apply Z.leb_le; lia).
    replace (Z.to_nat (Z.of_nat (length (pages d)) + -1))
      with (pred (length (pages d))) by lia.
    rewrite Hlast. reflexivity. }
  rewrite Hfirst. reflexivity.
Qed.

Lemma extract_chapter_text_from_minus_one_witness :
  0 <= 1
  /\ last (pages Docs.with_toc) = Some (Some "fourth page")
  /\ BookChat.extract_chapter_text Docs.with_toc (-1) 1
     = let* text := BookChat.extract_chapter_text Docs.with_toc 0 1 in
       Ok (page_block (Some "fourth page") +:+ text).
Proof.
  split; [lia|]. split; [reflexivity|].
  apply (extract_chapter_text_from_minus_one Docs.with_toc 1); [lia|reflexivity].
Defined.

(** ** The text of a range of pages in [pages/app2.py] *)

Lemma app2_text_step_page (d : pdf) (acc : string) (n : Z) :
  App2.text_step d (Ok acc) n
  = let* block := app2_page_text_at d n in Ok (acc +:+ block).
Proof.
  unfold App2.text_step, app2_page_text_at. simpl.
  destruct (n <? num_pages d); simpl; [|rewrite app_nil_right; reflexivity].
  destruct (Py.getitem (pages d) n) as [[t|]|]; reflexivity.
Qed.

Lemma app2_fold_raise (d : pdf) (l : list Z) (e : exn) :
  fold_left (App2.text_step d) l (Raise e) = Raise e.
Proof. induction l as [|n l IH]; [reflexivity|exact IH]. Qed.

Lemma app2_fold_acc (d : pdf) (l : list Z) : forall acc,
  fold_left (App2.text_step d) l (Ok acc)
  = let* text := fold_left (App2.text_step d) l (Ok "") in Ok (acc +:+ text).
Proof.
  induction l as [|n l IH]; intros acc.
  - simpl. rewrite app_nil_right. reflexivity.
  - cbn [fold_left]. rewrite !app2_text_step_page.
    destruct (app2_page_text_at d n) as [block|e]; simpl.
    + rewrite app_nil_left, (IH (acc +:+ block)), (IH block).
      destruct (fold_left _ l (Ok "")); simpl; [|reflexivity].
      rewrite app_assoc_str. reflexivity.
    + rewrite app2_fold_raise. reflexivity.
Qed.

Lemma app2_pages_text_cons (page : option string) (l : list (option string)) :
  app2_pages_text (page :: l)
  = match page with
    | Some t => let* rest := app2_pages_text l in Ok (t +:+ Py.blank_line +:+ rest)
    | None => Raise TypeError
    end.
Proof. reflexivity. Qed.

Lemma app2_pages_from (d : pdf) (n : nat) : forall (k : nat),
  fold_left (App2.text_step d) (map Z.of_nat (seq k n)) (Ok "")
  = app2_pages_text (take n (drop k (pages d))).
Proof.
  induction n as [|n IH]; intros k; [reflexivity|].
  cbn [seq map fold_left]. rewrite app2_text_step_page.
  unfold app2_page_text_at, num_pages. rewrite getitem_nonneg.
  destruct (Z.of_nat k <? Z.of_nat (length (pages d))) eqn:Hk.
  - apply Z.ltb_lt in Hk.
    destruct (pages d !! k) as [page|] eqn:Hpage;
      [|apply lookup_ge_None in Hpage; lia].
    rewrite (drop_S _ _ _ Hpage). cbn [take]. rewrite app2_pages_text_cons.
    destruct page as [t|]; cbn [bind].
    + rewrite app_nil_left, app2_fold_acc, IH.
      destruct (app2_pages_text (take n (drop (S k) (pages d)))); cbn [bind];
        [rewrite app_assoc_str|]; reflexivity.
    + apply app2_fold_raise.
  - apply Z.ltb_ge in Hk. simpl.
    rewrite IH. rewrite !drop_ge by lia. rewrite !take_nil. reflexivity.
Qed.

(** X19: in [pages/app2.py], for a start page that is not negative, the
    text of the pages [start_page] to [end_page - 1] is the text of every
    page that the document has at these indices (none when [end_page] is
    [start_page] or less) followed by a blank line, an empty text
    included, and a [TypeError] as soon as one of them is a page without
    text. *)
Theorem app2_extract_chapter_text_slice (d : pdf) (start_page end_page : Z) :
  0 <= start_page ->
  App2.extract_chapter_text d start_page end_page
  = app2_pages_text (take (Z.to_nat (end_page - start_page))
                       (drop (Z.to_nat start_page) (pages d))).
Proof.
  intros H. unfold App2.extract_chapter_text.
  rewrite range_of_nat by exact H. apply app2_pages_from.
Qed.

Lemma app2_extract_chapter_text_slice_witness :
  0 <= 0
  /\ App2.extract_chapter_text Docs.scanned 0 1 = Raise TypeError
  /\ App2.extract_chapter_text Docs.with_toc 1 3
     = Ok ("second page" +:+ Py.blank_line +:+ "third page" +:+ Py.blank_line).
Proof.
  split; [lia|]. split.
  - rewrite (app2_extract_chapter_text_slice Docs.scanned 0 1) by lia. reflexivity.
  - vm_compute. reflexivity.
Defined.



(** ** Chapters without text, with an empty span or with the same title *)


(** What the loop hands to [add] for a chapter whose text is empty. *)
Lemma index_chapter_empty_text (d : pdf) (c : chapter) (e : Z) :
  end_page c = Some e ->
  BookChat.extract_chapter_text d (start_page c) e = Ok "" ->
  index_chapter d c
  = Ok {| call_documents := [""];
          call_metadatas := [{| meta_chapter := title c;
                                meta_start_page := start_page c + 1;
                                meta_end_page := e |}];
          call_ids := [title c +:+ "_chunk_0"] |}.
Proof.
  intros He Htext. unfold index_chapter. rewrite He, Htext. reflexivity.
Qed.

Lemma extract_chapter_text_empty_range (d : pdf) (start_page end_page : Z) :
  end_page <= start_page ->
  BookChat.extract_chapter_text d start_page end_page = Ok "".
Proof.
  intros H. unfold BookChat.extract_chapter_text, Py.range.
  replace (Z.to_nat (end_page - start_page)) with 0%nat by lia. reflexivity.
Qed.

Lemma assigned_ids_first (d : pdf) (chapters : list chapter) (c : chapter) :
  pass_outcome d chapters = Ok tt -> c ∈ chapters ->
  (title c +:+ "_chunk_0") ∈ assigned_ids d chapters.
Proof.
  induction chapters as [|c' rest IH]; intros Hok Hc.
  - apply elem_of_nil in Hc. contradiction.
  - simpl in Hok |- *.
    destruct (index_chapter d c') as [call|] eqn:Hcall; [|discriminate].
    apply elem_of_app. apply elem_of_cons in Hc as [-> | Hc].
    + left. destruct (index_chapter_first_id d c' call Hcall) as (n & _ & ->). left.
    + right. apply IH; assumption.
Qed.




Section PassFacts.

Variable md5_hexdigest : list Byte.byte -> string.
Variable policy : on_conflict.

Lemma handle_upload_pass (d : pdf) (store : gmap string (gmap string entry))
    (ui : list ui_event) :
  (handle_upload md5_hexdigest policy d store).2 = Ok ui ->
  pass_outcome d (BookChat.extract_chapters_from_pdf d) = Ok tt
  /\ forall text, Warning text ∈ ui -> BookChat.extract_chapters_from_pdf d = [].
Proof.
  destruct (BookChat.extract_chapters_from_pdf d) as [|c rest] eqn:Hch.
  - intros _. split; [reflexivity|auto].
  - rewrite handle_upload_chapters by congruence. cbn [snd]. rewrite Hch.
    destruct (pass_outcome d (c :: rest)) as [[]|]; [|discriminate].
    intros [= <-]. split; [reflexivity|]. intros text Hin.
    repeat (apply elem_of_cons in Hin as [Hin|Hin]; [discriminate|]).
    apply elem_of_nil in Hin. contradiction.
Qed.

End PassFacts.





Lemma calculate_end_pages_starts (total : Z) (chapters : list chapter) :
  map start_page (calculate_end_pages total chapters) = map start_page chapters.
Proof.
  apply list_eq. intros j. rewrite !list_lookup_fmap, calculate_end_pages_lookup.
  destruct (chapters !! j); reflexivity.
Qed.

(** The list that is returned has a chapter for every draft, with its
    title and its start page. *)
Lemma extract_chapters_drafts (d : pdf) :
  map title (BookChat.extract_chapters_from_pdf d) = map title (chapter_drafts d)
  /\ map start_page (BookChat.extract_chapters_from_pdf d)
     = map start_page (chapter_drafts d).
Proof.
  unfold BookChat.extract_chapters_from_pdf, chapter_drafts.
  destruct (outline_chapters (outline d)) as [|c rest].
  - destruct (toc_chapters (BookChat.toc_text d)) as [|c rest]; [split; reflexivity|].
    split; [apply calculate_end_pages_titles|apply calculate_end_pages_starts].
  - split; [apply calculate_end_pages_titles|apply calculate_end_pages_starts].
Qed.

(** C6, amended: every chapter of the list that is returned spans at least
    one page exactly when the start pages grow strictly and stay below the
    number of pages; no draft is dropped, whatever its span: the list has
    the titles and the start pages of the drafts, in order; and a chapter
    that ends at or before its start is not rejected: its text is empty,
    the loop hands one empty document for it to [add] under the id of its
    first chunk, and after a pass without an exception the collection
    holds that id. *)
Theorem chapter_spans_unchecked (md5_hexdigest : list Byte.byte -> string)
    (policy : on_conflict) (d : pdf) (store : gmap string (gmap string entry)) :
  (Forall proper_span (BookChat.extract_chapters_from_pdf d)
   <-> increasing_starts (num_pages d) (BookChat.extract_chapters_from_pdf d))
  /\ map title (BookChat.extract_chapters_from_pdf d) = map title (chapter_drafts d)
  /\ map start_page (BookChat.extract_chapters_from_pdf d)
     = map start_page (chapter_drafts d)
  /\ (forall c e,
        c ∈ BookChat.extract_chapters_from_pdf d ->
        end_page c = Some e -> e <= start_page c ->
        index_chapter d c
        = Ok {| call_documents := [""];
                call_metadatas := [{| meta_chapter := title c;
                                      meta_start_page := start_page c + 1;
                                      meta_end_page := e |}];
                call_ids := [title c +:+ "_chunk_0"] |}
        /\ forall ui,
             (handle_upload md5_hexdigest policy d store).2 = Ok ui ->
             is_Some ((handle_upload md5_hexdigest policy d store).1
                        !! collection_name md5_hexdigest d
                        ≫= (.!! (title c +:+ "_chunk_0")))).
Proof.
  split; [apply chained_proper_spans, bookchat_chapters_chained|].
  split; [apply extract_chapters_drafts|].
  split; [apply extract_chapters_drafts|].
  intros c e Hc He Hle. split.
  - apply index_chapter_empty_text; [exact He|].
    apply extract_chapter_text_empty_range, Hle.
  - intros ui Hui. destruct (handle_upload_pass _ _ _ _ _ Hui) as [Hok _].
    apply handle_upload_ids. right. apply assigned_ids_first; assumption.
Qed.

Lemma chapter_spans_unchecked_witness :
  increasing_starts (num_pages Docs.intro_methods)
    (BookChat.extract_chapters_from_pdf Docs.intro_methods)
  /\ Forall proper_span (BookChat.extract_chapters_from_pdf Docs.intro_methods)
  /\ {| title := "A"; start_page := 5; end_page := Some 3 |}
       ∈ BookChat.extract_chapters_from_pdf Docs.backwards
  /\ 3 <= 5
  /\ (handle_upload Docs.digest KeepExisting Docs.backwards ∅).2
     = Ok [Spinner "Indexing textbook content...";
           Selectbox "Select Chapter" ["A (pp. 6-3)"; "B (pp. 4-10)"];
           Button "Generate Chapter Guide"]
  /\ index_chapter Docs.backwards
       {| title := "A"; start_page := 5; end_page := Some 3 |}
     = Ok {| call_documents := [""];
             call_metadatas := [{| meta_chapter := "A"; meta_start_page := 6;
                                   meta_end_page := 3 |}];
             call_ids := ["A_chunk_0"] |}
  /\ is_Some ((handle_upload Docs.digest KeepExisting Docs.backwards ∅).1
                !! collection_name Docs.digest Docs.backwards
                ≫= (.!! "A_chunk_0")).
Proof.
  assert (Hinc : increasing_starts (num_pages Docs.intro_methods)
                   (BookChat.extract_chapters_from_pdf Docs.intro_methods)).
  { replace (BookChat.extract_chapters_from_pdf Docs.intro_methods)
      with [{| title := "Intro"; start_page := 0; end_page := Some 10 |};
            {| title := "Methods"; start_page := 10; end_page := Some 20 |}]
      by (vm_compute; reflexivity).
    change (num_pages Docs.intro_methods) with 20. split.
    - intros [|[|i]] c next Hc Hn; simpl in Hc, Hn; try discriminate.
      injection Hc as <-. injection Hn as <-. simpl. lia.
    - intros c Hc. injection Hc as <-. simpl. lia. }
  assert (Hin : {| title := "A"; start_page := 5; end_page := Some 3 |}
                  ∈ BookChat.extract_chapters_from_pdf Docs.backwards).
  { rewrite backwards_chapters. left. }
  assert (Hle : 3 <= 5) by lia.
  assert (Hui : (handle_upload Docs.digest KeepExisting Docs.backwards ∅).2
                = Ok [Spinner "Indexing textbook content...";
                      Selectbox "Select Chapter" ["A (pp. 6-3)"; "B (pp. 4-10)"];
                      Button "Generate Chapter Guide"])
    by (vm_compute; reflexivity).
  split; [exact Hinc|].
  split; [exact (proj2 (proj1 (chapter_spans_unchecked Docs.digest KeepExisting
                                 Docs.intro_methods ∅)) Hinc)|].
  split; [exact Hin|]. split; [exact Hle|]. split; [exact Hui|].
  destruct (proj2 (proj2 (proj2 (chapter_spans_unchecked Docs.digest KeepExisting
                                   Docs.backwards ∅)))
              {| title := "A"; start_page := 5; end_page := Some 3 |} 3
              Hin eq_refl Hle) as [Hcall Hstore].
  split; [exact Hcall|]. exact (Hstore _ Hui).
Defined.

(** ** Chapters with the same title *)





